(** * Request validation and typed dispatch of azure-functions-openapi

    A shallow embedding of the request pipeline of the library:
    - the conversion helpers and the four typed parsers of [utils.ts]
      ([convertParamsToObject], [convertQueryToObject],
      [convertHeadersToObject], [parseRouteParams], [parseQueryParams],
      [parseBody], [parseHeaders]);
    - the orchestrator, the request guard and the dispatcher of
      [internal/parsing.ts] ([parseRequest], [createSafeRequest],
      [wrapTypedHandler]).

    JavaScript values are an inductive type, exceptions are a sum, the body
    stream of the request is explicit state, and [await] is sequencing. *)

From Stdlib Require Import String Ascii List ZArith NArith Bool Lia DecimalString.
Import ListNotations.
Open Scope string_scope.

Set Implicit Arguments.
Set Warnings "-register-all".

(** ** Strings *)

Module Str.

(** [s.includes(needle)]: the needle occurs somewhere in [s]. *)
Fixpoint includes (needle s : string) : bool :=
  if String.prefix needle s then true
  else match s with
       | EmptyString => false
       | String _ rest => includes needle rest
       end.

(** [c.toLowerCase()] on one ASCII character. *)
Definition lower_ascii (c : ascii) : ascii :=
  let n := N_of_ascii c in
  if ((65 <=? n) && (n <=? 90))%N then ascii_of_N (n + 32) else c.

(** [s.toLowerCase()], for ASCII text (header names are ASCII tokens). *)
Fixpoint toLowerCase (s : string) : string :=
  match s with
  | EmptyString => EmptyString
  | String c rest => String (lower_ascii c) (toLowerCase rest)
  end.

(** [parts.join(sep)]. *)
Fixpoint join (sep : string) (parts : list string) : string :=
  match parts with
  | [] => ""
  | [p] => p
  | p :: rest => p ++ sep ++ join sep rest
  end.

(** The decimal spelling of an array index. *)
Definition of_index (i : nat) : string :=
  NilEmpty.string_of_uint (Nat.to_uint i).

End Str.

(** Lookup in a table of own properties kept in creation order. *)
Fixpoint assoc {A : Type} (key : string) (l : list (string * A)) : option A :=
  match l with
  | [] => None
  | (k, v) :: rest => if String.eqb k key then Some v else assoc key rest
  end.

(** [o[key] = v] on a table of own properties: the value is replaced in place
    when the key is there and the property is added at the end when it is not. *)
Fixpoint assign {A : Type} (key : string) (v : A) (l : list (string * A))
  : list (string * A) :=
  match l with
  | [] => [(key, v)]
  | (k, w) :: rest =>
      if String.eqb k key then (k, v) :: rest else (k, w) :: assign key v rest
  end.

(** ** JavaScript values *)

(** The methods of a request that read its body stream. *)
Inductive BodyMethod := MJson | MText | MFormData | MArrayBuffer | MBlob.

(** The values the pipeline handles.  Numbers are carried, never computed
    with, and integers stand for them.  Plain objects are tables of own
    enumerable data properties in creation order (the place JavaScript gives
    to integer-like keys in an enumeration is not modelled).  [VObjectOver]
    is a plain object whose
    prototype has been replaced by an array (what an assignment to its
    [__proto__] does).  [VBuiltin] stands for a function or object of the
    runtime, named by its path.  [VParams], [VQuery], [VHeaders] and
    [VStream] are the framework's [HttpRequestParams] (a record of strings),
    [URLSearchParams], [Headers] (both in iteration order) and body stream;
    [VBodyReader] is a body-reading method of the framework's request. *)
Inductive Val :=
| VUndefined
| VNull
| VBool (b : bool)
| VNumber (n : Z)
| VString (s : string)
| VArray (items : list Val)
| VObject (fields : list (string * Val))
| VObjectOver (fields : list (string * Val)) (proto : list Val)
| VBuiltin (path : string)
| VParams (entries : list (string * string))
| VQuery (entries : list (string * string))
| VHeaders (entries : list (string * string))
| VStream
| VBodyReader (m : BodyMethod).

(** [z.ZodError]: the structured failure of a schema, a list of issues. *)
Record ZodError := { issues : list Val }.

(** What can be thrown: the library's [ValidationError] (a message and,
    optionally, the [ZodError] it wraps), a [ZodError] as thrown by
    [schema.parse], or any other error, by name and message. *)
Inductive JsError :=
| EValidation (message : string) (zodError : option ZodError)
| EZod (z : ZodError)
| EError (name message : string).

(** The outcome of evaluating an expression. *)
Inductive Completion (A : Type) :=
| Return (a : A)
| Throw (e : JsError).
Arguments Return {A} a.
Arguments Throw {A} e.

(** A schema, through its [parse] method: the typed value, a thrown
    [ZodError] when the input is rejected, or whatever else a refinement or
    transform of the schema throws. *)
Definition Schema := Val -> Completion Val.

(** ** State and the monad of the pipeline *)

(** The four parts of a request. *)
Inductive Part := PParams | PQuery | PBody | PHeaders.

(** Calls that are recorded as they happen: entering a typed parser, calling
    [schema.parse], and reading the body stream.  The record is bookkeeping
    of the model, what a spy on these functions would see; it is there to
    state that a call did not happen. *)
Inductive Event :=
| EvParser (p : Part)
| EvSchema (p : Part)
| EvBodyRead (m : BodyMethod).

(** The body behind the request and the record of calls, oldest first.
    [st_body] is the text of the body; a request whose body is empty has no
    stream at all, so that there is nothing a reader could use up.
    [st_bodyUsed] is the [bodyUsed] flag of the request. *)
Record State := mkState {
  st_body : string;
  st_bodyUsed : bool;
  st_trace : list Event
}.

Definition M (A : Type) := State -> Completion A * State.

Definition ret {A} (a : A) : M A := fun st => (Return a, st).
Definition throw {A} (e : JsError) : M A := fun st => (Throw e, st).
Definition bind {A B} (m : M A) (k : A -> M B) : M B :=
  fun st => match m st with
            | (Return a, st') => k a st'
            | (Throw e, st') => (Throw e, st')
            end.

(** [try { m } catch (error) { h error }]. *)
Definition try_catch {A} (m : M A) (h : JsError -> M A) : M A :=
  fun st => match m st with
            | (Return a, st') => (Return a, st')
            | (Throw e, st') => h e st'
            end.
Definition lift {A} (c : Completion A) : M A := fun st => (c, st).

(** The state once a call has been recorded. *)
Definition logged (ev : Event) (st : State) : State :=
  mkState (st_body st) (st_bodyUsed st) (st_trace st ++ [ev]).

(** The state once a body reader has been called: the stream is used up
    when there is one, and a request without a body stays as it was. *)
Definition consumed (m : BodyMethod) (st : State) : State :=
  mkState (st_body st)
          (st_bodyUsed st || negb (String.eqb (st_body st) ""))
          (st_trace st ++ [EvBodyRead m]).

Definition emit (ev : Event) : M unit := fun st => (Return tt, logged ev st).

Declare Scope js_scope.
Delimit Scope js_scope with js.
Notation "x <- m ;; k" := (bind m (fun x => k))
  (at level 61, m at next level, right associativity) : js_scope.
Notation "m ;;; k" := (bind m (fun _ => k))
  (at level 61, right associativity) : js_scope.
Open Scope js_scope.

(** ** Request objects *)

(** A getter either returns a value or throws. *)
Inductive Getter :=
| GetterReturns (v : Val)
| GetterThrows (e : JsError).

(** A property of an object: a data property or an accessor, by its getter.
    The accessors the pipeline defines have no setter, and the setters of a
    request play no part: [Object.assign] only reads its source. *)
Inductive PropDesc :=
| DataProp (value : Val) (writable enumerable : bool)
| AccessorProp (get : Getter) (enumerable : bool).

(** An object: its own properties in creation order and its prototype.
    A chain ends ([None]) at [Object.prototype], whose members (and the
    key [__proto__]) are left out of the model of request objects: the
    property names of a request are the framework's. *)
Inductive JsObject :=
| Obj (own : list (string * PropDesc)) (proto : option JsObject).

Definition own_props (o : JsObject) : list (string * PropDesc) :=
  match o with Obj own _ => own end.

Definition prototype_of (o : JsObject) : option JsObject :=
  match o with Obj _ proto => proto end.

Definition prop_enumerable (d : PropDesc) : bool :=
  match d with
  | DataProp _ _ e => e
  | AccessorProp _ e => e
  end.

(** The value of a property when it is read. *)
Definition prop_read (d : PropDesc) : Completion Val :=
  match d with
  | DataProp v _ _ => Return v
  | AccessorProp (GetterReturns v) _ => Return v
  | AccessorProp (GetterThrows e) _ => Throw e
  end.

(** The property [key] as the prototype chain of [o] defines it. *)
Fixpoint find_prop (o : JsObject) (key : string) : option PropDesc :=
  match o with
  | Obj own proto =>
      match assoc key own with
      | Some d => Some d
      | None => match proto with
                | Some p => find_prop p key
                | None => None
                end
      end
  end.

(** [o[key]]. *)
Definition Get (o : JsObject) (key : string) : Completion Val :=
  match find_prop o key with
  | Some d => prop_read d
  | None => Return VUndefined
  end.

(** [o[key] = v] in strict mode: an own writable data property is updated;
    a key found nowhere, or found as a writable data property of a
    prototype, becomes an own enumerable data property; a read-only data
    property or an accessor without setter makes the assignment throw. *)
Definition Set_ (o : JsObject) (key : string) (v : Val) : Completion JsObject :=
  let cannot := Throw (EError "TypeError"
    ("Cannot set property " ++ key ++ " of #<Object> which has only a getter")) in
  let readonly := Throw (EError "TypeError"
    ("Cannot assign to read only property '" ++ key ++ "' of object")) in
  match o with
  | Obj own proto =>
      match assoc key own with
      | Some (DataProp _ true e) => Return (Obj (assign key (DataProp v true e) own) proto)
      | Some (DataProp _ false _) => readonly
      | Some (AccessorProp _ _) => cannot
      | None =>
          match match proto with Some p => find_prop p key | None => None end with
          | Some (DataProp _ false _) => readonly
          | Some (AccessorProp _ _) => cannot
          | _ => Return (Obj (own ++ [(key, DataProp v true true)]) proto)
          end
      end
  end.

(** [Object.create(proto)]. *)
Definition Object_create (proto : JsObject) : JsObject := Obj [] (Some proto).

(** [Object.assign(target, source)]: every own enumerable property of the
    source, in order, is read and assigned to the target. *)
Fixpoint assign_props (target : JsObject) (props : list (string * PropDesc))
  : Completion JsObject :=
  match props with
  | [] => Return target
  | (key, d) :: rest =>
      if prop_enumerable d then
        match prop_read d with
        | Return v => match Set_ target key v with
                      | Return target' => assign_props target' rest
                      | Throw e => Throw e
                      end
        | Throw e => Throw e
        end
      else assign_props target rest
  end.

Definition Object_assign (target source : JsObject) : Completion JsObject :=
  assign_props target (own_props source).

(** ** The runtime *)

(** What the pipeline takes from the JavaScript runtime and is not code of
    the library: [JSON.parse] (the value of a JSON text, [None] when it
    throws a [SyntaxError], as it does on the empty text) and the string
    keys of [Array.prototype]. *)
Class Runtime := {
  JSON_parse : string -> option Val;
  ArrayPrototype_has : string -> bool;
  JSON_parse_empty : JSON_parse "" = None
}.

(** The string-keyed data members of [Object.prototype]; its only accessor,
    [__proto__], is handled where objects are read and written. *)
Definition ObjectPrototype_members : list string :=
  [ "constructor"; "__defineGetter__"; "__defineSetter__"; "hasOwnProperty";
    "__lookupGetter__"; "__lookupSetter__"; "isPrototypeOf";
    "propertyIsEnumerable"; "toString"; "valueOf"; "toLocaleString" ].

Definition ObjectPrototype_has (key : string) : bool :=
  existsb (String.eqb key) ObjectPrototype_members.

(** [key] read through [Object.prototype]. *)
Definition ObjectPrototype_get (key : string) : Val :=
  if ObjectPrototype_has key then VBuiltin ("Object.prototype." ++ key)
  else VUndefined.

(** The position an array index key denotes in an array of [n] items. *)
Definition index_of_key (n : nat) (key : string) : option nat :=
  find (fun i => String.eqb (Str.of_index i) key) (seq 0 n).

(** [Headers.get(name)]: the values of the entries of that name, compared
    without case, joined by a comma and a space; [None] is [null]. *)
Definition Headers_get (h : list (string * string)) (name : string) : option string :=
  match filter (fun e => String.eqb (Str.toLowerCase (fst e)) (Str.toLowerCase name)) h with
  | [] => None
  | found => Some (Str.join ", " (map snd found))
  end.

(** [request.headers.get(name)] on whatever [request.headers] is. *)
Definition call_headers_get (headers : Val) (name : string) : M (option string) :=
  match headers with
  | VHeaders h => ret (Headers_get h name)
  | _ => throw (EError "TypeError" "request.headers.get is not a function")
  end.

(** The schemas of a route: [RequestSchemas]. *)
Record RequestSchemas := mkSchemas {
  s_params : option Schema;
  s_query : option Schema;
  s_body : option Schema;
  s_headers : option Schema
}.

(** [ParsedRequest]. *)
Record ParsedRequest := mkParsed {
  p_params : Val;
  p_query : Val;
  p_body : Val;
  p_headers : Val
}.

(** The framework's [InvocationContext], passed through to the handler. *)
Record InvocationContext := { invocationId : string; functionName : string }.

(** [TypedHandlerArgs]. *)
Record TypedHandlerArgs := mkArgs {
  a_params : Val;
  a_query : Val;
  a_body : Val;
  a_headers : Val;
  a_request : JsObject;
  a_context : InvocationContext
}.

(** [TypedHandler]: the response is an [HttpResponseInit], a plain object. *)
Definition TypedHandler := TypedHandlerArgs -> M Val.

(** The framework's [HttpHandler]. *)
Definition HttpHandler := JsObject -> InvocationContext -> M Val.

Section Pipeline.

Context {rt : Runtime}.

(** *** Conversion helpers (utils.ts) *)

(** An object literal [{}] being filled: its own properties and, once an
    assignment to [__proto__] has replaced its prototype, the array that is
    its prototype ([None] while it is [Object.prototype]). *)
Record PlainObject := mkPlain {
  po_own : list (string * Val);
  po_over : option (list Val)
}.

Definition empty_object : PlainObject := mkPlain [] None.

(** The object as a value. *)
Definition plain_value (o : PlainObject) : Val :=
  match po_over o with
  | None => VObject (po_own o)
  | Some arr => VObjectOver (po_own o) arr
  end.

(** [arr[key]] for a key other than [__proto__]. *)
Definition array_get (arr : list Val) (key : string) : Val :=
  if String.eqb key "length" then VNumber (Z.of_nat (length arr))
  else match index_of_key (length arr) key with
       | Some i => nth i arr VUndefined
       | None => if ArrayPrototype_has key then VBuiltin ("Array.prototype." ++ key)
                 else ObjectPrototype_get key
       end.

(** [result[key]]: an own property, or else what the prototype chain gives;
    [__proto__] reads as the prototype itself. *)
Definition plain_get (o : PlainObject) (key : string) : Val :=
  match assoc key (po_own o) with
  | Some v => v
  | None =>
      match po_over o with
      | None => if String.eqb key "__proto__" then VBuiltin "Object.prototype"
                else ObjectPrototype_get key
      | Some arr => if String.eqb key "__proto__" then VArray arr
                    else array_get arr key
      end
  end.

(** [result[key] = value] for a string: the setter of [__proto__] ignores a
    value that is not an object. *)
Definition plain_set_string (o : PlainObject) (key value : string) : PlainObject :=
  if String.eqb key "__proto__" then o
  else mkPlain (assign key (VString value) (po_own o)) (po_over o).

(** [result[key] = arr] for an array: the setter of [__proto__] makes it
    the prototype. *)
Definition plain_set_array (o : PlainObject) (key : string) (arr : list Val) : PlainObject :=
  if String.eqb key "__proto__" then mkPlain (po_own o) (Some arr)
  else mkPlain (assign key (VArray arr) (po_own o)) (po_over o).

(** [existing.push(value)] where [existing] is the array [items] that
    [result[key]] gave: the array is changed where it lives, in the own
    property, or in the prototype when it was reached through it (as the
    prototype itself or as one of its items). *)
Definition plain_push (o : PlainObject) (key : string) (items : list Val) (value : string)
  : PlainObject :=
  let pushed := (items ++ [VString value])%list in
  match assoc key (po_own o) with
  | Some _ => mkPlain (assign key (VArray pushed) (po_own o)) (po_over o)
  | None =>
      match po_over o with
      | Some arr =>
          if String.eqb key "__proto__" then mkPlain (po_own o) (Some pushed)
          else match index_of_key (length arr) key with
               | Some i => mkPlain (po_own o)
                             (Some (firstn i arr ++ VArray pushed :: skipn (S i) arr)%list)
               | None => o
               end
      | None => o
      end
  end.

(** [convertParamsToObject]: the own properties of the route parameters,
    copied with [result[key] = params[key]].  The parameter is typed
    [HttpRequestParams]; on a value that is not one there is nothing to
    enumerate. *)
Definition convertParamsToObject (params : Val) : Val :=
  match params with
  | VParams entries =>
      plain_value (fold_left (fun result e => plain_set_string result (fst e) (snd e))
                             entries empty_object)
  | _ => VObject []
  end.

(** The callback [convertQueryToObject] passes to [query.forEach]. *)
Definition query_step (result : PlainObject) (entry : string * string) : PlainObject :=
  let '(key, value) := entry in
  let existing := plain_get result key in
  match existing with
  | VUndefined => plain_set_string result key value
  | VArray items => plain_push result key items value
  | _ => plain_set_array result key [existing; VString value]
  end.

(** [convertQueryToObject]. *)
Definition convertQueryToObject (query : list (string * string)) : Val :=
  plain_value (fold_left query_step query empty_object).

(** [convertHeadersToObject]. *)
Definition convertHeadersToObject (headers : list (string * string)) : Val :=
  plain_value (fold_left (fun result e =>
                            plain_set_string result (Str.toLowerCase (fst e)) (snd e))
                         headers empty_object).

(** *** The framework's body readers *)

Definition method_name (m : BodyMethod) : string :=
  match m with
  | MJson => "json"
  | MText => "text"
  | MFormData => "formData"
  | MArrayBuffer => "arrayBuffer"
  | MBlob => "blob"
  end.

(** A body-reading method of the framework's request: it throws when the
    stream has been read before; otherwise the stream, if the request has
    one, is used up and the text of the body decoded ([json] through
    [JSON.parse], which throws on the empty text of a request without a
    body and leaves [bodyUsed] false then). *)
Definition read_body (m : BodyMethod) : M Val :=
  fun st =>
    let st' := consumed m st in
    if st_bodyUsed st then (Throw (EError "TypeError" "Body is unusable"), st')
    else
      match m with
      | MJson => match JSON_parse (st_body st) with
                 | Some v => (Return v, st')
                 | None => (Throw (EError "SyntaxError" "Unexpected token in JSON"), st')
                 end
      | MText => (Return (VString (st_body st)), st')
      | _ => (Return (VBuiltin (method_name m)), st')
      end.

(** [request.name()]: the property is read, then called. *)
Definition call_method (request : JsObject) (name : string) : M Val :=
  f <- lift (Get request name) ;;
  match f with
  | VBodyReader m => read_body m
  | _ => throw (EError "TypeError" ("request." ++ name ++ " is not a function"))
  end.

(** *** Typed parsers (utils.ts) *)

(** [schema.parse(input)], recorded. *)
Definition schema_parse (part : Part) (schema : Schema) (input : Val) : M Val :=
  emit (EvSchema part) ;;; lift (schema input).

(** The [catch] clause the four parsers share: a [ZodError] is wrapped in a
    [ValidationError] with the message of the part, anything else is thrown
    again. *)
Definition wrap_zod (message : string) (error : JsError) : M Val :=
  match error with
  | EZod z => throw (EValidation message (Some z))
  | _ => throw error
  end.

Definition parseRouteParams (params : Val) (schema : Schema) : M Val :=
  emit (EvParser PParams) ;;;
  let paramsObj := convertParamsToObject params in
  try_catch (schema_parse PParams schema paramsObj)
            (wrap_zod "Route parameters validation failed").

(** [query.forEach] exists on a [URLSearchParams]. *)
Definition parseQueryParams (query : Val) (schema : Schema) : M Val :=
  emit (EvParser PQuery) ;;;
  match query with
  | VQuery entries =>
      let queryObj := convertQueryToObject entries in
      try_catch (schema_parse PQuery schema queryObj)
                (wrap_zod "Query parameters validation failed")
  | _ => throw (EError "TypeError" "query.forEach is not a function")
  end.

(** The content-type gate of [parseBody]:
    [!contentType?.includes('application/json')]. *)
Definition not_json (contentType : option string) : bool :=
  match contentType with
  | Some ct => negb (Str.includes "application/json" ct)
  | None => true
  end.

Definition parseBody (request : JsObject) (schema : Schema) : M Val :=
  emit (EvParser PBody) ;;;
  headers <- lift (Get request "headers") ;;
  contentType <- call_headers_get headers "content-type" ;;
  if not_json contentType then
    throw (EValidation "Content-Type must be application/json" None)
  else
    bodyData <- try_catch (call_method request "json")
                          (fun _ => throw (EValidation "Invalid JSON body" None)) ;;
    try_catch (schema_parse PBody schema bodyData)
              (wrap_zod "Request body validation failed").

(** [headers.forEach] exists on a [Headers]. *)
Definition parseHeaders (headers : Val) (schema : Schema) : M Val :=
  emit (EvParser PHeaders) ;;;
  match headers with
  | VHeaders entries =>
      let headersObj := convertHeadersToObject entries in
      try_catch (schema_parse PHeaders schema headersObj)
                (wrap_zod "Request headers validation failed")
  | _ => throw (EError "TypeError" "headers.forEach is not a function")
  end.

(** *** Orchestrator, guard and dispatcher (internal/parsing.ts) *)

(** The conditional expression [parseRequest] evaluates for each part: the
    typed parser when the bundle has a schema for it, and otherwise the
    value read from the request (for the body: [undefined]). *)
Definition parse_part (part : Part) (request : JsObject) (schemas : RequestSchemas)
  : M Val :=
  match part with
  | PParams =>
      match s_params schemas with
      | Some schema =>
          params <- lift (Get request "params") ;;
          parseRouteParams params schema
      | None => lift (Get request "params")
      end
  | PQuery =>
      match s_query schemas with
      | Some schema =>
          query <- lift (Get request "query") ;;
          parseQueryParams query schema
      | None => lift (Get request "query")
      end
  | PBody =>
      match s_body schemas with
      | Some schema => parseBody request schema
      | None => ret VUndefined
      end
  | PHeaders =>
      match s_headers schemas with
      | Some schema =>
          headers <- lift (Get request "headers") ;;
          parseHeaders headers schema
      | None => lift (Get request "headers")
      end
  end.

Definition parseRequest (request : JsObject) (schemas : RequestSchemas) : M ParsedRequest :=
  parsedParams <- parse_part PParams request schemas ;;
  parsedQuery <- parse_part PQuery request schemas ;;
  parsedBody <- parse_part PBody request schemas ;;
  parsedHeaders <- parse_part PHeaders request schemas ;;
  ret (mkParsed parsedParams parsedQuery parsedBody parsedHeaders).

Definition dangerousMethods : list string :=
  ["json"; "text"; "formData"; "arrayBuffer"; "blob"].

(** The message of the error a blocked method throws. *)
Definition guard_message (method : string) : string :=
  "Cannot call request." ++ method ++
  "() - body has already been parsed by the typed handler wrapper. " ++
  "The parsed body is available in the 'body' parameter of your handler. " ++
  "If you need the raw request, use the regular 'handler' instead of 'typedHandler'.".

(** [SAFE_REQUEST_PROTOTYPE]: a child of [Object.prototype] with one
    throwing getter, not enumerable, for each dangerous method. *)
Definition SAFE_REQUEST_PROTOTYPE : JsObject :=
  Obj (map (fun method =>
              (method,
               AccessorProp (GetterThrows (EError "Error" (guard_message method))) false))
           dangerousMethods)
      None.

Definition createSafeRequest (request : JsObject) (bodyWasParsed : bool)
  : Completion JsObject :=
  if negb bodyWasParsed then Return request
  else
    let safeRequest := Object_create SAFE_REQUEST_PROTOTYPE in
    Object_assign safeRequest request.

(** [schemas.body !== undefined]. *)
Definition has_body_schema (schemas : RequestSchemas) : bool :=
  match s_body schemas with
  | Some _ => true
  | None => false
  end.

(** [error.zodError?.issues || []]. *)
Definition error_details (zodError : option ZodError) : list Val :=
  match zodError with
  | Some z => issues z
  | None => []
  end.

(** The response the dispatcher makes of a [ValidationError]. *)
Definition bad_request (message : string) (zodError : option ZodError) : Val :=
  VObject [ ("status", VNumber 400);
            ("jsonBody", VObject [ ("error", VString message);
                                   ("details", VArray (error_details zodError)) ]) ].

(** The [catch] clause of the dispatcher: a [ValidationError] becomes a
    400 response, any other error is thrown again. *)
Definition handle_error (error : JsError) : M Val :=
  match error with
  | EValidation message zodError => ret (bad_request message zodError)
  | _ => throw error
  end.

Definition wrapTypedHandler (schemas : RequestSchemas) (handler : TypedHandler)
  : HttpHandler :=
  fun request context =>
    try_catch
      (parsed <- parseRequest request schemas ;;
       safeRequest <- lift (createSafeRequest request (has_body_schema schemas)) ;;
       handler (mkArgs (p_params parsed) (p_query parsed) (p_body parsed)
                       (p_headers parsed) safeRequest context))
      handle_error.

End Pipeline.

Arguments convertParamsToObject : simpl never.
Arguments convertQueryToObject : simpl never.
Arguments convertHeadersToObject : simpl never.
Arguments Get : simpl never.
Arguments Headers_get : simpl never.

(** ** Routes and scheme names (internal/endpoint.ts and the registration
    of security schemes) *)

Module Text.

Definition is_slash (c : ascii) : bool := Ascii.eqb c "/".

Definition is_digit (c : ascii) : bool :=
  let n := N_of_ascii c in ((48 <=? n) && (n <=? 57))%N.

Definition is_upper (c : ascii) : bool :=
  let n := N_of_ascii c in ((65 <=? n) && (n <=? 90))%N.

Definition is_lower (c : ascii) : bool :=
  let n := N_of_ascii c in ((97 <=? n) && (n <=? 122))%N.

(** The class [[a-zA-Z0-9]]. *)
Definition is_alnum (c : ascii) : bool := is_lower c || is_upper c || is_digit c.

(** [c.toUpperCase()] on one ASCII character. *)
Definition upper_ascii (c : ascii) : ascii :=
  if is_lower c then ascii_of_N (N_of_ascii c - 32) else c.

(** [s.split(sep)] for a separator of one character: the pieces between the
    separators, empty pieces included; the empty string gives one empty
    piece. *)
Fixpoint split (sep : ascii) (s : string) : list string :=
  match s with
  | EmptyString => [EmptyString]
  | String c rest =>
      if Ascii.eqb c sep then EmptyString :: split sep rest
      else match split sep rest with
           | piece :: pieces => String c piece :: pieces
           | [] => [String c EmptyString]
           end
  end.

(** [part.length > 0]. *)
Definition nonempty (s : string) : bool :=
  match s with
  | EmptyString => false
  | String _ _ => true
  end.

(** [s.replace(/^\/+/, '')]: the slashes the string starts with are
    dropped. *)
Fixpoint strip_leading_slashes (s : string) : string :=
  match s with
  | EmptyString => EmptyString
  | String c rest => if is_slash c then strip_leading_slashes rest else s
  end.

(** [s.replace(/\/+$/, '')]: the slashes the string ends with are dropped. *)
Fixpoint strip_trailing_slashes (s : string) : string :=
  match s with
  | EmptyString => EmptyString
  | String c rest =>
      match strip_trailing_slashes rest with
      | EmptyString => if is_slash c then EmptyString else String c EmptyString
      | kept => String c kept
      end
  end.

(** [s.replace(/\/+/g, '/')]: every run of slashes becomes one slash (a
    slash followed by a slash is dropped). *)
Fixpoint collapse_slashes (s : string) : string :=
  match s with
  | EmptyString => EmptyString
  | String c rest =>
      match rest with
      | String d _ =>
          if is_slash c && is_slash d then collapse_slashes rest
          else String c (collapse_slashes rest)
      | EmptyString => String c EmptyString
      end
  end.

(** [s.replace(/[^a-zA-Z0-9]/g, '_')].  A character outside ASCII is
    several bytes here and one or two code units in JavaScript; each of them
    becomes an underscore either way, and only the runs between underscores
    are used afterwards. *)
Fixpoint replace_special (s : string) : string :=
  match s with
  | EmptyString => EmptyString
  | String c rest =>
      String (if is_alnum c then c else "_"%char) (replace_special rest)
  end.

(** [parts.join('')]. *)
Definition concat_all (parts : list string) : string :=
  fold_right String.append EmptyString parts.

End Text.

(** [normalizeOpenAPIPath]: a prefix that is [undefined] or empty is left
    out. *)
Definition normalizeOpenAPIPath (routePrefix : option string) (route : string) : string :=
  let fullPath :=
    match routePrefix with
    | Some (String c prefix) => "/" ++ String c prefix ++ "/" ++ route
    | _ => "/" ++ route
    end in
  Text.collapse_slashes fullPath.

(** [normalizeAzureFunctionRoute]. *)
Definition normalizeAzureFunctionRoute (route : string) : string :=
  let normalized :=
    Text.collapse_slashes
      (Text.strip_trailing_slashes (Text.strip_leading_slashes route)) in
  match normalized with
  | EmptyString => ""
  | _ => normalized
  end.

(** [mapHttpMethod]. *)
Definition mapHttpMethod (method : string) : string := Str.toLowerCase method.

(** The PascalCase step of [sanitizeSchemeNameFromParameter]:
    [part.charAt(0).toUpperCase() + part.slice(1).toLowerCase()]. *)
Definition pascal_part (part : string) : string :=
  match part with
  | EmptyString => EmptyString
  | String c rest => String (Text.upper_ascii c) (Str.toLowerCase rest)
  end.

(** [sanitizeSchemeNameFromParameter]. *)
Definition sanitizeSchemeNameFromParameter (paramName : string) : string :=
  let parts :=
    filter Text.nonempty (Text.split "_" (Text.replace_special paramName)) in
  let pascalCase := Text.concat_all (map pascal_part parts) in
  match pascalCase with
  | EmptyString => "ApiKey"
  | String c _ => if Text.is_digit c then "Key" ++ pascalCase else pascalCase
  end.

(** The non-empty pieces of a path between its slashes. *)
Definition segments (path : string) : list string :=
  filter Text.nonempty (Text.split "/" path).

Definition first_char (s : string) : option ascii :=
  match s with
  | EmptyString => None
  | String c _ => Some c
  end.

Fixpoint last_char (s : string) : option ascii :=
  match s with
  | EmptyString => None
  | String c EmptyString => Some c
  | String _ rest => last_char rest
  end.

(** Every character of the string satisfies the test. *)
Fixpoint all_chars (test : ascii -> bool) (s : string) : bool :=
  match s with
  | EmptyString => true
  | String c rest => test c && all_chars test rest
  end.

(** ** Function keys and EasyAuth principals (utils.ts) *)

(** [URLSearchParams.get(name)]: the first value of that name; [None] is
    [null]. *)
Fixpoint URLSearchParams_get (query : list (string * string)) (name : string)
  : option string :=
  match query with
  | [] => None
  | (key, value) :: rest =>
      if String.eqb key name then Some value else URLSearchParams_get rest name
  end.

(** The truth value of a string or [null] in a condition: [null] and the
    empty string are false. *)
Definition truthy_string (s : option string) : bool :=
  match s with
  | Some (String _ _) => true
  | _ => false
  end.

(** A string or [null] as a value. *)
Definition string_or_null (s : option string) : Val :=
  match s with
  | Some text => VString text
  | None => VNull
  end.

(** [extractFunctionKey]: the [code] of the query first, then the
    [x-functions-key] header; the headers are read only when the query gives
    nothing. *)
Definition extractFunctionKey (request : JsObject) : Completion Val :=
  match Get request "query" with
  | Throw e => Throw e
  | Return (VQuery query) =>
      let queryKey := URLSearchParams_get query "code" in
      if truthy_string queryKey then Return (string_or_null queryKey)
      else
        match Get request "headers" with
        | Throw e => Throw e
        | Return (VHeaders headers) =>
            let headerKey := Headers_get headers "x-functions-key" in
            if truthy_string headerKey then Return (string_or_null headerKey)
            else Return VUndefined
        | Return _ =>
            Throw (EError "TypeError" "request.headers.get is not a function")
        end
  | Return _ => Throw (EError "TypeError" "request.query.get is not a function")
  end.

(** The truth value of a value in a condition. *)
Definition truthy (v : Val) : bool :=
  match v with
  | VUndefined | VNull => false
  | VBool b => b
  | VNumber n => negb (Z.eqb n 0)
  | VString s => Text.nonempty s
  | _ => true
  end.

(** What the pipeline takes from Node to decode a header:
    [Buffer.from(text, 'base64').toString('utf-8')], which gives a text for
    every input. *)
Class Base64 := { base64_utf8 : string -> string }.

Section EasyAuth.

Context {rt : Runtime} {b64 : Base64}.

(** [principal.key] for a key other than [__proto__] that the prototypes
    of the runtime's strings, numbers and booleans do not define (as
    [auth_typ] and [userId]): the
    read throws on [null] and [undefined], finds nothing on the other
    primitives, and goes through the prototype chain of an object or an
    array. *)
Definition read_field (principal : Val) (key : string) : Completion Val :=
  match principal with
  | VUndefined | VNull =>
      Throw (EError "TypeError"
                    ("Cannot read properties of null (reading '" ++ key ++ "')"))
  | VObject fields => Return (plain_get (mkPlain fields None) key)
  | VObjectOver fields proto => Return (plain_get (mkPlain fields (Some proto)) key)
  | VArray items => Return (array_get items key)
  | _ => Return VUndefined
  end.

(** [parseEasyAuthPrincipal]. *)
Definition parseEasyAuthPrincipal (headerValue : string) : Completion Val :=
  let attempt :=
    let decoded := base64_utf8 headerValue in
    match JSON_parse decoded with
    | None => Throw (EError "SyntaxError" "Unexpected token in JSON")
    | Some principal =>
        match read_field principal "auth_typ" with
        | Throw e => Throw e
        | Return auth_typ =>
            if negb (truthy auth_typ) then
              Throw (EValidation
                "Invalid EasyAuth principal: missing required fields (auth_typ, userId)"
                None)
            else
              match read_field principal "userId" with
              | Throw e => Throw e
              | Return userId =>
                  if negb (truthy userId) then
                    Throw (EValidation
                      "Invalid EasyAuth principal: missing required fields (auth_typ, userId)"
                      None)
                  else Return principal
              end
        end
    end in
  match attempt with
  | Return principal => Return principal
  | Throw (EValidation message zodError) => Throw (EValidation message zodError)
  | Throw _ =>
      Throw (EValidation
        "Failed to parse EasyAuth principal header: invalid base64 or JSON format"
        None)
  end.

End EasyAuth.

(** [createTypedHandler]. *)
Definition createTypedHandler {rt : Runtime} (schemas : RequestSchemas)
  (handler : TypedHandler) : HttpHandler :=
  wrapTypedHandler schemas handler.

(** The value the last entry of that name gives, if any. *)
Fixpoint last_value (name : string) (entries : list (string * string))
  : option string :=
  match entries with
  | [] => None
  | (key, value) :: rest =>
      match last_value name rest with
      | Some later => Some later
      | None => if String.eqb key name then Some value else None
      end
  end.

(** The entries with their names in lower case. *)
Definition lower_names (entries : list (string * string)) : list (string * string) :=
  map (fun e => (Str.toLowerCase (fst e), snd e)) entries.

(** ** Route configurations (internal/transform.ts) *)

(** The double quote, for the messages that hold one. *)
Definition dq : string := String (ascii_of_nat 34) EmptyString.

(** A number in a template literal.  Status codes are integers. *)
Definition Z_to_string (n : Z) : string := NilZero.string_of_int (Z.to_int n).

(** What a function returns or throws, with the lines it gave to
    [console.warn], in order. *)
Definition W (A : Type) : Type := (Completion A * list string)%type.

Definition retW {A} (a : A) : W A := (Return a, []).
Definition throwW {A} (e : JsError) : W A := (Throw e, []).
Definition warnW (line : string) : W unit := (Return tt, [line]).
Definition bindW {A B} (m : W A) (k : A -> W B) : W B :=
  match m with
  | (Return a, lines) => let (r, more) := k a in (r, (lines ++ more)%list)
  | (Throw e, lines) => (Throw e, lines)
  end.

(** [ContentTypeConfig]. *)
Record ContentTypeConfig := mkContentType {
  ct_mediaType : string;
  ct_schema : option Schema;
  ct_examples : option Val;
  ct_encoding : option Val
}.

(** [ResponseConfig]. *)
Record ResponseConfig := mkResponse {
  rc_httpCode : Z;
  rc_description : option string;
  rc_headers : option Schema;
  rc_schema : option Schema;
  rc_mediaType : option string;
  rc_examples : option Val;
  rc_content : option (list ContentTypeConfig)
}.

(** A media type object of OpenAPI: the properties that are set. *)
Record ContentDef := mkContentDef {
  cd_schema : option Schema;
  cd_examples : option Val;
  cd_encoding : option Val
}.

(** A content object of OpenAPI, from media type to media type object: its
    own properties and, once an assignment to [__proto__] has replaced its
    prototype, the media type object that is its prototype. *)
Record ContentObject := mkContent {
  co_own : list (string * ContentDef);
  co_proto : option ContentDef
}.

(** A response object of OpenAPI. *)
Record ResponseObject := mkResponseObject {
  ro_description : string;
  ro_content : option ContentObject;
  ro_headers : option Schema
}.

(** [STATUS_CODE_DESCRIPTIONS]. *)
Definition STATUS_CODE_DESCRIPTIONS : list (Z * string) :=
  [ (200, "OK"); (201, "Created"); (202, "Accepted");
    (203, "Non-Authoritative Information"); (204, "No Content");
    (205, "Reset Content"); (206, "Partial Content");
    (300, "Multiple Choices"); (301, "Moved Permanently"); (302, "Found");
    (303, "See Other"); (304, "Not Modified"); (307, "Temporary Redirect");
    (308, "Permanent Redirect");
    (400, "Bad Request"); (401, "Unauthorized"); (402, "Payment Required");
    (403, "Forbidden"); (404, "Not Found"); (405, "Method Not Allowed");
    (406, "Not Acceptable"); (407, "Proxy Authentication Required");
    (408, "Request Timeout"); (409, "Conflict"); (410, "Gone");
    (411, "Length Required"); (412, "Precondition Failed");
    (413, "Payload Too Large"); (414, "URI Too Long");
    (415, "Unsupported Media Type"); (416, "Range Not Satisfiable");
    (417, "Expectation Failed"); (418, "I'm a teapot");
    (422, "Unprocessable Entity"); (423, "Locked"); (424, "Failed Dependency");
    (426, "Upgrade Required"); (428, "Precondition Required");
    (429, "Too Many Requests"); (431, "Request Header Fields Too Large");
    (451, "Unavailable For Legal Reasons");
    (500, "Internal Server Error"); (501, "Not Implemented");
    (502, "Bad Gateway"); (503, "Service Unavailable");
    (504, "Gateway Timeout"); (505, "HTTP Version Not Supported");
    (507, "Insufficient Storage"); (508, "Loop Detected");
    (510, "Not Extended"); (511, "Network Authentication Required") ]%Z.

(** Lookup in a table keyed by numbers. *)
Fixpoint assocZ {A : Type} (key : Z) (l : list (Z * A)) : option A :=
  match l with
  | [] => None
  | (k, v) :: rest => if Z.eqb k key then Some v else assocZ key rest
  end.

(** [o[key] = v] on a table keyed by numbers. *)
Fixpoint assignZ {A : Type} (key : Z) (v : A) (l : list (Z * A)) : list (Z * A) :=
  match l with
  | [] => [(key, v)]
  | (k, w) :: rest =>
      if Z.eqb k key then (k, v) :: rest else (k, w) :: assignZ key v rest
  end.

(** [a || b] on strings: the first when it is there and not empty. *)
Definition string_or (a : option string) (b : string) : string :=
  match a with
  | Some (String c rest) => String c rest
  | _ => b
  end.

(** [getStatusCodeDescription]. *)
Definition getStatusCodeDescription (code : Z) : string :=
  string_or (assocZ code STATUS_CODE_DESCRIPTIONS) ("HTTP " ++ Z_to_string code).

(** A value when it is there and counts as true. *)
Definition when_truthy (v : option Val) : option Val :=
  match v with
  | Some x => if truthy x then Some x else None
  | None => None
  end.

(** [content[mediaType] = contentDef]: the setter of [__proto__] makes the
    media type object the prototype. *)
Definition content_set (content : ContentObject) (mediaType : string)
  (contentDef : ContentDef) : ContentObject :=
  if String.eqb mediaType "__proto__" then mkContent (co_own content) (Some contentDef)
  else mkContent (assign mediaType contentDef (co_own content)) (co_proto content).

(** [transformContentTypes]. *)
Definition transformContentTypes (contentTypes : list ContentTypeConfig) : ContentObject :=
  fold_left
    (fun content ct =>
       let contentDef :=
         mkContentDef (ct_schema ct) (when_truthy (ct_examples ct))
                      (when_truthy (ct_encoding ct)) in
       content_set content (ct_mediaType ct) contentDef)
    contentTypes (mkContent [] None).

(** The loop of [transformResponse] over the content array, with the set of
    the media types met. *)
Fixpoint check_media_types (httpCode : Z) (mediaTypes : list string)
  (content : list ContentTypeConfig) : Completion unit :=
  match content with
  | [] => Return tt
  | ct :: rest =>
      if existsb (String.eqb (ct_mediaType ct)) mediaTypes then
        Throw (EError "Error"
                 ("Response " ++ Z_to_string httpCode ++ ": Duplicate mediaType '" ++
                  ct_mediaType ct ++ "' in content array"))
      else check_media_types httpCode (mediaTypes ++ [ct_mediaType ct]) rest
  end.

(** [!allowedNoBody.includes(code) && code >= 200 && code < 300]. *)
Definition unusual_without_body (httpCode : Z) : bool :=
  negb (existsb (Z.eqb httpCode) [204; 205; 304]%Z)
  && (200 <=? httpCode)%Z && (httpCode <? 300)%Z.

(** [transformResponse]. *)
Definition transformResponse (response : ResponseConfig) : W ResponseObject :=
  let description :=
    string_or (rc_description response)
              (getStatusCodeDescription (rc_httpCode response)) in
  match rc_schema response, rc_content response with
  | Some _, Some _ =>
      throwW (EError "Error"
        ("Response " ++ Z_to_string (rc_httpCode response) ++
         ": Cannot use both 'schema' and 'content'. " ++
         "Use 'schema' for single content type, 'content' array for multiple content types."))
  | _, Some content =>
      match check_media_types (rc_httpCode response) [] content with
      | Throw e => throwW e
      | Return _ =>
          retW (mkResponseObject description (Some (transformContentTypes content))
                                 (rc_headers response))
      end
  | Some schema, None =>
      let mediaType := string_or (rc_mediaType response) "application/json" in
      retW (mkResponseObject description
              (Some (mkContent
                       [(mediaType,
                         mkContentDef (Some schema) (when_truthy (rc_examples response))
                                      None)]
                       None))
              (rc_headers response))
  | None, None =>
      bindW
        (if unusual_without_body (rc_httpCode response) then
           warnW ("⚠️  Warning: Response " ++ Z_to_string (rc_httpCode response) ++
                  " has no schema or content. " ++
                  "This is unusual for successful 2xx responses. " ++
                  "Did you forget to add a schema? If this is intentional (e.g., 202 Accepted with async processing), ignore this warning.")
         else retW tt)
        (fun _ => retW (mkResponseObject description None (rc_headers response)))
  end.

(** The loop of [transformResponses], with the set of the codes met and the
    result so far. *)
Fixpoint transformResponses_from (httpCodes : list Z)
  (result : list (Z * ResponseObject)) (responses : list ResponseConfig)
  : W (list (Z * ResponseObject)) :=
  match responses with
  | [] => retW result
  | response :: rest =>
      if existsb (Z.eqb (rc_httpCode response)) httpCodes then
        throwW (EError "Error"
                  ("Duplicate httpCode: " ++ Z_to_string (rc_httpCode response)))
      else
        bindW (transformResponse response)
              (fun transformed =>
                 transformResponses_from
                   (httpCodes ++ [rc_httpCode response])
                   (assignZ (rc_httpCode response) transformed result)
                   rest)
  end.

(** [transformResponses]. *)
Definition transformResponses (responses : list ResponseConfig)
  : W (list (Z * ResponseObject)) :=
  transformResponses_from [] [] responses.

(** The [request] of a [RouteConfig]: a request body, *)
Record RequestBody := mkRequestBody {
  rb_description : option string;
  rb_required : option bool;
  rb_content : ContentObject
}.

(** and the schemas of the parts. *)
Record RouteRequest := mkRouteRequest {
  rq_params : option Schema;
  rq_query : option Schema;
  rq_body : option RequestBody;
  rq_headers : option Schema;
  rq_cookies : option Schema
}.

(** A security requirement object: scheme names with their scopes. *)
Definition SecurityRequirementObject := list (string * list string).

(** Azure Functions' authorization levels. *)
Inductive AuthLevel := Anonymous | Function_ | Admin.

(** [FunctionRouteConfig]. *)
Record FunctionRouteConfig := mkRouteConfig {
  fc_handler : option HttpHandler;
  fc_typedHandler : option TypedHandler;
  fc_methods : list string;
  fc_route : string;
  fc_authLevel : option AuthLevel;
  fc_azureFunctionRoutePrefix : option string;
  fc_tags : option (list string);
  fc_description : option string;
  fc_deprecated : option bool;
  fc_security : option (list SecurityRequirementObject);
  fc_operationId : option string;
  fc_params : option Schema;
  fc_query : option Schema;
  fc_body : option Schema;
  fc_headers : option Schema;
  fc_response : option Schema;
  fc_responses : option (list ResponseConfig);
  fc_request : option RouteRequest
}.

(** The library's [RouteConfig]: the properties that are set. *)
Record RouteConfig := mkRoute {
  r_request : option RouteRequest;
  r_responses : option (list (Z * ResponseObject));
  r_tags : option (list string);
  r_description : option string;
  r_deprecated : option bool;
  r_security : option (list SecurityRequirementObject);
  r_operationId : option string;
  r_summary : option string;
  r_method : option string;
  r_path : option string
}.

(** [!!(config.params || config.query || config.body || config.headers)]. *)
Definition hasShortcuts (config : FunctionRouteConfig) : bool :=
  match fc_params config, fc_query config, fc_body config, fc_headers config with
  | None, None, None, None => false
  | _, _, _, _ => true
  end.

(** [transformRequest]. *)
Definition transformRequest (config : FunctionRouteConfig) : W (option RouteRequest) :=
  bindW
    (match fc_request config with
     | Some _ =>
         if hasShortcuts config then
           warnW ("⚠️  Warning: Both " ++ dq ++ "request" ++ dq ++
                  " and shortcuts (params/query/body/headers) are provided. " ++
                  "The shortcuts will be IGNORED. Use either shortcuts OR request, not both. " ++
                  "See FunctionRouteConfig.request JSDoc for details.")
         else retW tt
     | None => retW tt
     end)
    (fun _ =>
       match fc_request config with
       | Some request => retW (Some request)
       | None =>
           if negb (hasShortcuts config) then retW None
           else
             retW (Some (mkRouteRequest
                           (fc_params config)
                           (fc_query config)
                           (match fc_body config with
                            | Some body =>
                                Some (mkRequestBody None None
                                        (mkContent
                                           [("application/json",
                                             mkContentDef (Some body) None None)]
                                           None))
                            | None => None
                            end)
                           (fc_headers config)
                           None))
       end).

(** A string when it is there and not empty. *)
Definition when_nonempty (s : option string) : option string :=
  match s with
  | Some (String c rest) => Some (String c rest)
  | _ => None
  end.

(** [transformToRouteConfig]. *)
Definition transformToRouteConfig (config : FunctionRouteConfig) : W RouteConfig :=
  match fc_response config, fc_responses config with
  | Some _, Some _ =>
      throwW (EError "Error"
        ("Cannot use both 'response' and 'responses'. " ++
         "Use 'response' for single 200 OK response, 'responses' for multiple status codes."))
  | _, _ =>
      bindW
        (match fc_response config, fc_responses config with
         | Some response, _ =>
             retW (Some [(200%Z,
                          mkResponseObject "OK"
                            (Some (mkContent
                                     [("application/json",
                                       mkContentDef (Some response) None None)]
                                     None))
                            None)])
         | None, Some responses =>
             bindW (transformResponses responses) (fun r => retW (Some r))
         | None, None => retW None
         end)
        (fun responses =>
           bindW (transformRequest config)
                 (fun request =>
                    retW (mkRoute request responses
                            (fc_tags config)
                            (when_nonempty (fc_description config))
                            (match fc_deprecated config with
                             | Some true => Some true
                             | _ => None
                             end)
                            (fc_security config)
                            (when_nonempty (fc_operationId config))
                            None None None)))
  end.

(** ** Registration (internal/config.ts, internal/endpoint.ts, security) *)

(** [GlobalOpenAPIConfig]; the OpenAPI part is carried as it is. *)
Record GlobalOpenAPIConfig := mkGlobalConfig {
  gc_routePrefix : string;
  gc_openAPIConfig : Val
}.

(** What [app.http] is given. *)
Record HttpFunction := mkHttpFunction {
  hf_name : string;
  hf_methods : list string;
  hf_authLevel : AuthLevel;
  hf_handler : HttpHandler;
  hf_route : string
}.

(** A security scheme of kind [apiKey]. *)
Record ApiKeyScheme := mkApiKeyScheme {
  ak_name : string;
  ak_in : string;
  ak_description : string
}.

(** The definitions of the OpenAPI registry. *)
Inductive RegistryDefinition :=
| DefRoute (route : RouteConfig)
| DefWebhook (webhook : RouteConfig)
| DefComponent (componentType name : string) (scheme : ApiKeyScheme)
| DefSchema (typeName : string) (schema : Schema).

(** The state registration works on: the functions registered with the
    host, the definitions of the OpenAPI registry (a list the registry
    pushes onto), the configuration of [globalConfigManager] and the lines
    given to [console.warn]. *)
Record World := mkWorld {
  w_functions : list HttpFunction;
  w_definitions : list RegistryDefinition;
  w_config : option GlobalOpenAPIConfig;
  w_warnings : list string
}.

(** The host's [app.http], which registers a function or throws. *)
Class Host := {
  app_http : HttpFunction -> list HttpFunction -> Completion (list HttpFunction)
}.

Definition R (A : Type) : Type := World -> Completion A * World.

Definition retR {A} (a : A) : R A := fun w => (Return a, w).
Definition throwR {A} (e : JsError) : R A := fun w => (Throw e, w).
Definition bindR {A B} (m : R A) (k : A -> R B) : R B :=
  fun w => match m w with
           | (Return a, w') => k a w'
           | (Throw e, w') => (Throw e, w')
           end.

(** A function that warns, run in the world. *)
Definition liftW {A} (m : W A) : R A :=
  fun w => (fst m,
            mkWorld (w_functions w) (w_definitions w) (w_config w)
                    (w_warnings w ++ snd m)).

(** [openAPIRegistry.registerPath], [registerWebhook], [registerComponent]
    and [register]: the definition is pushed. *)
Definition registry_push (definition : RegistryDefinition) : R unit :=
  fun w => (Return tt,
            mkWorld (w_functions w) (w_definitions w ++ [definition]) (w_config w)
                    (w_warnings w)).

(** [globalConfigManager.setConfig]. *)
Definition setConfig (config : GlobalOpenAPIConfig) : R unit :=
  fun w => (Return tt,
            mkWorld (w_functions w) (w_definitions w) (Some config) (w_warnings w)).

(** [globalConfigManager.getRoutePrefix]. *)
Definition getRoutePrefix : R string :=
  fun w => match w_config w with
           | None =>
               (Throw (EError "Error"
                  ("OpenAPI configuration not initialized. " ++
                   "Please call app.openapi() before registering functions.")), w)
           | Some config => (Return (gc_routePrefix config), w)
           end.

(** [globalConfigManager.getOpenAPIConfig]. *)
Definition getOpenAPIConfig : R Val :=
  fun w => match w_config w with
           | None =>
               (Throw (EError "Error"
                  ("OpenAPI configuration not initialized. " ++
                   "Please call app.openapi() before generating OpenAPI documents.")), w)
           | Some config => (Return (gc_openAPIConfig config), w)
           end.

(** [globalConfigManager.isConfigured]. *)
Definition isConfigured : R bool :=
  fun w => (Return (match w_config w with Some _ => true | None => false end), w).

(** [registerTypeSchema]. *)
Definition registerTypeSchema (typeName : string) (schema : Schema) : R unit :=
  registry_push (DefSchema typeName schema).

(** [CustomApiKeyConfig]. *)
Record CustomApiKeyConfig := mkCustomApiKey {
  ck_name : string;
  ck_parameterName : string;
  ck_in : string;
  ck_description : option string
}.

(** [registerCustomApiKey]. *)
Definition registerCustomApiKey (config : CustomApiKeyConfig)
  : R SecurityRequirementObject :=
  bindR
    (registry_push
       (DefComponent "securitySchemes" (ck_name config)
          (mkApiKeyScheme (ck_parameterName config) (ck_in config)
             (string_or (ck_description config)
                ("API key provided in " ++ ck_in config ++ ": " ++
                 ck_parameterName config)))))
    (fun _ => retR [(ck_name config, [])]).

(** [registerApiKeySecuritySchema]. *)
Definition registerApiKeySecuritySchema (name input : string)
  (description : option string) : R SecurityRequirementObject :=
  let schemeName := sanitizeSchemeNameFromParameter name in
  let config :=
    mkCustomApiKey schemeName name input
      (Some (string_or description
               ("Custom API key provided in " ++ input ++ ": " ++ name))) in
  registerCustomApiKey config.

Section Registration.

Context {rt : Runtime} {host : Host}.

(** [app.http(name, options)]. *)
Definition call_app_http (fn : HttpFunction) : R unit :=
  fun w => match app_http fn (w_functions w) with
           | Return functions =>
               (Return tt,
                mkWorld functions (w_definitions w) (w_config w) (w_warnings w))
           | Throw e => (Throw e, w)
           end.

(** The body of the [forEach] of [registerPath], over the methods. *)
Fixpoint register_methods (isWebHook : bool) (make : string -> RouteConfig)
  (methods : list string) : R unit :=
  match methods with
  | [] => retR tt
  | method :: rest =>
      bindR (registry_push (if isWebHook then DefWebhook (make method)
                            else DefRoute (make method)))
            (fun _ => register_methods isWebHook make rest)
  end.

(** [registerPath]. *)
Definition registerPath (name summary : string) (isWebHook : bool)
  (options : FunctionRouteConfig) : R unit :=
  bindR
    (match fc_typedHandler options, fc_handler options with
     | Some typedHandler, _ =>
         let schemas :=
           mkSchemas (fc_params options) (fc_query options) (fc_body options)
                     (fc_headers options) in
         retR (wrapTypedHandler schemas typedHandler)
     | None, Some handler => retR handler
     | None, None =>
         throwR (EError "Error"
                   ("Function '" ++ name ++
                    "' must provide either 'handler' or 'typedHandler'"))
     end)
    (fun actualHandler =>
       let normalizedRoute := normalizeAzureFunctionRoute (fc_route options) in
       let authLevel :=
         match fc_authLevel options with
         | Some level => level
         | None => Anonymous
         end in
       bindR (call_app_http
                (mkHttpFunction name (fc_methods options) authLevel actualHandler
                                normalizedRoute))
         (fun _ =>
            bindR (match fc_azureFunctionRoutePrefix options with
                   | Some (String c prefix) => retR (String c prefix)
                   | _ => getRoutePrefix
                   end)
              (fun routePrefix =>
                 bindR (liftW (transformToRouteConfig options))
                   (fun transformedConfig =>
                      register_methods isWebHook
                        (fun method =>
                           let fullPath :=
                             normalizeOpenAPIPath (Some routePrefix) (fc_route options) in
                           mkRoute (r_request transformedConfig)
                                   (r_responses transformedConfig)
                                   (r_tags transformedConfig)
                                   (r_description transformedConfig)
                                   (r_deprecated transformedConfig)
                                   (r_security transformedConfig)
                                   (Some (string_or (fc_operationId options) name))
                                   (Some summary)
                                   (Some (mapHttpMethod method))
                                   (Some fullPath))
                        (fc_methods options))))).

(** [registerOpenAPIPath]. *)
Definition registerOpenAPIPath (name summary : string) (options : FunctionRouteConfig)
  : R unit :=
  registerPath name summary false options.

(** [registerOpenAPIWebhook]. *)
Definition registerOpenAPIWebhook (name summary : string) (options : FunctionRouteConfig)
  : R unit :=
  registerPath name summary true options.

End Registration.

(** ** Vocabulary of the statements *)

Definition schema_of (part : Part) (schemas : RequestSchemas) : option Schema :=
  match part with
  | PParams => s_params schemas
  | PQuery => s_query schemas
  | PBody => s_body schemas
  | PHeaders => s_headers schemas
  end.

(** The property of the request that holds the framework value of a part. *)
Definition part_property (part : Part) : string :=
  match part with
  | PParams => "params"
  | PQuery => "query"
  | PBody => "body"
  | PHeaders => "headers"
  end.

Definition parsed_field (part : Part) (parsed : ParsedRequest) : Val :=
  match part with
  | PParams => p_params parsed
  | PQuery => p_query parsed
  | PBody => p_body parsed
  | PHeaders => p_headers parsed
  end.

(** The message of the [ValidationError] of each typed parser. *)
Definition part_message (part : Part) : string :=
  match part with
  | PParams => "Route parameters validation failed"
  | PQuery => "Query parameters validation failed"
  | PBody => "Request body validation failed"
  | PHeaders => "Request headers validation failed"
  end.

(** The parts [parseRequest] deals with before a given part. *)
Definition parts_before (part : Part) : list Part :=
  match part with
  | PParams => []
  | PQuery => [PParams]
  | PBody => [PParams; PQuery]
  | PHeaders => [PParams; PQuery; PBody]
  end.

(** Some parts dealt with one after the other. *)
Fixpoint parse_parts {rt : Runtime} (parts : list Part) (request : JsObject)
  (schemas : RequestSchemas) : M unit :=
  match parts with
  | [] => ret tt
  | part :: rest =>
      parse_part part request schemas ;;; parse_parts rest request schemas
  end.

(** [schema_input request part st v st']: from the state [st], the typed
    parser of [part] gets as far as calling its schema, on the input [v],
    and [st'] is the state when the schema has been called. *)
Inductive schema_input {rt : Runtime} (request : JsObject)
  : Part -> State -> Val -> State -> Prop :=
| input_params : forall st params,
    Get request "params" = Return (VParams params) ->
    schema_input request PParams st
      (convertParamsToObject (VParams params))
      (logged (EvSchema PParams) (logged (EvParser PParams) st))
| input_query : forall st query,
    Get request "query" = Return (VQuery query) ->
    schema_input request PQuery st
      (convertQueryToObject query)
      (logged (EvSchema PQuery) (logged (EvParser PQuery) st))
| input_body : forall st h bodyData st2,
    Get request "headers" = Return (VHeaders h) ->
    not_json (Headers_get h "content-type") = false ->
    call_method request "json" (logged (EvParser PBody) st) = (Return bodyData, st2) ->
    schema_input request PBody st bodyData (logged (EvSchema PBody) st2)
| input_headers : forall st h,
    Get request "headers" = Return (VHeaders h) ->
    schema_input request PHeaders st
      (convertHeadersToObject h)
      (logged (EvSchema PHeaders) (logged (EvParser PHeaders) st)).

(** The events the typed parser of a part can record. *)
Definition events_of (part : Part) : list Event :=
  match part with
  | PBody => [EvParser PBody; EvBodyRead MJson; EvSchema PBody]
  | _ => [EvParser part; EvSchema part]
  end.

(** The values a query gives to a key, in order of appearance. *)
Definition values_of (key : string) (query : list (string * string)) : list string :=
  map snd (filter (fun e => String.eqb (fst e) key) query).

(** The property the folding of a query is meant to give a key whose values
    are [values]: none without a value, the string for one value, the array
    of all of them for several. *)
Definition folded_values (values : list string) : option Val :=
  match values with
  | [] => None
  | [value] => Some (VString value)
  | _ => Some (VArray (map VString values))
  end.

(** The text before the first semicolon. *)
Fixpoint before_semicolon (s : string) : string :=
  match s with
  | EmptyString => EmptyString
  | String c rest =>
      if Ascii.eqb c ";" then EmptyString else String c (before_semicolon rest)
  end.

(** The text without the blanks at its ends. *)
Fixpoint trim_left (s : string) : string :=
  match s with
  | String c rest => if Ascii.eqb c " " then trim_left rest else s
  | EmptyString => EmptyString
  end.

Fixpoint trim_right (s : string) : string :=
  match s with
  | EmptyString => EmptyString
  | String c rest =>
      match trim_right rest with
      | EmptyString => if Ascii.eqb c " " then EmptyString else String c EmptyString
      | kept => String c kept
      end
  end.

(** [s] ends with [suffix]. *)
Fixpoint ends_with (suffix s : string) : bool :=
  String.eqb s suffix ||
  match s with
  | EmptyString => false
  | String _ rest => ends_with suffix rest
  end.

(** The media type a [content-type] value names: what stands before its
    parameters, in lower case. *)
Definition media_type (contentType : string) : string :=
  Str.toLowerCase (trim_right (trim_left (before_semicolon contentType))).

(** A [content-type] value that indicates JSON: its media type is
    [application/json] or one of the types with the suffix [+json]. *)
Definition indicates_json (contentType : string) : bool :=
  String.eqb (media_type contentType) "application/json"
  || ends_with "+json" (media_type contentType).

(** A key that meets nothing on the prototype chain of a fresh object. *)
Definition plain_key (key : string) : Prop :=
  key <> "__proto__" /\ ObjectPrototype_has key = false.

(** The schemas a documented request carries for the four parts, the one
    of the body being the schema of its [application/json] content. *)
Definition documented_schemas (request : option RouteRequest) : RequestSchemas :=
  match request with
  | None => mkSchemas None None None None
  | Some rq =>
      mkSchemas (rq_params rq) (rq_query rq)
                (match rq_body rq with
                 | Some body =>
                     match assoc "application/json" (co_own (rb_content body)) with
                     | Some def => cd_schema def
                     | None => None
                     end
                 | None => None
                 end)
                (rq_headers rq)
  end.

(** A text of ASCII characters only, on which [Str.toLowerCase] is the
    [toLowerCase] of the language. *)
Definition ascii_text (s : string) : bool :=
  all_chars (fun c => (N_of_ascii c <? 128)%N) s.

(** The media type object [transformContentTypes] makes of an entry. *)
Definition content_def_of (ct : ContentTypeConfig) : ContentDef :=
  mkContentDef (ct_schema ct) (when_truthy (ct_examples ct))
               (when_truthy (ct_encoding ct)).

(** A configuration with its [response] taken away and [responses] set. *)
Definition with_responses (config : FunctionRouteConfig)
  (responses : list ResponseConfig) : FunctionRouteConfig :=
  mkRouteConfig (fc_handler config) (fc_typedHandler config) (fc_methods config)
                (fc_route config) (fc_authLevel config)
                (fc_azureFunctionRoutePrefix config) (fc_tags config)
                (fc_description config) (fc_deprecated config) (fc_security config)
                (fc_operationId config) (fc_params config) (fc_query config)
                (fc_body config) (fc_headers config) None (Some responses)
                (fc_request config).

(** The definition [registerPath] gives the registry for a method. *)
Definition route_definition (name summary : string) (isWebHook : bool)
  (options : FunctionRouteConfig) (routePrefix : string) (transformed : RouteConfig)
  (method : string) : RegistryDefinition :=
  let route :=
    mkRoute (r_request transformed) (r_responses transformed) (r_tags transformed)
            (r_description transformed) (r_deprecated transformed)
            (r_security transformed)
            (Some (string_or (fc_operationId options) name))
            (Some summary)
            (Some (Str.toLowerCase method))
            (Some (normalizeOpenAPIPath (Some routePrefix) (fc_route options))) in
  if isWebHook then DefWebhook route else DefRoute route.

(** [options.authLevel || 'anonymous']. *)
Definition auth_level_of (options : FunctionRouteConfig) : AuthLevel :=
  match fc_authLevel options with Some level => level | None => Anonymous end.

(** ** Sample data *)

Module Samples.

(** A runtime for the examples: [JSON.parse] on the texts the examples use,
    and the string keys of [Array.prototype] of ECMAScript 2022. *)
Definition sample_JSON_parse (text : string) : option Val :=
  if String.eqb text "{}" then Some (VObject [])
  else if String.eqb text "[1,2]" then Some (VArray [VNumber 1; VNumber 2])
  else if String.eqb text "null" then Some VNull
  else None.

Definition sample_ArrayPrototype : list string :=
  [ "at"; "concat"; "constructor"; "copyWithin"; "entries"; "every"; "fill";
    "filter"; "find"; "findIndex"; "findLast"; "findLastIndex"; "flat";
    "flatMap"; "forEach"; "includes"; "indexOf"; "join"; "keys";
    "lastIndexOf"; "map"; "pop"; "push"; "reduce"; "reduceRight"; "reverse";
    "shift"; "slice"; "some"; "sort"; "splice"; "toLocaleString"; "toString";
    "unshift"; "values" ].

#[export] Instance sample_runtime : Runtime := {|
  JSON_parse := sample_JSON_parse;
  ArrayPrototype_has := fun key => existsb (String.eqb key) sample_ArrayPrototype;
  JSON_parse_empty := eq_refl
|}.

(** Schemas: one that accepts every input as it is, one that rejects every
    input with a single issue, one whose refinement throws. *)
Definition accept_all : Schema := fun v => Return v.

Definition issue (message : string) : Val :=
  VObject [("path", VArray []); ("message", VString message)].

Definition reject_all (message : string) : Schema :=
  fun _ => Throw (EZod {| issues := [issue message] |}).


Definition no_schemas : RequestSchemas := mkSchemas None None None None.

(** The prototype of a request built by a class: [url], [method],
    [headers] and [body] are getters and the body readers are methods. *)
Definition class_prototype (contentType : string) : JsObject :=
  Obj [ ("url", AccessorProp (GetterReturns (VString "http://localhost/api/todos/42")) false);
        ("method", AccessorProp (GetterReturns (VString "PUT")) false);
        ("headers", AccessorProp (GetterReturns (VHeaders [("content-type", contentType)])) false);
        ("body", AccessorProp (GetterReturns VStream) false);
        ("json", DataProp (VBodyReader MJson) true false);
        ("text", DataProp (VBodyReader MText) true false);
        ("formData", DataProp (VBodyReader MFormData) true false);
        ("arrayBuffer", DataProp (VBodyReader MArrayBuffer) true false);
        ("blob", DataProp (VBodyReader MBlob) true false) ]
      None.

(** A request built by a class: [query] and [params] are its own
    properties, everything else comes from the prototype. *)
Definition class_request (contentType : string) : JsObject :=
  Obj [ ("query", DataProp (VQuery [("tag", "a"); ("tag", "b")]) true true);
        ("params", DataProp (VParams [("id", "42")]) true true) ]
      (Some (class_prototype contentType)).

Definition json_request : JsObject := class_request "application/json; charset=utf-8".
Definition text_request : JsObject := class_request "text/plain".

(** A request that is a plain object: every member is an own enumerable
    data property. *)
Definition literal_request : JsObject :=
  Obj [ ("url", DataProp (VString "http://localhost/api/todos/42") true true);
        ("headers", DataProp (VHeaders [("content-type", "application/json")]) true true);
        ("query", DataProp (VQuery []) true true);
        ("params", DataProp (VParams [("id", "42")]) true true);
        ("json", DataProp (VBodyReader MJson) true true) ]
      None.

(** A request without headers. *)
Definition bare_request : JsObject :=
  Obj [ ("headers", DataProp (VHeaders []) true true);
        ("query", DataProp (VQuery []) true true);
        ("params", DataProp (VParams []) true true) ]
      (Some (Obj [("json", DataProp (VBodyReader MJson) true false)] None)).

Definition fresh (body : string) : State := mkState body false [].

Definition context0 : InvocationContext :=
  {| invocationId := "inv-1"; functionName := "UpdateTodo" |}.

(** Handlers: one that answers 200 with the body it was given, one that
    throws a [ValidationError], one that throws another error. *)
Definition echo_handler : TypedHandler :=
  fun args => ret (VObject [("status", VNumber 200); ("jsonBody", a_body args)]).


Definition failing_handler : TypedHandler :=
  fun _ => throw (EError "Error" "database is down").

(** Bundles: a body schema only; schemas for params, query and body that
    all reject; a query and a body schema that reject. *)
Definition body_only : RequestSchemas := mkSchemas None None (Some accept_all) None.

Definition all_reject : RequestSchemas :=
  mkSchemas (Some (reject_all "bad id")) (Some (reject_all "bad tag"))
            (Some (reject_all "bad title")) None.

Definition query_and_body_reject : RequestSchemas :=
  mkSchemas None (Some (reject_all "bad tag")) (Some (reject_all "bad title")) None.

(** What [parseRequest] makes of [json_request] without any schema. *)
Definition unvalidated : ParsedRequest :=
  mkParsed (VParams [("id", "42")])
           (VQuery [("tag", "a"); ("tag", "b")])
           VUndefined
           (VHeaders [("content-type", "application/json; charset=utf-8")]).

(** The guarded view of [json_request]. *)
Definition guarded_json_request : JsObject :=
  Obj [ ("query", DataProp (VQuery [("tag", "a"); ("tag", "b")]) true true);
        ("params", DataProp (VParams [("id", "42")]) true true) ]
      (Some SAFE_REQUEST_PROTOTYPE).

End Samples.

(** ** Sample data for registration, documentation and keys *)

Module Fixtures.

Import Samples.

(** A request that carries a function key in the query and another in a
    header. *)
Definition keyed_request : JsObject :=
  Obj [ ("query", DataProp (VQuery [("code", "from-query")]) true true) ]
      (Some (Obj [ ("headers",
                    AccessorProp (GetterReturns
                                    (VHeaders [("x-functions-key", "from-header")]))
                                 false) ]
                 None)).

(** The same without the [code] of the query. *)
Definition header_keyed_request : JsObject :=
  Obj [ ("query", DataProp (VQuery [("page", "2")]) true true) ]
      (Some (Obj [ ("headers",
                    AccessorProp (GetterReturns
                                    (VHeaders [("x-functions-key", "from-header")]))
                                 false) ]
                 None)).

(** The text of a client principal, and the header that encodes it. *)
Definition principal_text : string :=
  "{" ++ dq ++ "auth_typ" ++ dq ++ ":" ++ dq ++ "aad" ++ dq ++ "," ++
  dq ++ "userId" ++ dq ++ ":" ++ dq ++ "u1" ++ dq ++ "}".

Definition principal_header : string := "eyJhdXRoX3R5cCI6ImFhZCIsInVzZXJJZCI6InUxIn0=".

Definition principal_value : Val :=
  VObject [("auth_typ", VString "aad"); ("userId", VString "u1")].

(** The decoder on the headers the examples use. *)
Definition sample_base64 : Base64 := {|
  base64_utf8 := fun text =>
    if String.eqb text principal_header then principal_text
    else if String.eqb text "bnVsbA==" then "null"
    else if String.eqb text "e30=" then "{}"
    else ""
|}.

(** A runtime whose [JSON.parse] also knows the text of the principal. *)
Definition principal_runtime : Runtime := {|
  JSON_parse := fun text =>
    if String.eqb text principal_text then Some principal_value
    else sample_JSON_parse text;
  ArrayPrototype_has := fun key => existsb (String.eqb key) sample_ArrayPrototype;
  JSON_parse_empty := eq_refl
|}.

(** A host that refuses a name it already holds. *)
Definition sample_host : Host := {|
  app_http := fun fn functions =>
    if existsb (String.eqb (hf_name fn)) (map hf_name functions) then
      Throw (EError "Error"
               ("A function with the name " ++ hf_name fn ++
                " has already been registered."))
    else Return (functions ++ [fn])%list
|}.


Definition plain_handler : HttpHandler :=
  fun _ _ => ret (VObject [("status", VNumber 204)]).

(** Responses: a JSON answer, an answer without a body, and a report that
    comes as JSON or as a PDF file. *)
Definition ok_response : ResponseConfig :=
  mkResponse 200 None None (Some accept_all) None None None.

Definition missing_response : ResponseConfig :=
  mkResponse 404 None None None None None None.

Definition odd_response : ResponseConfig :=
  mkResponse 299 (Some "") None None None None None.

Definition report_response : ResponseConfig :=
  mkResponse 200 (Some "A report") None None None None
             (Some [ mkContentType "application/json" (Some accept_all) None None;
                     mkContentType "application/pdf" None None None ]).

(** A registration with a typed handler and a plain one, two methods, a
    route written with slashes to spare and shortcut schemas. *)
Definition todo_options : FunctionRouteConfig :=
  mkRouteConfig (Some plain_handler) (Some echo_handler) ["GET"; "PUT"]
                "/todos//{id}/" None None (Some ["todos"]) (Some "Updates a todo")
                None None None
                (Some accept_all) None (Some (reject_all "bad title")) None
                (Some accept_all) None None.

(** The same with [responses] besides [response]. *)
Definition twofold_options : FunctionRouteConfig :=
  mkRouteConfig (Some plain_handler) (Some echo_handler) ["GET"; "PUT"]
                "/todos//{id}/" None None (Some ["todos"]) (Some "Updates a todo")
                None None None
                (Some accept_all) None (Some (reject_all "bad title")) None
                (Some accept_all) (Some [missing_response]) None.

(** A registration without any handler. *)
Definition empty_options : FunctionRouteConfig :=
  mkRouteConfig None None ["GET"] "/health" None None None None None None None
                None None None None None None None.

(** What [transformToRouteConfig] makes of [todo_options]. *)
Definition todo_route : RouteConfig :=
  mkRoute
    (Some (mkRouteRequest
             (Some accept_all) None
             (Some (mkRequestBody None None
                      (mkContent [("application/json",
                                   mkContentDef (Some (reject_all "bad title")) None None)]
                                 None)))
             None None))
    (Some [(200%Z,
            mkResponseObject "OK"
              (Some (mkContent [("application/json",
                                 mkContentDef (Some accept_all) None None)]
                               None))
              None)])
    (Some ["todos"]) (Some "Updates a todo") None None None None None None.

(** The function the host is given for [todo_options]. *)
Definition todo_function : HttpFunction :=
  mkHttpFunction "UpdateTodo" ["GET"; "PUT"] Anonymous
    (@wrapTypedHandler sample_runtime
       (mkSchemas (Some accept_all) None (Some (reject_all "bad title")) None)
       echo_handler)
    "todos/{id}".

(** Worlds: configured by [app.openapi] with the prefix [api], and not. *)
Definition configured : World :=
  mkWorld [] [] (Some (mkGlobalConfig "api" VNull)) [].

Definition unconfigured : World := mkWorld [] [] None [].

(** A configured world that holds the function already. *)
Definition occupied : World :=
  mkWorld [todo_function] [] (Some (mkGlobalConfig "api" VNull)) [].

End Fixtures.

(** ** Properties *)

Unset Implicit Arguments.

(** *** Strings and tables *)

Lemma prefix_append : forall n post, String.prefix n (n ++ post) = true.
Proof.
  induction n as [|c n IH]; intros post; simpl.
  - now destruct post.
  - destruct (Ascii.ascii_dec c c) as [_|ne]; [apply IH | now elim ne].
Qed.

Lemma prefix_split : forall n s,
  String.prefix n s = true -> exists post, s = n ++ post.
Proof.
  induction n as [|c n IH]; intros s H.
  - now exists s.
  - destruct s as [|d s]; [discriminate|]. simpl in H.
    destruct (Ascii.ascii_dec c d) as [->|_]; [|discriminate].
    destruct (IH _ H) as [post ->]. now exists post.
Qed.

Lemma includes_unfold : forall n s,
  Str.includes n s =
  if String.prefix n s then true
  else match s with
       | EmptyString => false
       | String _ rest => Str.includes n rest
       end.
Proof. intros n [|c s]; reflexivity. Qed.

(** [includes] is containment: the needle occurs somewhere in the string. *)
Lemma includes_iff : forall n s,
  Str.includes n s = true <-> exists pre post, s = pre ++ n ++ post.
Proof.
  intros n s; split.
  - induction s as [|c s IH]; rewrite includes_unfold;
      destruct (String.prefix n _) eqn:P; intros H; try discriminate.
    + destruct (prefix_split _ _ P) as [post E]. now exists "", post.
    + destruct (prefix_split _ _ P) as [post E]. now exists "", post.
    + destruct (IH H) as (pre & post & ->). now exists (String c pre), post.
  - intros (pre & post & ->).
    induction pre as [|c pre IH]; rewrite includes_unfold; simpl.
    + now rewrite prefix_append.
    + match goal with |- (if ?b then _ else _) = _ => destruct b end;
        [reflexivity | exact IH].
Qed.

Lemma assoc_assign_same : forall (A : Type) key (v : A) l,
  assoc key (assign key v l) = Some v.
Proof.
  induction l as [|[k w] l IH]; simpl.
  - now rewrite String.eqb_refl.
  - destruct (String.eqb k key) eqn:E; simpl; rewrite E; auto.
Qed.

Lemma assoc_assign_other : forall (A : Type) key key' (v : A) l,
  key <> key' -> assoc key' (assign key v l) = assoc key' l.
Proof.
  induction l as [|[k w] l IH]; intros ne; simpl.
  - destruct (String.eqb_spec key key'); [contradiction | reflexivity].
  - destruct (String.eqb_spec k key) as [->|nk]; simpl.
    + destruct (String.eqb_spec key key'); [contradiction | reflexivity].
    + destruct (String.eqb k key'); auto.
Qed.

Lemma assoc_app_none : forall (A : Type) key (l l' : list (string * A)),
  assoc key l = None -> assoc key (l ++ l') = assoc key l'.
Proof.
  induction l as [|[k w] l IH]; intros l' H; simpl in *; [reflexivity|].
  destruct (String.eqb k key); [discriminate | auto].
Qed.

Lemma assoc_app_some : forall (A : Type) key (l l' : list (string * A)) v,
  assoc key l = Some v -> assoc key (l ++ l') = Some v.
Proof.
  induction l as [|[k w] l IH]; intros l' v H; simpl in *; [discriminate|].
  destruct (String.eqb k key); auto.
Qed.

(** *** The monad *)

Lemma bind_return : forall A B (m : M A) (k : A -> M B) st b st',
  bind m k st = (Return b, st') ->
  exists a st1, m st = (Return a, st1) /\ k a st1 = (Return b, st').
Proof.
  unfold bind; intros A B m k st b st' H.
  destruct (m st) as [[a|e] st1]; [eauto | discriminate].
Qed.

Lemma bind_throw : forall A B (m : M A) (k : A -> M B) st e st',
  bind m k st = (Throw e, st') ->
  m st = (Throw e, st') \/
  exists a st1, m st = (Return a, st1) /\ k a st1 = (Throw e, st').
Proof.
  unfold bind; intros A B m k st e st' H.
  destruct (m st) as [[a|e1] st1]; [right; eauto | left].
  now inversion H.
Qed.

Lemma bind_step : forall A B (m : M A) (k : A -> M B) st a st1,
  m st = (Return a, st1) -> bind m k st = k a st1.
Proof. unfold bind; intros * H; now rewrite H. Qed.

Lemma bind_fail : forall A B (m : M A) (k : A -> M B) st e st1,
  m st = (Throw e, st1) -> bind m k st = (Throw e, st1).
Proof. unfold bind; intros * H; now rewrite H. Qed.

(** Unfolds the operations of the monad in the goal. *)
Ltac run := unfold bind, try_catch, lift, ret, throw, emit; simpl.

(** *** The body parser *)

Section BodyParser.

Context {rt : Runtime}.

(** [parseBody] on a request whose [headers] is a [Headers] object: the
    gate, then the read of the body, then the schema. *)
Lemma parseBody_run : forall request schema st h,
  Get request "headers" = Return (VHeaders h) ->
  parseBody request schema st =
    let st1 := logged (EvParser PBody) st in
    if not_json (Headers_get h "content-type") then
      (Throw (EValidation "Content-Type must be application/json" None), st1)
    else
      match call_method request "json" st1 with
      | (Return bodyData, st2) =>
          try_catch (schema_parse PBody schema bodyData)
                    (wrap_zod "Request body validation failed") st2
      | (Throw _, st2) => (Throw (EValidation "Invalid JSON body" None), st2)
      end.
Proof.
  intros request schema st h Hh.
  unfold parseBody. run. rewrite Hh. simpl.
  destruct (not_json _); [reflexivity|].
  destruct (call_method request "json" _) as [[v|e] st2]; reflexivity.
Qed.

(** [request.json()] on the framework's reader. *)
Lemma call_json_reader : forall request st,
  Get request "json" = Return (VBodyReader MJson) ->
  call_method request "json" st =
    if st_bodyUsed st then
      (Throw (EError "TypeError" "Body is unusable"), consumed MJson st)
    else match JSON_parse (st_body st) with
         | Some v => (Return v, consumed MJson st)
         | None => (Throw (EError "SyntaxError" "Unexpected token in JSON"),
                    consumed MJson st)
         end.
Proof.
  intros request st Hj. unfold call_method. run. rewrite Hj. reflexivity.
Qed.

(** A text that parses as JSON is not empty: a body that was parsed had a
    stream, which the read used up. *)
Lemma parsed_body_not_empty : forall text v,
  JSON_parse text = Some v -> String.eqb text "" = false.
Proof.
  intros text v H. destruct (String.eqb_spec text "") as [->|]; [|reflexivity].
  rewrite JSON_parse_empty in H. discriminate H.
Qed.

(** The gate lets a content type through exactly when it contains
    [application/json]. *)
Lemma not_json_false_iff : forall contentType,
  not_json contentType = false <->
  exists ct pre post, contentType = Some ct /\ ct = pre ++ "application/json" ++ post.
Proof.
  intros [ct|]; simpl; split.
  - intros H. apply negb_false_iff, includes_iff in H.
    destruct H as (pre & post & E). exists ct, pre, post. now split.
  - intros (ct' & pre & post & [= <-] & E).
    apply negb_false_iff, includes_iff. now exists pre, post.
  - discriminate.
  - intros (ct' & pre & post & E & _). discriminate.
Qed.

(** C5 (as amended). A request whose headers have no [content-type] value
    containing [application/json] makes
    [parseBody] throw a [ValidationError] with the message
    [Content-Type must be application/json] and nothing attached, whatever
    the body and the schema are; the body stream is left unread (its text
    and its [bodyUsed] flag are as before) and the only call recorded is the
    entry into the parser: neither the body reader nor the schema ran. *)
Theorem parseBody_content_type_not_json :
  forall (request : JsObject) (schema : Schema) (st : State) (h : list (string * string)),
    Get request "headers" = Return (VHeaders h) ->
    (forall ct pre post,
        Headers_get h "content-type" = Some ct ->
        ct <> pre ++ "application/json" ++ post) ->
    parseBody request schema st =
      (Throw (EValidation "Content-Type must be application/json" None),
       mkState (st_body st) (st_bodyUsed st) (st_trace st ++ [EvParser PBody])).
Proof.
  intros request schema st h Hh Hct.
  rewrite (parseBody_run _ schema st _ Hh). simpl.
  destruct (not_json (Headers_get h "content-type")) eqn:G; [reflexivity|].
  apply not_json_false_iff in G. destruct G as (ct & pre & post & E & C).
  now elim (Hct ct pre post E).
Qed.

(** C6 (as amended). On a request whose [content-type] value contains
    [application/json] and whose body text is not valid JSON, [parseBody]
    throws a [ValidationError] with the message [Invalid JSON body] and no
    [ZodError] attached (the schema failure carries another message and its
    [ZodError]), and the schema has not been called: the calls recorded are
    the entry into the parser and the read of the body, which uses up the
    stream of the request when it has one (a request without a body keeps
    [bodyUsed] as it was).  And in every run of [parseBody], a call of the
    schema is recorded only if the body had not been read before and its
    text parsed as JSON. *)
Theorem parseBody_invalid_json :
  forall (request : JsObject) (schema : Schema) (st : State) (h : list (string * string)),
    Get request "headers" = Return (VHeaders h) ->
    Get request "json" = Return (VBodyReader MJson) ->
    (forall ct pre post,
        Headers_get h "content-type" = Some ct ->
        ct = pre ++ "application/json" ++ post ->
        JSON_parse (st_body st) = None ->
        parseBody request schema st =
          (Throw (EValidation "Invalid JSON body" None),
           mkState (st_body st)
                   (st_bodyUsed st || negb (String.eqb (st_body st) ""))
                   (st_trace st ++ [EvParser PBody; EvBodyRead MJson]))
        /\ forall z, EValidation "Invalid JSON body" None
                     <> EValidation "Request body validation failed" (Some z)) /\
    (forall r st',
        parseBody request schema st = (r, st') ->
        ~ In (EvSchema PBody) (st_trace st) ->
        In (EvSchema PBody) (st_trace st') ->
        st_bodyUsed st = false /\ exists v, JSON_parse (st_body st) = Some v).
Proof.
  intros request schema st h Hh Hj. split.
  - intros ct pre post Hct Hinc Hbad. split; [|discriminate].
    assert (G : not_json (Headers_get h "content-type") = false).
    { apply not_json_false_iff. exists ct, pre, post. now split. }
    rewrite (parseBody_run _ schema st _ Hh). cbv zeta. rewrite G.
    rewrite (call_json_reader _ _ Hj).
    cbn [st_bodyUsed st_body logged].
    destruct (st_bodyUsed st) eqn:U; [|rewrite Hbad];
      unfold consumed, logged; cbn [st_body st_bodyUsed st_trace];
      rewrite U, <- app_assoc; reflexivity.
  - intros r st' Hrun Hno Hin.
    rewrite (parseBody_run _ schema st _ Hh) in Hrun. simpl in Hrun.
    assert (Hstop : forall e (s : State),
               (Throw e : Completion Val, s) = (r, st') ->
               st_trace s = (st_trace st ++ [EvParser PBody])%list \/
               st_trace s = (st_trace st ++ [EvParser PBody; EvBodyRead MJson])%list ->
               False).
    { intros e s [= <- <-] [T|T]; rewrite T in Hin;
        apply in_app_or in Hin; destruct Hin as [Hin|Hin]; try contradiction;
        simpl in Hin; intuition discriminate. }
    destruct (not_json _).
    + exfalso. eapply Hstop; [exact Hrun | left; reflexivity].
    + rewrite (call_json_reader _ _ Hj) in Hrun. simpl in Hrun.
      destruct (st_bodyUsed st).
      * exfalso. eapply Hstop; [exact Hrun | right].
        unfold consumed, logged; simpl. now rewrite <- app_assoc.
      * split; [reflexivity|].
        destruct (JSON_parse (st_body st)) as [v|]; [now exists v|].
        exfalso. eapply Hstop; [exact Hrun | right].
        unfold consumed, logged; simpl. now rewrite <- app_assoc.
Qed.

(** C10. The gate of [parseBody] is containment, and nothing else.  When
    the [content-type] value of the request contains [application/json]
    anywhere, the gate passes and the body is read with [request.json()]: a
    failure of the read becomes [Invalid JSON body], and a value read is
    handed to the schema (on the framework's reader with an unread body
    whose text parses as JSON to [v], the parser continues with the schema
    on [v]).  When the request has no [content-type] header at all, or one
    whose value does not contain [application/json], the gate throws the
    [Content-Type must be application/json] error and the body is not
    read. *)
Theorem parseBody_gate_is_containment :
  forall (request : JsObject) (schema : Schema) (st : State) (h : list (string * string)),
    Get request "headers" = Return (VHeaders h) ->
    (forall ct pre post,
        Headers_get h "content-type" = Some ct ->
        ct = pre ++ "application/json" ++ post ->
        parseBody request schema st =
          match call_method request "json" (logged (EvParser PBody) st) with
          | (Return bodyData, st2) =>
              try_catch (schema_parse PBody schema bodyData)
                        (wrap_zod "Request body validation failed") st2
          | (Throw _, st2) => (Throw (EValidation "Invalid JSON body" None), st2)
          end
        /\ (forall v,
               Get request "json" = Return (VBodyReader MJson) ->
               st_bodyUsed st = false ->
               JSON_parse (st_body st) = Some v ->
               parseBody request schema st =
                 try_catch (schema_parse PBody schema v)
                           (wrap_zod "Request body validation failed")
                           (consumed MJson (logged (EvParser PBody) st)))) /\
    (Headers_get h "content-type" = None ->
     parseBody request schema st =
       (Throw (EValidation "Content-Type must be application/json" None),
        logged (EvParser PBody) st)) /\
    (forall ct,
        Headers_get h "content-type" = Some ct ->
        (forall pre post, ct <> pre ++ "application/json" ++ post) ->
        parseBody request schema st =
          (Throw (EValidation "Content-Type must be application/json" None),
           logged (EvParser PBody) st)).
Proof.
  intros request schema st h Hh.
  split; [|split].
  - intros ct pre post Hct E.
    assert (G : not_json (Headers_get h "content-type") = false).
    { apply not_json_false_iff. exists ct, pre, post. now split. }
    rewrite (parseBody_run _ schema st _ Hh). simpl. rewrite G. split; [reflexivity|].
    intros v Hj Hused Hv. rewrite (call_json_reader _ _ Hj). simpl.
    now rewrite Hused, Hv.
  - intros Hnone. rewrite (parseBody_run _ schema st _ Hh). simpl. now rewrite Hnone.
  - intros ct Hct Hnot. rewrite (parseBody_run _ schema st _ Hh). cbv zeta.
    destruct (not_json (Headers_get h "content-type")) eqn:G; [reflexivity|].
    apply not_json_false_iff in G. destruct G as (ct' & pre & post & E & C).
    rewrite Hct in E. injection E as <-. now elim (Hnot pre post).
Qed.

End BodyParser.

(** *** The orchestrator *)

Section Orchestrator.

Context {rt : Runtime}.

(** Case analysis on what a run reads, calls and gets. *)
Ltac cases :=
  repeat (simpl in *;
          match goal with
          | H : (_, _) = (_, _) |- _ => inversion H; subst; clear H
          | H : context [match ?x with _ => _ end] |- _ => destruct x eqn:?
          end).

(** A typed parser whose schema rejects its input throws the
    [ValidationError] of its part with the [ZodError] attached. *)
Lemma parse_part_rejects : forall part request schemas schema st v st' z,
  schema_of part schemas = Some schema ->
  schema_input request part st v st' ->
  schema v = Throw (EZod z) ->
  parse_part part request schemas st =
    (Throw (EValidation (part_message part) (Some z)), st').
Proof.
  intros part request schemas schema st v st' z Hs Hin Hv.
  destruct Hin; simpl in Hs; unfold parse_part; rewrite Hs.
  - unfold parseRouteParams. run. rewrite H. simpl.
    unfold schema_parse. run. now rewrite Hv.
  - unfold parseQueryParams. run. rewrite H. simpl.
    unfold schema_parse. run. now rewrite Hv.
  - rewrite (parseBody_run _ schema st _ H). simpl. rewrite H0, H1.
    unfold schema_parse. run. now rewrite Hv.
  - unfold parseHeaders. run. rewrite H. simpl.
    unfold schema_parse. run. now rewrite Hv.
Qed.

(** A typed parser whose schema accepts its input returns the typed value. *)
Lemma parse_part_accepts : forall part request schemas schema st v st' w,
  schema_of part schemas = Some schema ->
  schema_input request part st v st' ->
  schema v = Return w ->
  parse_part part request schemas st = (Return w, st').
Proof.
  intros part request schemas schema st v st' w Hs Hin Hv.
  destruct Hin; simpl in Hs; unfold parse_part; rewrite Hs.
  - unfold parseRouteParams. run. rewrite H. simpl.
    unfold schema_parse. run. now rewrite Hv.
  - unfold parseQueryParams. run. rewrite H. simpl.
    unfold schema_parse. run. now rewrite Hv.
  - rewrite (parseBody_run _ schema st _ H). simpl. rewrite H0, H1.
    unfold schema_parse. run. now rewrite Hv.
  - unfold parseHeaders. run. rewrite H. simpl.
    unfold schema_parse. run. now rewrite Hv.
Qed.

(** Without a schema, a part other than the body is the value read from
    the request, and nothing else happens. *)
Lemma parse_part_without_schema : forall part request schemas st,
  schema_of part schemas = None ->
  parse_part part request schemas st =
    match part with
    | PBody => (Return VUndefined, st)
    | _ => (Get request (part_property part), st)
    end.
Proof.
  intros [] request schemas st Hs; simpl in Hs; unfold parse_part; rewrite Hs;
    reflexivity.
Qed.

(** Parsing a part other than the body leaves the body stream alone and
    records at most the entry into its parser and the call of its schema. *)
Lemma parse_part_frame : forall part request schemas st r st',
  part <> PBody ->
  parse_part part request schemas st = (r, st') ->
  st' = st \/ st' = logged (EvParser part) st \/
  st' = logged (EvSchema part) (logged (EvParser part) st).
Proof.
  intros part request schemas st r st' Hp H.
  destruct part; try congruence; clear Hp;
    unfold parse_part, parseRouteParams, parseQueryParams, parseHeaders,
           schema_parse, wrap_zod in H;
    unfold bind, try_catch, lift, ret, throw, emit in H;
    cases; auto.
Qed.

(** How [parseRequest] ends when the parts before [part] have been dealt
    with and [part] throws: with that error, in the state [part] left. *)
Lemma parseRequest_stops : forall part request schemas st st1 e st2,
  parse_parts (parts_before part) request schemas st = (Return tt, st1) ->
  parse_part part request schemas st1 = (Throw e, st2) ->
  parseRequest request schemas st = (Throw e, st2).
Proof.
  intros part request schemas st st1 e st2 Hbefore Hpart.
  unfold parseRequest.
  destruct part; cbn [parse_parts parts_before] in Hbefore;
    repeat match type of Hbefore with
      | bind _ _ _ = _ =>
          apply bind_return in Hbefore;
          destruct Hbefore as (? & ? & ? & Hbefore)
      end;
    unfold ret in Hbefore; inversion Hbefore; subst;
    repeat match goal with
      | H : parse_part _ _ _ _ = (Return _, _) |- _ =>
          rewrite (bind_step _ _ _ _ _ _ _ H); cbv beta; clear H
      end;
    now rewrite (bind_fail _ _ _ _ _ _ _ Hpart).
Qed.

(** What a successful run of [parseRequest] is made of. *)
Lemma parseRequest_return : forall request schemas st parsed st',
  parseRequest request schemas st = (Return parsed, st') ->
  exists st1 st2 st3,
    parse_part PParams request schemas st = (Return (p_params parsed), st1) /\
    parse_part PQuery request schemas st1 = (Return (p_query parsed), st2) /\
    parse_part PBody request schemas st2 = (Return (p_body parsed), st3) /\
    parse_part PHeaders request schemas st3 = (Return (p_headers parsed), st').
Proof.
  intros request schemas st parsed st' H. unfold parseRequest in H.
  apply bind_return in H. destruct H as (v1 & st1 & H1 & H).
  apply bind_return in H. destruct H as (v2 & st2 & H2 & H).
  apply bind_return in H. destruct H as (v3 & st3 & H3 & H).
  apply bind_return in H. destruct H as (v4 & st4 & H4 & H).
  unfold ret in H. inversion H; subst. simpl. eauto 8.
Qed.

Lemma frame_body : forall part st st',
  st' = st \/ st' = logged (EvParser part) st \/
  st' = logged (EvSchema part) (logged (EvParser part) st) ->
  st_body st' = st_body st /\ st_bodyUsed st' = st_bodyUsed st.
Proof. intros part st st' [->|[->| ->]]; now split. Qed.

Lemma frame_trace : forall part st st' ev,
  st' = st \/ st' = logged (EvParser part) st \/
  st' = logged (EvSchema part) (logged (EvParser part) st) ->
  In ev (st_trace st') ->
  In ev (st_trace st) \/ ev = EvParser part \/ ev = EvSchema part.
Proof.
  intros part st st' ev [->|[->| ->]] Hin; simpl in Hin; auto;
    repeat (apply in_app_or in Hin; destruct Hin as [Hin|Hin]);
    simpl in *; intuition auto.
Qed.

(** Without a body schema, a successful [parseRequest] gives [undefined]
    for the body and leaves the body stream as it was. *)
Lemma parseRequest_without_body_schema : forall request schemas st parsed st',
  parseRequest request schemas st = (Return parsed, st') ->
  s_body schemas = None ->
  p_body parsed = VUndefined /\
  st_body st' = st_body st /\ st_bodyUsed st' = st_bodyUsed st.
Proof.
  intros request schemas st parsed st' H Hs.
  destruct (parseRequest_return _ _ _ _ _ H) as (st1 & st2 & st3 & H1 & H2 & H3 & H4).
  rewrite (parse_part_without_schema PBody _ _ _ Hs) in H3.
  inversion H3; subst.
  apply parse_part_frame in H1, H2, H4; try discriminate.
  apply frame_body in H1, H2, H4.
  destruct H1 as [B1 U1], H2 as [B2 U2], H4 as [B4 U4].
  repeat split; congruence.
Qed.

(** C1 (as amended). When [parseRequest] returns, the field of a part
    other than the body for which the bundle has no schema is the value read
    from the request ([request.params], [request.query],
    [request.headers]), as it is; and when the bundle has no body schema the
    [body] field is [undefined] and the body stream has not been read. *)
Theorem parseRequest_passes_through :
  forall (request : JsObject) (schemas : RequestSchemas) (st : State)
         (parsed : ParsedRequest) (st' : State),
    parseRequest request schemas st = (Return parsed, st') ->
    (forall part,
        part <> PBody ->
        schema_of part schemas = None ->
        Get request (part_property part) = Return (parsed_field part parsed)) /\
    (s_body schemas = None ->
     p_body parsed = VUndefined /\
     st_body st' = st_body st /\ st_bodyUsed st' = st_bodyUsed st).
Proof.
  intros request schemas st parsed st' H.
  destruct (parseRequest_return _ _ _ _ _ H) as (st1 & st2 & st3 & H1 & H2 & H3 & H4).
  split.
  - intros part Hp Hs.
    destruct part; try congruence;
      match goal with
      | Hrun : parse_part ?p _ _ _ = _ |- context [part_property ?p] =>
          rewrite (parse_part_without_schema p _ _ _ Hs) in Hrun;
          now inversion Hrun
      end.
  - exact (parseRequest_without_body_schema _ _ _ _ _ H).
Qed.

(** C2. [parseRequest] deals with the parts in the order
    params, query, body, headers and catches nothing: when the parts before
    a part have been dealt with and that part throws, [parseRequest] throws
    that very error and stops in the state that part left.  In particular,
    when the params part succeeds and the query schema rejects its input,
    [parseRequest] throws the [ValidationError] of the query, whatever the
    body schema would do, and the parser of the body is not entered: the
    body stream is as it was and the record of calls gains no entry of the
    body parser and no read of the body. *)
Theorem parseRequest_fail_fast :
  forall (request : JsObject) (schemas : RequestSchemas) (st : State),
    (forall part st1 e st2,
        parse_parts (parts_before part) request schemas st = (Return tt, st1) ->
        parse_part part request schemas st1 = (Throw e, st2) ->
        parseRequest request schemas st = (Throw e, st2)) /\
    (forall pv st1 qs query z,
        parse_part PParams request schemas st = (Return pv, st1) ->
        s_query schemas = Some qs ->
        Get request "query" = Return (VQuery query) ->
        qs (convertQueryToObject query) = Throw (EZod z) ->
        let st2 := logged (EvSchema PQuery) (logged (EvParser PQuery) st1) in
        parseRequest request schemas st =
          (Throw (EValidation "Query parameters validation failed" (Some z)), st2) /\
        st_body st2 = st_body st /\ st_bodyUsed st2 = st_bodyUsed st /\
        (forall ev, In ev (st_trace st2) ->
                    In ev (st_trace st) \/
                    In ev [EvParser PParams; EvSchema PParams;
                           EvParser PQuery; EvSchema PQuery])).
Proof.
  intros request schemas st. split.
  - intros part st1 e st2. apply parseRequest_stops.
  - intros pv st1 qs query z Hp Hs Hq Hz st2.
    assert (Hrun : parse_part PQuery request schemas st1 =
                   (Throw (EValidation (part_message PQuery) (Some z)), st2)).
    { eapply parse_part_rejects; [exact Hs | exact (@input_query _ request st1 query Hq) | exact Hz]. }
    split.
    + apply (parseRequest_stops PQuery) with (st1 := st1); [|exact Hrun].
      cbn [parse_parts parts_before]. rewrite (bind_step _ _ _ _ _ _ _ Hp). reflexivity.
    + apply parse_part_frame in Hp; [|discriminate].
      destruct (frame_body _ _ _ Hp) as [Hb Hu].
      split; [exact Hb|]. split; [exact Hu|].
      intros ev Hin. subst st2. simpl in Hin.
      repeat (apply in_app_or in Hin; destruct Hin as [Hin|Hin]).
      * destruct (frame_trace PParams st st1 ev Hp Hin) as [?|[->| ->]];
          simpl; auto.
      * simpl in Hin; simpl; intuition auto.
      * simpl in Hin; simpl; intuition auto.
Qed.

End Orchestrator.

(** *** The request guard *)

Lemma dangerous_cases : forall m,
  In m dangerousMethods ->
  m = "json" \/ m = "text" \/ m = "formData" \/ m = "arrayBuffer" \/ m = "blob".
Proof. unfold dangerousMethods; simpl; intros m H; intuition auto. Qed.

(** The guard prototype answers each dangerous method with its throwing
    getter. *)
Lemma safe_prototype_blocks : forall m,
  In m dangerousMethods ->
  find_prop SAFE_REQUEST_PROTOTYPE m =
    Some (AccessorProp (GetterThrows (EError "Error" (guard_message m))) false).
Proof.
  intros m H.
  destruct (dangerous_cases m H) as [->|[->|[->|[->| ->]]]]; reflexivity.
Qed.

(** It defines nothing else. *)
Lemma safe_prototype_other : forall key,
  ~ In key dangerousMethods -> find_prop SAFE_REQUEST_PROTOTYPE key = None.
Proof.
  intros key H. unfold SAFE_REQUEST_PROTOTYPE, dangerousMethods in *.
  cbn [map find_prop assoc In] in *.
  repeat match goal with
         | |- context [String.eqb ?a key] =>
             destruct (String.eqb_spec a key); [exfalso; intuition auto|]
         end.
  reflexivity.
Qed.

(** The message of a blocked method says that the body has already been
    parsed. *)
Lemma guard_message_mentions : forall m,
  In m dangerousMethods ->
  Str.includes "already been parsed" (guard_message m) = true.
Proof.
  intros m H.
  destruct (dangerous_cases m H) as [->|[->|[->|[->| ->]]]]; reflexivity.
Qed.

(** An assignment to a child of the guard prototype that succeeds leaves it
    a child of the guard prototype with no dangerous method of its own. *)
Lemma Set_guarded : forall own key v target,
  (forall m, In m dangerousMethods -> assoc m own = None) ->
  Set_ (Obj own (Some SAFE_REQUEST_PROTOTYPE)) key v = Return target ->
  exists own',
    target = Obj own' (Some SAFE_REQUEST_PROTOTYPE) /\
    (forall m, In m dangerousMethods -> assoc m own' = None).
Proof.
  intros own key v target Hown Hset. unfold Set_ in Hset.
  destruct (assoc key own) as [[w [|] e|g e]|] eqn:Hk; try discriminate.
  - inversion Hset; subst. eexists; split; [reflexivity|].
    intros m Hm. rewrite assoc_assign_other; [auto|].
    intros ->. rewrite (Hown _ Hm) in Hk. discriminate.
  - destruct (in_dec string_dec key dangerousMethods) as [Hd|Hd].
    + rewrite (safe_prototype_blocks _ Hd) in Hset. discriminate.
    + rewrite (safe_prototype_other _ Hd) in Hset.
      inversion Hset; subst. eexists; split; [reflexivity|].
      intros m Hm. rewrite (assoc_app_none _ _ _ _ (Hown _ Hm)).
      cbn [assoc].
      destruct (String.eqb_spec key m); [subst; contradiction | reflexivity].
Qed.

Lemma assign_props_guarded : forall props own safe,
  (forall m, In m dangerousMethods -> assoc m own = None) ->
  assign_props (Obj own (Some SAFE_REQUEST_PROTOTYPE)) props = Return safe ->
  exists own',
    safe = Obj own' (Some SAFE_REQUEST_PROTOTYPE) /\
    (forall m, In m dangerousMethods -> assoc m own' = None).
Proof.
  induction props as [|[key d] props IH]; intros own safe Hown H;
    cbn [assign_props] in H.
  - inversion H; subst. eauto.
  - destruct (prop_enumerable d); [|eauto].
    destruct (prop_read d) as [v|e]; [|discriminate].
    destruct (Set_ _ key v) as [target|e] eqn:Hset; [|discriminate].
    destruct (Set_guarded _ _ _ _ Hown Hset) as (own1 & -> & Hown1). eauto.
Qed.

(** Every object [createSafeRequest] returns for a parsed body throws, on
    the read of any dangerous method, the error of the guard. *)
Lemma createSafeRequest_blocks : forall request safe m,
  createSafeRequest request true = Return safe ->
  In m dangerousMethods ->
  Get safe m = Throw (EError "Error" (guard_message m)).
Proof.
  intros request safe m H Hm.
  unfold createSafeRequest, Object_assign, Object_create in H.
  cbn [negb] in H.
  destruct (assign_props_guarded (own_props request) [] safe)
    as (own' & -> & Hown'); [reflexivity | exact H |].
  unfold Get. cbn [find_prop]. rewrite (Hown' _ Hm).
  now rewrite (safe_prototype_blocks _ Hm).
Qed.

(** *** The dispatcher *)

Section Dispatcher.

Context {rt : Runtime}.

(** The arguments the dispatcher hands to the typed handler. *)
Lemma wrapTypedHandler_invokes :
  forall schemas handler request context st parsed st1 safe,
    parseRequest request schemas st = (Return parsed, st1) ->
    createSafeRequest request (has_body_schema schemas) = Return safe ->
    wrapTypedHandler schemas handler request context st =
      try_catch
        (handler (mkArgs (p_params parsed) (p_query parsed) (p_body parsed)
                         (p_headers parsed) safe context))
        handle_error st1.
Proof.
  intros schemas handler request context st parsed st1 safe Hp Hs.
  unfold wrapTypedHandler, try_catch at 1.
  rewrite (bind_step _ _ _ _ _ _ _ Hp). unfold bind, lift, try_catch.
  rewrite Hs. reflexivity.
Qed.

(** An error of [parseRequest] goes to the [catch] clause. *)
Lemma wrapTypedHandler_parse_error :
  forall schemas handler request context st e st1,
    parseRequest request schemas st = (Throw e, st1) ->
    wrapTypedHandler schemas handler request context st = handle_error e st1.
Proof.
  intros schemas handler request context st e st1 Hp.
  unfold wrapTypedHandler, try_catch.
  now rewrite (bind_fail _ _ _ _ _ _ _ Hp).
Qed.

(** When the guarded view cannot be made, the handler is not invoked and
    the error goes to the [catch] clause. *)
Lemma wrapTypedHandler_guard_failure :
  forall schemas handler request context st parsed st1 e,
    parseRequest request schemas st = (Return parsed, st1) ->
    createSafeRequest request (has_body_schema schemas) = Throw e ->
    wrapTypedHandler schemas handler request context st = handle_error e st1.
Proof.
  intros schemas handler request context st parsed st1 e Hp Hs.
  unfold wrapTypedHandler, try_catch at 1.
  rewrite (bind_step _ _ _ _ _ _ _ Hp). unfold bind, lift.
  rewrite Hs. reflexivity.
Qed.


(** C4. When the parts before a part have been dealt with and the schema
    of that part rejects the input its typed parser hands to it, the
    dispatcher returns the response
    [{ status: 400, jsonBody: { error, details } }] and nothing else in it,
    where [error] is the message of that parser and [details] the issues of
    the [ZodError]; and a [ValidationError] of [parseRequest] with nothing
    attached is answered in the same shape with an empty [details]. *)
Theorem wrapTypedHandler_validation_response :
  forall (schemas : RequestSchemas) (handler : TypedHandler) (request : JsObject)
         (context : InvocationContext) (st : State),
    (forall part st1 schema v st2 z,
        parse_parts (parts_before part) request schemas st = (Return tt, st1) ->
        schema_of part schemas = Some schema ->
        schema_input request part st1 v st2 ->
        schema v = Throw (EZod z) ->
        wrapTypedHandler schemas handler request context st =
          (Return (VObject
                     [ ("status", VNumber 400);
                       ("jsonBody",
                        VObject [ ("error", VString (part_message part));
                                  ("details", VArray (issues z)) ]) ]),
           st2)) /\
    (forall message st1,
        parseRequest request schemas st = (Throw (EValidation message None), st1) ->
        wrapTypedHandler schemas handler request context st =
          (Return (VObject
                     [ ("status", VNumber 400);
                       ("jsonBody",
                        VObject [ ("error", VString message);
                                  ("details", VArray []) ]) ]),
           st1)).
Proof.
  intros schemas handler request context st. split.
  - intros part st1 schema v st2 z Hbefore Hs Hin Hz.
    rewrite (wrapTypedHandler_parse_error _ handler _ context _
               (EValidation (part_message part) (Some z)) st2); [reflexivity|].
    apply (parseRequest_stops part) with (st1 := st1); [exact Hbefore|].
    exact (parse_part_rejects _ _ _ _ _ _ _ _ Hs Hin Hz).
  - intros message st1 Hp.
    now rewrite (wrapTypedHandler_parse_error _ handler _ context _ _ _ Hp).
Qed.

(** C7. With a body schema in the bundle, the request the dispatcher hands
    to the typed handler is the object [createSafeRequest] made, and on it
    the read of each of [json], [text], [formData], [arrayBuffer] and [blob]
    throws an error whose message says that the body has already been
    parsed.  Without a body schema, the handler is handed the request
    itself, and the body stream is as it was before the dispatch: unread if
    it was unread. *)
Theorem wrapTypedHandler_guards_request :
  forall (schemas : RequestSchemas) (handler : TypedHandler) (request : JsObject)
         (context : InvocationContext) (st : State) (parsed : ParsedRequest)
         (st1 : State),
    parseRequest request schemas st = (Return parsed, st1) ->
    (forall bodySchema safe,
        s_body schemas = Some bodySchema ->
        createSafeRequest request true = Return safe ->
        wrapTypedHandler schemas handler request context st =
          try_catch
            (handler (mkArgs (p_params parsed) (p_query parsed) (p_body parsed)
                             (p_headers parsed) safe context))
            handle_error st1 /\
        forall m, In m ["json"; "text"; "formData"; "arrayBuffer"; "blob"] ->
                  exists message,
                    Get safe m = Throw (EError "Error" message) /\
                    Str.includes "already been parsed" message = true) /\
    (s_body schemas = None ->
     wrapTypedHandler schemas handler request context st =
       try_catch
         (handler (mkArgs (p_params parsed) (p_query parsed) (p_body parsed)
                          (p_headers parsed) request context))
         handle_error st1 /\
     st_body st1 = st_body st /\ st_bodyUsed st1 = st_bodyUsed st).
Proof.
  intros schemas handler request context st parsed st1 Hp. split.
  - intros bodySchema safe Hb Hs. split.
    + apply wrapTypedHandler_invokes; [exact Hp|].
      unfold has_body_schema. now rewrite Hb.
    + intros m Hm. exists (guard_message m). split.
      * exact (createSafeRequest_blocks _ _ _ Hs Hm).
      * exact (guard_message_mentions _ Hm).
  - intros Hb. split.
    + apply wrapTypedHandler_invokes; [exact Hp|].
      unfold has_body_schema. now rewrite Hb.
    + destruct (parseRequest_without_body_schema _ _ _ _ _ Hp Hb) as (_ & B & U).
      now split.
Qed.

End Dispatcher.

(** *** The query adapter *)

Section QueryAdapter.

Context {rt : Runtime}.

Lemma values_of_snoc : forall key query k v,
  values_of key (query ++ [(k, v)]) =
  if String.eqb k key then (values_of key query ++ [v])%list
  else values_of key query.
Proof.
  intros key query k v. unfold values_of. rewrite filter_app, map_app.
  cbn [filter fst]. destruct (String.eqb k key); cbn [map snd].
  - reflexivity.
  - apply app_nil_r.
Qed.

Lemma folded_values_snoc : forall values v,
  folded_values (values ++ [v]) =
  match values with
  | [] => Some (VString v)
  | _ => Some (VArray (map VString values ++ [VString v]))
  end.
Proof.
  intros [|a [|b values]] v; cbn [app folded_values map]; try reflexivity.
  now rewrite map_app.
Qed.

(** One step of the folding, on an object that holds the folded values of
    the entries met so far, for an entry with a plain key. *)
Lemma query_step_folds : forall done result key value,
  po_over result = None ->
  (forall k, assoc k (po_own result) = folded_values (values_of k done)) ->
  plain_key key ->
  po_over (query_step result (key, value)) = None /\
  (forall k, assoc k (po_own (query_step result (key, value))) =
             folded_values (values_of k (done ++ [(key, value)]))).
Proof.
  intros done result key value Hover Hown [Hproto Hmember].
  assert (Hget : plain_get result key =
                 match folded_values (values_of key done) with
                 | Some v => v
                 | None => VUndefined
                 end).
  { unfold plain_get. rewrite Hown, Hover.
    destruct (folded_values _); [reflexivity|].
    destruct (String.eqb_spec key "__proto__"); [contradiction|].
    unfold ObjectPrototype_get. now rewrite Hmember. }
  assert (Hkey : String.eqb key "__proto__" = false).
  { now apply String.eqb_neq. }
  assert (Hrest : forall (w : Val) k,
             assoc key (assign key w (po_own result)) = Some w /\
             (k <> key ->
              assoc k (assign key w (po_own result)) =
              folded_values (values_of k (done ++ [(key, value)])))).
  { intros w k. split; [apply assoc_assign_same|].
    intros ne. rewrite assoc_assign_other by congruence.
    rewrite values_of_snoc.
    destruct (String.eqb_spec key k); [congruence | apply Hown]. }
  unfold query_step. rewrite Hget.
  pose proof (values_of_snoc key done key value) as Hsnoc.
  rewrite String.eqb_refl in Hsnoc.
  pose proof (Hown key) as Hk.
  destruct (values_of key done) as [|a [|b values]] eqn:Hvals;
    cbn [folded_values] in *.
  - unfold plain_set_string. rewrite Hkey. cbn [po_over po_own]. split; [exact Hover|].
    intros k. destruct (String.eqb_spec k key) as [->|ne].
    + rewrite Hsnoc. apply assoc_assign_same.
    + now apply Hrest.
  - unfold plain_set_array. rewrite Hkey. cbn [po_over po_own]. split; [exact Hover|].
    intros k. destruct (String.eqb_spec k key) as [->|ne].
    + rewrite Hsnoc. apply assoc_assign_same.
    + now apply Hrest.
  - unfold plain_push. rewrite Hk. cbn [po_over po_own]. split; [exact Hover|].
    intros k. destruct (String.eqb_spec k key) as [->|ne].
    + rewrite Hsnoc, folded_values_snoc. apply assoc_assign_same.
    + now apply Hrest.
Qed.

Lemma fold_query_folds : forall rest done result,
  po_over result = None ->
  (forall k, assoc k (po_own result) = folded_values (values_of k done)) ->
  (forall key, In key (map fst rest) -> plain_key key) ->
  po_over (fold_left query_step rest result) = None /\
  (forall k, assoc k (po_own (fold_left query_step rest result)) =
             folded_values (values_of k (done ++ rest))).
Proof.
  induction rest as [|[key value] rest IH]; intros done result Hover Hown Hkeys.
  - rewrite app_nil_r. now split.
  - cbn [fold_left].
    destruct (query_step_folds done result key value Hover Hown) as [Hover' Hown'].
    { apply Hkeys. now left. }
    destruct (IH (done ++ [(key, value)])%list _ Hover' Hown') as [Ho Hw].
    { intros k Hk. apply Hkeys. now right. }
    split; [exact Ho|]. intros k. rewrite Hw. now rewrite <- app_assoc.
Qed.

(** On a query whose keys meet nothing on the prototype chain of an object
    literal, [convertQueryToObject] gives the plain object that maps each
    key to its folded values. *)
Lemma convertQueryToObject_plain_keys : forall query,
  (forall key, In key (map fst query) -> plain_key key) ->
  exists fields,
    convertQueryToObject query = VObject fields /\
    forall key, assoc key fields = folded_values (values_of key query).
Proof.
  intros query Hkeys.
  destruct (fold_query_folds query [] empty_object) as [Hover Hown];
    [reflexivity | reflexivity | exact Hkeys |].
  exists (po_own (fold_left query_step query empty_object)). split.
  - unfold convertQueryToObject, plain_value. now rewrite Hover.
  - exact Hown.
Qed.

(** C9 (what the code does at the failing input). A query whose only key
    is [toString], once, is not mapped to its string value: the read of
    [result[key]] on the object literal finds [Object.prototype.toString],
    which is neither [undefined] nor an array, and the key is given the
    pair of that function and the value. *)
Theorem convertQueryToObject_inherited_key :
  convertQueryToObject [("toString", "a")] =
    VObject [("toString", VArray [VBuiltin "Object.prototype.toString"; VString "a"])]
  /\ folded_values (values_of "toString" [("toString", "a")]) = Some (VString "a").
Proof. split; reflexivity. Qed.

End QueryAdapter.

(** *** What the guarded view keeps *)

Lemma assoc_in_nodup : forall (A : Type) (l : list (string * A)) key d,
  NoDup (map fst l) -> In (key, d) l -> assoc key l = Some d.
Proof.
  induction l as [|[k w] l IH]; intros key d Hnd Hin; [contradiction|].
  cbn [map fst] in Hnd. inversion Hnd as [|? ? Hk Hnd']; subst.
  cbn [assoc]. destruct Hin as [[= -> ->]|Hin].
  - now rewrite String.eqb_refl.
  - destruct (String.eqb_spec k key) as [->|_]; [|now apply IH].
    elim Hk. change key with (fst (key, d)). now apply in_map.
Qed.

Lemma Set_effect : forall own key v target,
  Set_ (Obj own (Some SAFE_REQUEST_PROTOTYPE)) key v = Return target ->
  exists own',
    target = Obj own' (Some SAFE_REQUEST_PROTOTYPE) /\
    (forall k, k <> key -> assoc k own' = assoc k own) /\
    (assoc key own = None -> assoc key own' = Some (DataProp v true true)).
Proof.
  intros own key v target Hset. unfold Set_ in Hset.
  destruct (assoc key own) as [[w [|] e|g e]|] eqn:Hk; try discriminate.
  - inversion Hset; subst. eexists; split; [reflexivity|]. split.
    + intros k ne. apply assoc_assign_other. congruence.
    + discriminate.
  - destruct (find_prop SAFE_REQUEST_PROTOTYPE key) as [[w [|] e|g e]|];
      try discriminate; inversion Hset; subst;
      (eexists; split; [reflexivity|]; split;
       [ intros k ne; destruct (assoc k own) eqn:Hko;
         [ now apply assoc_app_some
         | rewrite (assoc_app_none _ _ _ _ Hko); cbn [assoc];
           destruct (String.eqb_spec key k); [congruence | reflexivity] ]
       | intros _; rewrite (assoc_app_none _ _ _ _ Hk); cbn [assoc];
         now rewrite String.eqb_refl ]).
Qed.

Lemma assign_props_effect : forall props own safe,
  assign_props (Obj own (Some SAFE_REQUEST_PROTOTYPE)) props = Return safe ->
  exists own',
    safe = Obj own' (Some SAFE_REQUEST_PROTOTYPE) /\
    (forall k, ~ In k (map fst props) -> assoc k own' = assoc k own) /\
    (NoDup (map fst props) ->
     forall k d, In (k, d) props -> prop_enumerable d = true ->
                 assoc k own = None ->
                 exists v, prop_read d = Return v /\
                           assoc k own' = Some (DataProp v true true)).
Proof.
  induction props as [|[key d] props IH]; intros own safe H;
    cbn [assign_props] in H.
  - inversion H; subst. exists own. repeat split; auto. intros _ k d [].
  - cbn [map fst].
    destruct (prop_enumerable d) eqn:He.
    + destruct (prop_read d) as [v|e] eqn:Hr; [|discriminate].
      destruct (Set_ _ key v) as [target|e] eqn:Hset; [|discriminate].
      destruct (Set_effect _ _ _ _ Hset) as (own1 & -> & Hother & Hnew).
      destruct (IH _ _ H) as (own' & -> & Hkeep & Hadd).
      exists own'. split; [reflexivity|]. split.
      * intros k Hk. rewrite Hkeep by (intros Hin; apply Hk; now right).
        apply Hother. intros ->. apply Hk. now left.
      * intros Hnd k d' [[= -> ->]|Hin] Hen Hnone;
          inversion Hnd as [|? ? Hfresh Hnd']; subst.
        -- exists v. split; [exact Hr|]. rewrite (Hkeep _ Hfresh). now apply Hnew.
        -- apply (Hadd Hnd' k d' Hin Hen). rewrite Hother; [exact Hnone|].
           intros ->. apply Hfresh. change key with (fst (key, d')). now apply in_map.
    + destruct (IH _ _ H) as (own' & -> & Hkeep & Hadd).
      exists own'. split; [reflexivity|]. split.
      * intros k Hk. apply Hkeep. intros Hin. apply Hk. now right.
      * intros Hnd k d' [[= -> ->]|Hin] Hen Hnone;
          inversion Hnd as [|? ? Hfresh Hnd']; subst.
        -- congruence.
        -- now apply (Hadd Hnd' k d' Hin Hen).
Qed.

(** The guarded view answers the read of an own enumerable property of the
    request as the request does; what the request inherits, or holds as a
    property that is not enumerable, is not copied. *)
Lemma createSafeRequest_keeps_own : forall request safe key d,
  createSafeRequest request true = Return safe ->
  NoDup (map fst (own_props request)) ->
  In (key, d) (own_props request) ->
  prop_enumerable d = true ->
  Get safe key = Get request key.
Proof.
  intros [own proto] safe key d H Hnd Hin He.
  unfold createSafeRequest, Object_assign, Object_create in H.
  cbn [negb own_props] in *.
  destruct (assign_props_effect _ _ _ H) as (own' & -> & _ & Hadd).
  destruct (Hadd Hnd key d Hin He eq_refl) as (v & Hr & Hv).
  unfold Get. cbn [find_prop]. rewrite Hv, (assoc_in_nodup _ _ _ _ Hnd Hin).
  now rewrite Hr.
Qed.

(** C8 (what the code does at the failing input). On a request built by a
    class, whose [url] and [headers] are getters of its prototype, the
    guarded view is made, and outside the blocked names it does not answer
    as the request does: [url] and [headers] read as [undefined] on the
    view, while [params], an own enumerable property, is kept. *)
Theorem createSafeRequest_drops_inherited :
  exists safe,
    createSafeRequest Samples.json_request true = Return safe /\
    ~ In "url" dangerousMethods /\
    Get Samples.json_request "url" = Return (VString "http://localhost/api/todos/42") /\
    Get safe "url" = Return VUndefined /\
    Get Samples.json_request "headers" =
      Return (VHeaders [("content-type", "application/json; charset=utf-8")]) /\
    Get safe "headers" = Return VUndefined /\
    Get safe "params" = Get Samples.json_request "params".
Proof.
  eexists. split; [reflexivity|].
  split; [|repeat split; reflexivity].
  unfold dangerousMethods; simpl; intuition discriminate.
Qed.

(** ** Examples *)

Import Samples.

(** The query foldings of the specification. *)
Example query_two_values :
  convertQueryToObject [("tag", "a"); ("tag", "b")] =
  VObject [("tag", VArray [VString "a"; VString "b"])].
Proof. reflexivity. Qed.

Example query_one_value :
  convertQueryToObject [("tag", "a")] = VObject [("tag", VString "a")].
Proof. reflexivity. Qed.

(** A query that writes to [__proto__] replaces the prototype of the
    result. *)
Example query_proto_key :
  convertQueryToObject [("__proto__", "a"); ("tag", "b")] =
  VObjectOver [("tag", VString "b")] [VBuiltin "Object.prototype"; VString "a"].
Proof. reflexivity. Qed.

(** A request that is a plain object with its own [json] cannot be guarded:
    the assignment meets the getter of the guard prototype. *)
Example literal_request_cannot_be_guarded :
  createSafeRequest literal_request true =
  Throw (EError "TypeError"
           "Cannot set property json of #<Object> which has only a getter").
Proof. reflexivity. Qed.

(** Scenario B: a valid body reaches the handler as typed. *)
Example dispatch_valid_body :
  wrapTypedHandler body_only echo_handler json_request context0 (fresh "[1,2]") =
  (Return (VObject [("status", VNumber 200);
                    ("jsonBody", VArray [VNumber 1; VNumber 2])]),
   mkState "[1,2]" true [EvParser PBody; EvBodyRead MJson; EvSchema PBody]).
Proof. reflexivity. Qed.

(** A text on which the test of containment fails has [application/json]
    nowhere. *)
Lemma not_contained : forall ct,
  Str.includes "application/json" ct = false ->
  forall pre post, ct <> pre ++ "application/json" ++ post.
Proof.
  intros ct H pre post E.
  assert (C : Str.includes "application/json" ct = true).
  { apply includes_iff. now exists pre, post. }
  rewrite H in C. discriminate C.
Defined.

Lemma parseBody_content_type_not_json_witness :
  Get text_request "headers" = Return (VHeaders [("content-type", "text/plain")]) /\
  parseBody text_request accept_all (fresh "[1,2]") =
    (Throw (EValidation "Content-Type must be application/json" None),
     mkState "[1,2]" false [EvParser PBody]).
Proof.
  split; [reflexivity|].
  apply (@parseBody_content_type_not_json sample_runtime text_request accept_all
           (fresh "[1,2]") [("content-type", "text/plain")]); [reflexivity|].
  intros ct pre post [= <-]. now apply not_contained.
Defined.

(** C5 as stated fails for a content type that does not indicate JSON and
    still holds the text [application/json], as in a parameter: the gate
    lets [text/plain; note=application/json] through and the body is read
    and parsed. *)
Lemma parseBody_reads_body_of_text_plain :
  ~ (forall (rt : Runtime) (request : JsObject) (schema : Schema) (st : State)
            (h : list (string * string)),
        Get request "headers" = Return (VHeaders h) ->
        (forall ct, Headers_get h "content-type" = Some ct ->
                    indicates_json ct = false) ->
        parseBody request schema st =
          (Throw (EValidation "Content-Type must be application/json" None),
           logged (EvParser PBody) st)).
Proof.
  intros claim.
  assert (H : parseBody (class_request "text/plain; note=application/json")
                        accept_all (fresh "[1,2]")
              = (Throw (EValidation "Content-Type must be application/json" None),
                 logged (EvParser PBody) (fresh "[1,2]"))).
  { apply (claim sample_runtime (class_request "text/plain; note=application/json")
                 accept_all (fresh "[1,2]")
                 [("content-type", "text/plain; note=application/json")]);
      [reflexivity|].
    intros ct [= <-]. reflexivity. }
  discriminate H.
Qed.

(** What [parseBody] does there. *)
Example parseBody_of_text_plain_with_note :
  media_type "text/plain; note=application/json" = "text/plain" /\
  parseBody (class_request "text/plain; note=application/json") accept_all
            (fresh "[1,2]") =
    (Return (VArray [VNumber 1; VNumber 2]),
     mkState "[1,2]" true [EvParser PBody; EvBodyRead MJson; EvSchema PBody]).
Proof. split; reflexivity. Qed.

Lemma parseBody_invalid_json_witness :
  Get json_request "headers" =
    Return (VHeaders [("content-type", "application/json; charset=utf-8")]) /\
  Get json_request "json" = Return (VBodyReader MJson) /\
  JSON_parse "{oops" = None /\
  parseBody json_request accept_all (fresh "{oops") =
    (Throw (EValidation "Invalid JSON body" None),
     mkState "{oops" true [EvParser PBody; EvBodyRead MJson]) /\
  JSON_parse "" = None /\
  parseBody json_request accept_all (fresh "") =
    (Throw (EValidation "Invalid JSON body" None),
     mkState "" false [EvParser PBody; EvBodyRead MJson]).
Proof.
  split; [reflexivity|]. split; [reflexivity|]. split; [reflexivity|].
  split; [|split; [reflexivity|]].
  - destruct (@parseBody_invalid_json sample_runtime json_request accept_all
                (fresh "{oops") [("content-type", "application/json; charset=utf-8")]
                eq_refl eq_refl) as [Hbad _].
    exact (proj1 (Hbad "application/json; charset=utf-8" "" "; charset=utf-8"
                       eq_refl eq_refl eq_refl)).
  - destruct (@parseBody_invalid_json sample_runtime json_request accept_all
                (fresh "") [("content-type", "application/json; charset=utf-8")]
                eq_refl eq_refl) as [Hbad _].
    exact (proj1 (Hbad "application/json; charset=utf-8" "" "; charset=utf-8"
                       eq_refl eq_refl eq_refl)).
Defined.

(** C6 as stated fails for the JSON content types whose value does not
    hold the text [application/json], such as [application/vnd.api+json]:
    with a body that is not valid JSON the error is the one of the content
    type, and the body is not read. *)
Lemma parseBody_refuses_json_media_type :
  ~ (forall (rt : Runtime) (request : JsObject) (schema : Schema) (st : State)
            (h : list (string * string)) (ct : string),
        Get request "headers" = Return (VHeaders h) ->
        Get request "json" = Return (VBodyReader MJson) ->
        Headers_get h "content-type" = Some ct ->
        indicates_json ct = true ->
        JSON_parse (st_body st) = None ->
        exists st',
          parseBody request schema st =
            (Throw (EValidation "Invalid JSON body" None), st')).
Proof.
  intros claim.
  destruct (claim sample_runtime (class_request "application/vnd.api+json")
                  accept_all (fresh "{oops")
                  [("content-type", "application/vnd.api+json")]
                  "application/vnd.api+json"
                  eq_refl eq_refl eq_refl eq_refl eq_refl) as [st' H].
  discriminate H.
Qed.

(** What [parseBody] does there, and on [Application/JSON]. *)
Example parseBody_of_json_media_types :
  indicates_json "Application/JSON" = true /\
  parseBody (class_request "application/vnd.api+json") accept_all (fresh "{oops") =
    (Throw (EValidation "Content-Type must be application/json" None),
     mkState "{oops" false [EvParser PBody]) /\
  parseBody (class_request "Application/JSON") accept_all (fresh "{oops") =
    (Throw (EValidation "Content-Type must be application/json" None),
     mkState "{oops" false [EvParser PBody]).
Proof. repeat split. Qed.

Lemma parseBody_gate_is_containment_witness :
  Get json_request "headers" =
    Return (VHeaders [("content-type", "application/json; charset=utf-8")]) /\
  "application/json; charset=utf-8" = "" ++ "application/json" ++ "; charset=utf-8" /\
  parseBody json_request accept_all (fresh "[1,2]") =
    (Return (VArray [VNumber 1; VNumber 2]),
     mkState "[1,2]" true [EvParser PBody; EvBodyRead MJson; EvSchema PBody]) /\
  Get bare_request "headers" = Return (VHeaders []) /\
  parseBody bare_request accept_all (fresh "[1,2]") =
    (Throw (EValidation "Content-Type must be application/json" None),
     mkState "[1,2]" false [EvParser PBody]) /\
  Get text_request "headers" = Return (VHeaders [("content-type", "text/plain")]) /\
  parseBody text_request accept_all (fresh "[1,2]") =
    (Throw (EValidation "Content-Type must be application/json" None),
     mkState "[1,2]" false [EvParser PBody]) /\
  parseBody (class_request "text/plain; note=application/json") accept_all
            (fresh "[1,2]") =
    (Return (VArray [VNumber 1; VNumber 2]),
     mkState "[1,2]" true [EvParser PBody; EvBodyRead MJson; EvSchema PBody]).
Proof.
  split; [reflexivity|]. split; [reflexivity|]. split; [|split; [reflexivity|]].
  - destruct (@parseBody_gate_is_containment sample_runtime json_request accept_all
                (fresh "[1,2]") [("content-type", "application/json; charset=utf-8")]
                eq_refl) as [Hpass _].
    destruct (Hpass "application/json; charset=utf-8" "" "; charset=utf-8"
                    eq_refl eq_refl) as [_ Hread].
    rewrite (Hread (VArray [VNumber 1; VNumber 2]) eq_refl eq_refl eq_refl).
    reflexivity.
  - split; [|split; [reflexivity|split]].
    + destruct (@parseBody_gate_is_containment sample_runtime bare_request accept_all
                  (fresh "[1,2]") [] eq_refl) as (_ & Hnone & _).
      exact (Hnone eq_refl).
    + destruct (@parseBody_gate_is_containment sample_runtime text_request accept_all
                  (fresh "[1,2]") [("content-type", "text/plain")] eq_refl)
        as (_ & _ & Hother).
      exact (Hother "text/plain" eq_refl (not_contained "text/plain" eq_refl)).
    + destruct (@parseBody_gate_is_containment sample_runtime
                  (class_request "text/plain; note=application/json") accept_all
                  (fresh "[1,2]")
                  [("content-type", "text/plain; note=application/json")]
                  eq_refl) as [Hpass _].
      destruct (Hpass "text/plain; note=application/json" "text/plain; note=" ""
                      eq_refl eq_refl) as [_ Hread].
      rewrite (Hread (VArray [VNumber 1; VNumber 2]) eq_refl eq_refl eq_refl).
      reflexivity.
Defined.

Lemma parseRequest_passes_through_witness :
  parseRequest json_request no_schemas (fresh "[1,2]") =
    (Return unvalidated, fresh "[1,2]") /\
  Get json_request "params" = Return (p_params unvalidated) /\
  Get json_request "query" = Return (p_query unvalidated) /\
  Get json_request "headers" = Return (p_headers unvalidated) /\
  p_body unvalidated = VUndefined /\
  st_bodyUsed (fresh "[1,2]") = false.
Proof.
  split; [reflexivity|].
  destruct (@parseRequest_passes_through sample_runtime json_request no_schemas
              (fresh "[1,2]") unvalidated (fresh "[1,2]") eq_refl)
    as [Hparts Hbody].
  split; [apply (Hparts PParams); [discriminate | reflexivity]|].
  split; [apply (Hparts PQuery); [discriminate | reflexivity]|].
  split; [apply (Hparts PHeaders); [discriminate | reflexivity]|].
  destruct (Hbody eq_refl) as (Hundefined & _ & Hused).
  split; [exact Hundefined | exact Hused].
Defined.

(** C1 as stated fails for the body: without any schema, the [body] field
    of the result is [undefined] while the request has its body stream. *)
Lemma parseRequest_body_not_passed_through :
  ~ (forall (rt : Runtime) (request : JsObject) (schemas : RequestSchemas)
            (st : State) (parsed : ParsedRequest) (st' : State),
        parseRequest request schemas st = (Return parsed, st') ->
        forall part,
          schema_of part schemas = None ->
          Get request (part_property part) = Return (parsed_field part parsed)).
Proof.
  intros claim.
  assert (H : Get json_request (part_property PBody)
              = Return (parsed_field PBody unvalidated)).
  { apply (claim sample_runtime json_request no_schemas (fresh "[1,2]")
                 unvalidated (fresh "[1,2]")); reflexivity. }
  discriminate H.
Qed.

Lemma parseRequest_fail_fast_witness :
  parse_part PParams json_request query_and_body_reject (fresh "[1,2]") =
    (Return (VParams [("id", "42")]), fresh "[1,2]") /\
  reject_all "bad tag" (convertQueryToObject [("tag", "a"); ("tag", "b")]) =
    Throw (EZod {| issues := [issue "bad tag"] |}) /\
  parseRequest json_request query_and_body_reject (fresh "[1,2]") =
    (Throw (EValidation "Query parameters validation failed"
                        (Some {| issues := [issue "bad tag"] |})),
     mkState "[1,2]" false [EvParser PQuery; EvSchema PQuery]).
Proof.
  split; [reflexivity|]. split; [reflexivity|].
  destruct (@parseRequest_fail_fast sample_runtime json_request
              query_and_body_reject (fresh "[1,2]")) as [_ Hquery].
  exact (proj1 (Hquery (VParams [("id", "42")]) (fresh "[1,2]")
                       (reject_all "bad tag") [("tag", "a"); ("tag", "b")]
                       {| issues := [issue "bad tag"] |}
                       eq_refl eq_refl eq_refl eq_refl)).
Defined.



Lemma wrapTypedHandler_validation_response_witness :
  parse_parts (parts_before PBody) json_request
              (mkSchemas None None (Some (reject_all "bad title")) None)
              (fresh "[1,2]") = (Return tt, fresh "[1,2]") /\
  wrapTypedHandler (mkSchemas None None (Some (reject_all "bad title")) None)
                   echo_handler json_request context0 (fresh "[1,2]") =
    (Return (VObject
               [ ("status", VNumber 400);
                 ("jsonBody",
                  VObject [ ("error", VString "Request body validation failed");
                            ("details", VArray [issue "bad title"]) ]) ]),
     mkState "[1,2]" true [EvParser PBody; EvBodyRead MJson; EvSchema PBody]) /\
  wrapTypedHandler body_only echo_handler text_request context0 (fresh "[1,2]") =
    (Return (VObject
               [ ("status", VNumber 400);
                 ("jsonBody",
                  VObject [ ("error", VString "Content-Type must be application/json");
                            ("details", VArray []) ]) ]),
     mkState "[1,2]" false [EvParser PBody]).
Proof.
  split; [reflexivity|]. split.
  - destruct (@wrapTypedHandler_validation_response sample_runtime
                (mkSchemas None None (Some (reject_all "bad title")) None)
                echo_handler json_request context0 (fresh "[1,2]")) as [Hreject _].
    apply (Hreject PBody (fresh "[1,2]") (reject_all "bad title")
                   (VArray [VNumber 1; VNumber 2])
                   (mkState "[1,2]" true [EvParser PBody; EvBodyRead MJson; EvSchema PBody])
                   {| issues := [issue "bad title"] |});
      try reflexivity.
    exact (@input_body sample_runtime json_request (fresh "[1,2]")
             [("content-type", "application/json; charset=utf-8")]
             (VArray [VNumber 1; VNumber 2])
             (mkState "[1,2]" true [EvParser PBody; EvBodyRead MJson])
             eq_refl eq_refl eq_refl).
  - destruct (@wrapTypedHandler_validation_response sample_runtime body_only
                echo_handler text_request context0 (fresh "[1,2]")) as [_ Hplain].
    exact (Hplain "Content-Type must be application/json"
                  (mkState "[1,2]" false [EvParser PBody]) eq_refl).
Defined.

Lemma wrapTypedHandler_guards_request_witness :
  createSafeRequest json_request true = Return guarded_json_request /\
  map (Get guarded_json_request) ["json"; "text"; "formData"; "arrayBuffer"; "blob"] =
    map (fun m => Throw (EError "Error" (guard_message m)))
        ["json"; "text"; "formData"; "arrayBuffer"; "blob"] /\
  (forall m, In m ["json"; "text"; "formData"; "arrayBuffer"; "blob"] ->
             exists message,
               Get guarded_json_request m = Throw (EError "Error" message) /\
               Str.includes "already been parsed" message = true) /\
  wrapTypedHandler no_schemas echo_handler json_request context0 (fresh "[1,2]") =
    try_catch (echo_handler (mkArgs (p_params unvalidated) (p_query unvalidated)
                                    (p_body unvalidated) (p_headers unvalidated)
                                    json_request context0))
              handle_error (fresh "[1,2]").
Proof.
  split; [reflexivity|]. split; [reflexivity|]. split.
  - destruct (@wrapTypedHandler_guards_request sample_runtime body_only echo_handler
                json_request context0 (fresh "[1,2]") _ _ eq_refl) as [Hguard _].
    exact (proj2 (Hguard accept_all guarded_json_request eq_refl eq_refl)).
  - destruct (@wrapTypedHandler_guards_request sample_runtime no_schemas echo_handler
                json_request context0 (fresh "[1,2]") unvalidated (fresh "[1,2]")
                eq_refl) as [_ Hplain].
    exact (proj1 (Hplain eq_refl)).
Defined.

(** ** Routes *)

Lemma append_empty_r : forall s : string, s ++ "" = s.
Proof. induction s as [|c s IH]; cbn [append]; [reflexivity | now rewrite IH]. Qed.

Lemma append_assoc : forall a b c : string, (a ++ b) ++ c = a ++ b ++ c.
Proof. induction a as [|x a IH]; intros b c; cbn [append]; [reflexivity | now rewrite IH]. Qed.

Lemma is_slash_true : forall c, Text.is_slash c = true -> c = "/"%char.
Proof. intros c H. now apply Ascii.eqb_eq. Qed.

Lemma split_nonempty : forall sep s, exists piece pieces,
  Text.split sep s = piece :: pieces.
Proof.
  intros sep s. destruct s as [|c rest]; cbn [Text.split]; [eauto|].
  destruct (Ascii.eqb c sep); [eauto|].
  destruct (Text.split sep rest); eauto.
Qed.

(** Splitting goes through a separator. *)
Lemma split_app : forall sep a b,
  Text.split sep (a ++ String sep b) = (Text.split sep a ++ Text.split sep b)%list.
Proof.
  intros sep a b. induction a as [|c a IH]; cbn [append Text.split].
  - now rewrite Ascii.eqb_refl.
  - destruct (Ascii.eqb c sep); [now rewrite IH|].
    rewrite IH. destruct (split_nonempty sep a) as (p & ps & ->). reflexivity.
Qed.

(** Joining the pieces of a split gives the string back. *)
Lemma join_split : forall s, Str.join "/" (Text.split "/" s) = s.
Proof.
  induction s as [|c rest IH]; [reflexivity|]. cbn [Text.split].
  destruct (split_nonempty "/" rest) as (p & ps & E). rewrite E in *.
  destruct (Ascii.eqb_spec c "/") as [->|_].
  - change (Str.join "/" ("" :: p :: ps))
      with ("" ++ "/" ++ Str.join "/" (p :: ps)).
    now rewrite IH.
  - destruct ps as [|q qs].
    + cbn [Str.join] in *. now rewrite IH.
    + change (Str.join "/" (String c p :: q :: qs))
        with (String c (p ++ "/" ++ Str.join "/" (q :: qs))).
      change (Str.join "/" (p :: q :: qs))
        with (p ++ "/" ++ Str.join "/" (q :: qs)) in IH.
      now rewrite IH.
Qed.

Lemma segments_cons : forall c rest,
  segments (String c rest) =
  if Text.is_slash c then segments rest
  else String c (hd "" (Text.split "/" rest))
       :: filter Text.nonempty (tl (Text.split "/" rest)).
Proof.
  intros c rest. unfold segments, Text.is_slash. cbn [Text.split].
  destruct (Ascii.eqb c "/"); [reflexivity|].
  destruct (split_nonempty "/" rest) as (p & ps & ->). reflexivity.
Qed.

Lemma segments_app : forall a b,
  segments (a ++ String "/" b) = (segments a ++ segments b)%list.
Proof. intros a b. unfold segments. now rewrite split_app, filter_app. Qed.

Lemma segments_strip_leading : forall s,
  segments (Text.strip_leading_slashes s) = segments s.
Proof.
  induction s as [|c rest IH]; [reflexivity|].
  cbn [Text.strip_leading_slashes].
  destruct (Text.is_slash c) eqn:C; [|reflexivity].
  rewrite (segments_cons c rest), C. exact IH.
Qed.

(** A string is what is left of it without its trailing slashes, followed
    by slashes. *)
Lemma strip_trailing_decompose : forall s, exists slashes,
  s = Text.strip_trailing_slashes s ++ slashes /\ segments slashes = [].
Proof.
  induction s as [|c rest IH]; [now exists ""|].
  destruct IH as (slashes & E & Hs). cbn [Text.strip_trailing_slashes].
  destruct (Text.strip_trailing_slashes rest) as [|d kept] eqn:K.
  - cbn [append] in E. subst rest.
    destruct (Text.is_slash c) eqn:C.
    + exists (String c slashes). split; [reflexivity|].
      rewrite segments_cons, C. exact Hs.
    + exists slashes. now split.
  - exists slashes. split; [|exact Hs]. cbn [append] in *. now rewrite <- E.
Qed.

Lemma segments_append_slashes : forall s slashes,
  segments slashes = [] -> segments (s ++ slashes) = segments s.
Proof.
  intros s slashes Hs. destruct slashes as [|c rest].
  - now rewrite append_empty_r.
  - rewrite segments_cons in Hs. destruct (Text.is_slash c) eqn:C; [|discriminate].
    apply is_slash_true in C. subst c.
    rewrite segments_app, Hs. apply app_nil_r.
Qed.

Lemma segments_strip_trailing : forall s,
  segments (Text.strip_trailing_slashes s) = segments s.
Proof.
  intros s. destruct (strip_trailing_decompose s) as (slashes & E & Hs).
  rewrite E at 2. symmetry. now apply segments_append_slashes.
Qed.

Lemma split_sep_cons : forall sep rest,
  Text.split sep (String sep rest) = "" :: Text.split sep rest.
Proof. intros sep rest. cbn [Text.split]. now rewrite Ascii.eqb_refl. Qed.

Lemma split_other_cons : forall sep c rest,
  Ascii.eqb c sep = false ->
  Text.split sep (String c rest) =
  String c (hd "" (Text.split sep rest)) :: tl (Text.split sep rest).
Proof.
  intros sep c rest H. cbn [Text.split]. rewrite H.
  destruct (split_nonempty sep rest) as (p & ps & ->). reflexivity.
Qed.

Lemma collapse_cons : forall c d rest,
  Text.collapse_slashes (String c (String d rest)) =
  if Text.is_slash c && Text.is_slash d then Text.collapse_slashes (String d rest)
  else String c (Text.collapse_slashes (String d rest)).
Proof. reflexivity. Qed.

(** Collapsing keeps the first piece and the non-empty pieces after it. *)
Lemma collapse_pieces : forall s,
  hd "" (Text.split "/" (Text.collapse_slashes s)) = hd "" (Text.split "/" s) /\
  filter Text.nonempty (tl (Text.split "/" (Text.collapse_slashes s))) =
  filter Text.nonempty (tl (Text.split "/" s)).
Proof.
  induction s as [|c rest IH]; [now split|].
  destruct rest as [|d rest']; [now split|].
  rewrite collapse_cons. destruct IH as [IHh IHt].
  remember (String d rest') as rest eqn:R.
  destruct (Text.is_slash c) eqn:C; cbn [andb].
  - apply is_slash_true in C. subst c.
    rewrite (split_sep_cons "/" rest). cbn [hd tl].
    destruct (Text.is_slash d) eqn:D.
    + apply is_slash_true in D. subst d.
      assert (Hrest : Text.split "/" rest = "" :: Text.split "/" rest').
      { subst rest. apply split_sep_cons. }
      rewrite Hrest in *. cbn [hd tl filter Text.nonempty] in *.
      split; [exact IHh|].
      destruct (split_nonempty "/" (Text.collapse_slashes rest)) as (p & ps & E).
      rewrite E in *. cbn [hd tl] in *. subst p.
      cbn [filter Text.nonempty]. exact IHt.
    + rewrite (split_sep_cons "/" (Text.collapse_slashes rest)). cbn [hd tl].
      split; [reflexivity|].
      destruct (split_nonempty "/" (Text.collapse_slashes rest)) as (p & ps & E).
      destruct (split_nonempty "/" rest) as (q & qs & F).
      rewrite E, F in *. cbn [hd tl filter] in *. now rewrite IHh, IHt.
  - unfold Text.is_slash in C.
    rewrite (split_other_cons "/" c _ C), (split_other_cons "/" c _ C).
    cbn [hd tl]. now rewrite IHh, IHt.
Qed.

Lemma segments_collapse : forall s,
  segments (Text.collapse_slashes s) = segments s.
Proof.
  intros s. destruct (collapse_pieces s) as [Hh Ht]. unfold segments.
  destruct (split_nonempty "/" (Text.collapse_slashes s)) as (p & ps & E).
  destruct (split_nonempty "/" s) as (q & qs & F).
  rewrite E, F in *. cbn [hd tl filter] in *. now rewrite Hh, Ht.
Qed.

Lemma collapse_first : forall s,
  first_char (Text.collapse_slashes s) = first_char s.
Proof.
  induction s as [|c rest IH]; [reflexivity|].
  destruct rest as [|d rest']; [reflexivity|]. rewrite collapse_cons.
  destruct (Text.is_slash c) eqn:C, (Text.is_slash d) eqn:D; cbn [andb];
    try reflexivity.
  apply is_slash_true in C, D. subst. exact IH.
Qed.

Lemma collapse_last : forall s,
  last_char (Text.collapse_slashes s) = last_char s.
Proof.
  induction s as [|c rest IH]; [reflexivity|].
  destruct rest as [|d rest']; [reflexivity|]. rewrite collapse_cons.
  assert (Hne : exists x xs, Text.collapse_slashes (String d rest') = String x xs).
  { pose proof (collapse_first (String d rest')) as F.
    destruct (Text.collapse_slashes (String d rest')); [discriminate | eauto]. }
  destruct Hne as (x & xs & E).
  destruct (Text.is_slash c && Text.is_slash d); [exact IH|].
  rewrite E in *. exact IH.
Qed.

Lemma collapse_no_double : forall s pre post,
  Text.collapse_slashes s <> pre ++ "//" ++ post.
Proof.
  induction s as [|c rest IH]; intros pre post.
  - destruct pre; discriminate.
  - destruct rest as [|d rest'].
    + destruct pre as [|a [|b pre']]; discriminate.
    + rewrite collapse_cons.
      destruct (Text.is_slash c && Text.is_slash d) eqn:B; [apply IH|].
      pose proof (collapse_first (String d rest')) as F.
      remember (Text.collapse_slashes (String d rest')) as X eqn:HX.
      destruct pre as [|a pre']; cbn [append].
      * intros E. injection E as -> E. rewrite E in F.
        cbn [first_char] in F. injection F as <-. discriminate B.
      * intros E. injection E as _ E. exact (IH _ _ E).
Qed.

Lemma strip_leading_first : forall s,
  first_char (Text.strip_leading_slashes s) <> Some "/"%char.
Proof.
  induction s as [|c rest IH]; [discriminate|]. cbn [Text.strip_leading_slashes].
  destruct (Text.is_slash c) eqn:C; [exact IH|].
  cbn [first_char]. intros [= ->]. discriminate C.
Qed.

Lemma strip_trailing_first : forall s,
  Text.strip_trailing_slashes s = "" \/
  first_char (Text.strip_trailing_slashes s) = first_char s.
Proof.
  intros [|c rest]; [now left|]. cbn [Text.strip_trailing_slashes].
  destruct (Text.strip_trailing_slashes rest); [|now right].
  destruct (Text.is_slash c); [now left | now right].
Qed.

Lemma strip_trailing_last : forall s,
  last_char (Text.strip_trailing_slashes s) <> Some "/"%char.
Proof.
  induction s as [|c rest IH]; [discriminate|]. cbn [Text.strip_trailing_slashes].
  destruct (Text.strip_trailing_slashes rest) as [|d kept].
  - destruct (Text.is_slash c) eqn:C; [discriminate|].
    cbn [last_char]. intros [= ->]. discriminate C.
  - exact IH.
Qed.

Lemma normalizeAzureFunctionRoute_unfold : forall route,
  normalizeAzureFunctionRoute route =
  Text.collapse_slashes
    (Text.strip_trailing_slashes (Text.strip_leading_slashes route)).
Proof.
  intros route. unfold normalizeAzureFunctionRoute.
  now destruct (Text.collapse_slashes _).
Qed.

(** The route registered with Azure Functions does not start with a slash,
    does not end with one and holds no two slashes in a row. *)
Theorem normalizeAzureFunctionRoute_shape : forall route,
  first_char (normalizeAzureFunctionRoute route) <> Some "/"%char /\
  last_char (normalizeAzureFunctionRoute route) <> Some "/"%char /\
  forall pre post, normalizeAzureFunctionRoute route <> pre ++ "//" ++ post.
Proof.
  intros route. rewrite normalizeAzureFunctionRoute_unfold.
  split; [|split].
  - rewrite collapse_first.
    destruct (strip_trailing_first (Text.strip_leading_slashes route)) as [E|E];
      rewrite E; [discriminate | apply strip_leading_first].
  - rewrite collapse_last. apply strip_trailing_last.
  - apply collapse_no_double.
Qed.

(** In a non-empty string that neither starts nor ends with a slash and
    holds no two slashes in a row, no piece between slashes is empty. *)
Lemma clean_pieces : forall s,
  s <> "" ->
  last_char s <> Some "/"%char ->
  (forall pre post, s <> pre ++ "//" ++ post) ->
  (first_char s <> Some "/"%char ->
   Text.nonempty (hd "" (Text.split "/" s)) = true) /\
  filter Text.nonempty (tl (Text.split "/" s)) = tl (Text.split "/" s).
Proof.
  induction s as [|c rest IH]; intros Hne Hlast Hdouble; [contradiction|].
  assert (Hrest : rest <> "" ->
                  last_char rest <> Some "/"%char /\
                  (forall pre post, rest <> pre ++ "//" ++ post)).
  { intros Hr. split.
    - destruct rest; [contradiction | exact Hlast].
    - intros pre post E. apply (Hdouble (String c pre) post). cbn [append].
      now rewrite E. }
  destruct (Ascii.eqb c "/") eqn:C.
  - apply Ascii.eqb_eq in C. subst c. rewrite split_sep_cons. cbn [hd tl].
    split; [intros F; now elim F|].
    assert (Hr : rest <> "") by (intros ->; now apply Hlast).
    destruct (Hrest Hr) as [Hl Hd]. destruct (IH Hr Hl Hd) as [Hhd Htl].
    destruct (split_nonempty "/" rest) as (p & ps & E).
    rewrite E in *. cbn [hd tl filter] in *.
    rewrite Hhd, Htl; [reflexivity|].
    intros F. destruct rest as [|d rest']; [contradiction|].
    cbn [first_char] in F. injection F as ->.
    now apply (Hdouble "" rest').
  - rewrite (split_other_cons "/" c rest C). cbn [hd tl Text.nonempty].
    split; [reflexivity|].
    destruct rest as [|d rest']; [reflexivity|].
    assert (Hr : String d rest' <> "") by discriminate.
    destruct (Hrest Hr) as [Hl Hd]. exact (proj2 (IH Hr Hl Hd)).
Qed.

(** The route registered with Azure Functions is the non-empty segments of
    the route as given, joined by single slashes; normalizing twice changes
    nothing more. *)
Theorem normalizeAzureFunctionRoute_segments : forall route,
  normalizeAzureFunctionRoute route = Str.join "/" (segments route) /\
  normalizeAzureFunctionRoute (normalizeAzureFunctionRoute route) =
    normalizeAzureFunctionRoute route.
Proof.
  assert (Hjoin : forall route,
             normalizeAzureFunctionRoute route = Str.join "/" (segments route)).
  { intros route.
    assert (Hseg : segments (normalizeAzureFunctionRoute route) = segments route).
    { rewrite normalizeAzureFunctionRoute_unfold.
      now rewrite segments_collapse, segments_strip_trailing,
                  segments_strip_leading. }
    assert (Hshape :
              first_char (normalizeAzureFunctionRoute route) <> Some "/"%char /\
              last_char (normalizeAzureFunctionRoute route) <> Some "/"%char /\
              forall pre post, normalizeAzureFunctionRoute route <> pre ++ "//" ++ post).
    { rewrite normalizeAzureFunctionRoute_unfold. split; [|split].
      - rewrite collapse_first.
        destruct (strip_trailing_first (Text.strip_leading_slashes route)) as [E|E];
          rewrite E; [discriminate | apply strip_leading_first].
      - rewrite collapse_last. apply strip_trailing_last.
      - apply collapse_no_double. }
    destruct Hshape as (Hf & Hl & Hd).
    rewrite <- Hseg.
    destruct (normalizeAzureFunctionRoute route) as [|c r] eqn:E; [reflexivity|].
    rewrite <- E in *.
    assert (Hne : normalizeAzureFunctionRoute route <> "") by (rewrite E; discriminate).
    destruct (clean_pieces _ Hne Hl Hd) as [Hhd Htl].
    unfold segments.
    destruct (split_nonempty "/" (normalizeAzureFunctionRoute route)) as (p & ps & S).
    pose proof (join_split (normalizeAzureFunctionRoute route)) as J.
    rewrite S in *. cbn [hd tl filter] in *.
    now rewrite (Hhd Hf), Htl. }
  intros route. split; [apply Hjoin|].
  rewrite (Hjoin (normalizeAzureFunctionRoute route)), (Hjoin route).
  f_equal. rewrite <- (Hjoin route), normalizeAzureFunctionRoute_unfold.
  now rewrite segments_collapse, segments_strip_trailing, segments_strip_leading.
Qed.

(** The path documented in OpenAPI starts with one slash and holds no two
    slashes in a row, whatever the prefix and the route. *)
Theorem normalizeOpenAPIPath_shape : forall routePrefix route,
  first_char (normalizeOpenAPIPath routePrefix route) = Some "/"%char /\
  forall pre post, normalizeOpenAPIPath routePrefix route <> pre ++ "//" ++ post.
Proof.
  intros routePrefix route. unfold normalizeOpenAPIPath. split.
  - rewrite collapse_first. now destruct routePrefix as [[|c p]|].
  - apply collapse_no_double.
Qed.

(** The path documented in OpenAPI holds the segments of the prefix and
    then those of the route registered with Azure Functions: the two
    registrations of a function agree on its segments. *)
Theorem normalizeOpenAPIPath_segments : forall routePrefix route,
  segments (normalizeOpenAPIPath routePrefix route) =
  (segments (match routePrefix with Some p => p | None => "" end)
   ++ segments (normalizeAzureFunctionRoute route))%list.
Proof.
  intros routePrefix route.
  assert (Hroute : segments (normalizeAzureFunctionRoute route) = segments route).
  { rewrite normalizeAzureFunctionRoute_unfold.
    now rewrite segments_collapse, segments_strip_trailing, segments_strip_leading. }
  rewrite Hroute. unfold normalizeOpenAPIPath. rewrite segments_collapse.
  destruct routePrefix as [[|c p]|].
  - change ("/" ++ route) with (String "/" route).
    now rewrite segments_cons.
  - change ("/" ++ String c p ++ "/" ++ route)
      with (String "/" (String c p ++ String "/" route)).
    rewrite segments_cons. cbn [Text.is_slash Ascii.eqb Bool.eqb].
    apply segments_app.
  - change ("/" ++ route) with (String "/" route).
    now rewrite segments_cons.
Qed.

(** ** Scheme names *)

(** Case analysis on the eight bits of a character. *)
Ltac by_bits c :=
  destruct c as [[|] [|] [|] [|] [|] [|] [|] [|]];
  try reflexivity; try discriminate.

Lemma alnum_not_underscore : forall c,
  Text.is_alnum c = true -> Ascii.eqb c "_" = false.
Proof. intros c. by_bits c. Qed.

Lemma upper_alnum : forall c,
  Text.is_alnum c = true -> Text.is_alnum (Text.upper_ascii c) = true.
Proof. intros c. by_bits c. Qed.

Lemma lower_alnum : forall c,
  Text.is_alnum c = true -> Text.is_alnum (Str.lower_ascii c) = true.
Proof. intros c. by_bits c. Qed.

Lemma upper_starts_name : forall c,
  Text.is_alnum c = true ->
  Text.is_digit (Text.upper_ascii c) = false ->
  Text.is_upper (Text.upper_ascii c) = true.
Proof. intros c. by_bits c. Qed.

Lemma lower_replace : forall c,
  (if Text.is_alnum (Str.lower_ascii c) then Str.lower_ascii c else "_"%char) =
  Str.lower_ascii (if Text.is_alnum c then c else "_"%char).
Proof. intros c. by_bits c. Qed.

Lemma lower_underscore : forall c,
  Ascii.eqb (Str.lower_ascii c) "_" = Ascii.eqb c "_".
Proof. intros c. by_bits c. Qed.

Lemma upper_lower : forall c,
  Text.upper_ascii (Str.lower_ascii c) = Text.upper_ascii c.
Proof. intros c. by_bits c. Qed.

Lemma lower_lower : forall c,
  Str.lower_ascii (Str.lower_ascii c) = Str.lower_ascii c.
Proof. intros c. by_bits c. Qed.

Lemma all_chars_app : forall test a b,
  all_chars test (a ++ b) = all_chars test a && all_chars test b.
Proof.
  intros test a b. induction a as [|c a IH]; cbn [append all_chars]; [reflexivity|].
  now rewrite IH, andb_assoc.
Qed.

(** The pieces between the underscores of the replaced name are
    alphanumeric. *)
Lemma replaced_pieces_alnum : forall s,
  Forall (fun piece => all_chars Text.is_alnum piece = true)
         (Text.split "_" (Text.replace_special s)).
Proof.
  induction s as [|c rest IH]; [now repeat constructor|].
  cbn [Text.replace_special].
  destruct (Text.is_alnum c) eqn:A.
  - rewrite (split_other_cons "_" c _ (alnum_not_underscore c A)).
    destruct (split_nonempty "_" (Text.replace_special rest)) as (p & ps & E).
    rewrite E in *. cbn [hd tl]. inversion IH as [|? ? Hp Hps]; subst.
    constructor; [|exact Hps]. cbn [all_chars]. now rewrite A, Hp.
  - rewrite split_sep_cons. now constructor.
Qed.

Lemma pascal_part_alnum : forall part,
  all_chars Text.is_alnum part = true ->
  all_chars Text.is_alnum (pascal_part part) = true.
Proof.
  intros [|c rest] H; [reflexivity|]. cbn [pascal_part all_chars] in *.
  apply andb_true_iff in H. destruct H as [Hc Hrest].
  rewrite (upper_alnum c Hc). cbn [andb].
  induction rest as [|d rest IH]; [reflexivity|].
  cbn [Str.toLowerCase all_chars] in *.
  apply andb_true_iff in Hrest. destruct Hrest as [Hd Hrest].
  now rewrite (lower_alnum d Hd), (IH Hrest).
Qed.

Lemma concat_parts_alnum : forall parts,
  Forall (fun piece => all_chars Text.is_alnum piece = true) parts ->
  all_chars Text.is_alnum
            (Text.concat_all (map pascal_part (filter Text.nonempty parts))) = true.
Proof.
  induction 1 as [|p ps Hp Hps IH]; [reflexivity|]. cbn [filter].
  destruct (Text.nonempty p); [|exact IH].
  cbn [map Text.concat_all fold_right]. rewrite all_chars_app.
  rewrite (pascal_part_alnum p Hp). exact IH.
Qed.

(** The first character of the PascalCase name comes from an alphanumeric
    character, upper-cased. *)
Lemma concat_parts_first : forall parts c rest,
  Forall (fun piece => all_chars Text.is_alnum piece = true) parts ->
  Text.concat_all (map pascal_part (filter Text.nonempty parts)) = String c rest ->
  exists c0, Text.is_alnum c0 = true /\ c = Text.upper_ascii c0.
Proof.
  induction 1 as [|p ps Hp Hps IH]; intros E; [discriminate|].
  cbn [filter] in E. destruct p as [|c0 p']; cbn [Text.nonempty] in E; [now apply IH|].
  cbn [map Text.concat_all fold_right pascal_part append] in E.
  injection E as <- _. exists c0. split; [|reflexivity].
  cbn [all_chars] in Hp. now apply andb_true_iff in Hp.
Qed.

(** The scheme name made of a parameter name is never empty, is made of
    ASCII letters and digits only, and starts with an upper-case letter. *)
Theorem sanitizeSchemeNameFromParameter_shape : forall paramName,
  all_chars Text.is_alnum (sanitizeSchemeNameFromParameter paramName) = true /\
  exists c rest,
    sanitizeSchemeNameFromParameter paramName = String c rest /\
    Text.is_upper c = true.
Proof.
  intros paramName. unfold sanitizeSchemeNameFromParameter.
  pose proof (replaced_pieces_alnum paramName) as Hpieces.
  pose proof (concat_parts_alnum _ Hpieces) as Halnum.
  pose proof (fun c rest => concat_parts_first _ c rest Hpieces) as Hfirst.
  destruct (Text.concat_all _) as [|c rest] eqn:E.
  - split; [reflexivity|]. now exists "A"%char, "piKey".
  - destruct (Hfirst c rest eq_refl) as (c0 & Hc0 & ->).
    destruct (Text.is_digit (Text.upper_ascii c0)) eqn:D.
    + split.
      * change ("Key" ++ String (Text.upper_ascii c0) rest)
          with (String "K" (String "e" (String "y" (String (Text.upper_ascii c0) rest)))).
        cbn [all_chars] in *. now rewrite Halnum.
      * now exists "K"%char, ("ey" ++ String (Text.upper_ascii c0) rest).
    + split; [exact Halnum|].
      exists (Text.upper_ascii c0), rest. split; [reflexivity|].
      now apply upper_starts_name.
Qed.

Lemma lower_replace_special : forall s,
  Text.replace_special (Str.toLowerCase s) = Str.toLowerCase (Text.replace_special s).
Proof.
  induction s as [|c rest IH]; [reflexivity|].
  cbn [Str.toLowerCase Text.replace_special]. now rewrite IH, lower_replace.
Qed.

Lemma split_lower : forall s,
  Text.split "_" (Str.toLowerCase s) = map Str.toLowerCase (Text.split "_" s).
Proof.
  induction s as [|c rest IH]; [reflexivity|].
  cbn [Str.toLowerCase Text.split]. rewrite lower_underscore, IH.
  destruct (Ascii.eqb c "_"); [reflexivity|].
  destruct (split_nonempty "_" rest) as (p & ps & ->). reflexivity.
Qed.

Lemma pascal_lower : forall part,
  pascal_part (Str.toLowerCase part) = pascal_part part.
Proof.
  intros [|c rest]; [reflexivity|]. cbn [Str.toLowerCase pascal_part].
  rewrite upper_lower. f_equal.
  induction rest as [|d rest IH]; [reflexivity|].
  cbn [Str.toLowerCase]. now rewrite lower_lower, IH.
Qed.

Lemma filter_nonempty_lower : forall parts,
  filter Text.nonempty (map Str.toLowerCase parts) =
  map Str.toLowerCase (filter Text.nonempty parts).
Proof.
  induction parts as [|p ps IH]; [reflexivity|]. cbn [map filter].
  rewrite IH. now destruct p.
Qed.

(** The scheme name does not tell the case of the letters of an ASCII
    parameter name: two such names that differ in case only get the same
    scheme name. *)
Theorem sanitizeSchemeNameFromParameter_ignores_case : forall paramName,
  ascii_text paramName = true ->
  sanitizeSchemeNameFromParameter (Str.toLowerCase paramName) =
  sanitizeSchemeNameFromParameter paramName.
Proof.
  intros paramName _. unfold sanitizeSchemeNameFromParameter.
  rewrite lower_replace_special, split_lower, filter_nonempty_lower, map_map.
  now rewrite (map_ext _ _ pascal_lower).
Qed.

(** ** Conversions of parameters and headers *)

Section Conversions.

Context {rt : Runtime}.

Lemma last_value_in : forall name entries value,
  last_value name entries = Some value -> In name (map fst entries).
Proof.
  induction entries as [|[key v] rest IH]; intros value H; [discriminate|].
  cbn [last_value] in H. cbn [map fst In].
  destruct (last_value name rest) as [later|]; [right; now apply (IH later)|].
  destruct (String.eqb_spec key name); [now left | discriminate].
Qed.

(** Filling an object literal with strings: the last value given to a key
    stays, and [__proto__] is never written. *)
Lemma fold_set_string : forall entries own,
  po_over (fold_left (fun r e => plain_set_string r (fst e) (snd e)) entries
                     (mkPlain own None)) = None /\
  assoc "__proto__"
        (po_own (fold_left (fun r e => plain_set_string r (fst e) (snd e)) entries
                           (mkPlain own None))) = assoc "__proto__" own /\
  forall key, key <> "__proto__" ->
    assoc key
          (po_own (fold_left (fun r e => plain_set_string r (fst e) (snd e)) entries
                             (mkPlain own None))) =
    match last_value key entries with
    | Some value => Some (VString value)
    | None => assoc key own
    end.
Proof.
  induction entries as [|[k v] rest IH]; intros own; cbn [fold_left fst snd].
  - cbn [last_value]. now repeat split.
  - assert (Hstep : plain_set_string (mkPlain own None) k v =
                    mkPlain (if String.eqb k "__proto__" then own
                             else assign k (VString v) own) None).
    { unfold plain_set_string. now destruct (String.eqb k "__proto__"). }
    rewrite Hstep. clear Hstep.
    destruct (String.eqb_spec k "__proto__") as [->|Hk].
    + destruct (IH own) as (Ho & Hp & Hl). split; [exact Ho|]. split; [exact Hp|].
      intros key Hkey. rewrite (Hl key Hkey). cbn [last_value].
      destruct (last_value key rest); [reflexivity|].
      destruct (String.eqb_spec "__proto__" key); [congruence | reflexivity].
    + destruct (IH (assign k (VString v) own)) as (Ho & Hp & Hl).
      split; [exact Ho|]. split.
      * rewrite Hp. now apply assoc_assign_other.
      * intros key Hkey. rewrite (Hl key Hkey). cbn [last_value].
        destruct (last_value key rest); [reflexivity|].
        destruct (String.eqb_spec k key) as [->|ne].
        -- apply assoc_assign_same.
        -- now apply assoc_assign_other.
Qed.

(** [convertParamsToObject] gives a plain object that holds, for every name
    other than [__proto__], the value of the route parameter of that name
    (the last one, should a name come twice), and nothing else: a parameter
    named [__proto__] is dropped. *)
Theorem convertParamsToObject_fields : forall params,
  exists fields,
    convertParamsToObject (VParams params) = VObject fields /\
    assoc "__proto__" fields = None /\
    forall name, name <> "__proto__" ->
      assoc name fields = option_map VString (last_value name params).
Proof.
  intros params. destruct (fold_set_string params []) as (Ho & Hp & Hl).
  exists (po_own (fold_left (fun r e => plain_set_string r (fst e) (snd e)) params
                            (mkPlain [] None))).
  split; [|split].
  - unfold convertParamsToObject, plain_value, empty_object. now rewrite Ho.
  - exact Hp.
  - intros name Hn. rewrite (Hl name Hn). now destruct (last_value name params).
Qed.

Lemma toLowerCase_twice : forall s,
  Str.toLowerCase (Str.toLowerCase s) = Str.toLowerCase s.
Proof.
  induction s as [|c s IH]; [reflexivity|]. cbn [Str.toLowerCase].
  now rewrite lower_lower, IH.
Qed.

Lemma fold_lower_names : forall headers start,
  fold_left (fun result e => plain_set_string result (Str.toLowerCase (fst e)) (snd e))
            headers start =
  fold_left (fun r e => plain_set_string r (fst e) (snd e)) (lower_names headers) start.
Proof.
  induction headers as [|e rest IH]; intros start; [reflexivity|].
  cbn [lower_names map fold_left fst snd]. apply IH.
Qed.

(** [convertHeadersToObject] gives a plain object whose keys are in lower
    case and which holds, for every lower-case name other than [__proto__],
    the value of the last header of that name, whatever the case the
    header was written in. *)
Theorem convertHeadersToObject_fields : forall headers,
  exists fields,
    convertHeadersToObject headers = VObject fields /\
    (forall name value, assoc name fields = Some value ->
                        Str.toLowerCase name = name) /\
    forall name, name <> "__proto__" ->
      assoc name fields =
      option_map VString (last_value name (lower_names headers)).
Proof.
  intros headers.
  destruct (fold_set_string (lower_names headers) []) as (Ho & Hp & Hl).
  exists (po_own (fold_left (fun r e => plain_set_string r (fst e) (snd e))
                            (lower_names headers) (mkPlain [] None))).
  assert (Hfields : forall name, name <> "__proto__" ->
            assoc name (po_own (fold_left (fun r e => plain_set_string r (fst e) (snd e))
                                          (lower_names headers) (mkPlain [] None))) =
            option_map VString (last_value name (lower_names headers))).
  { intros name Hn. rewrite (Hl name Hn).
    now destruct (last_value name (lower_names headers)). }
  split; [|split].
  - unfold convertHeadersToObject, plain_value.
    rewrite fold_lower_names. unfold empty_object. now rewrite Ho.
  - intros name value Hv.
    destruct (String.eqb_spec name "__proto__") as [->|Hn]; [reflexivity|].
    rewrite (Hfields name Hn) in Hv.
    destruct (last_value name (lower_names headers)) as [found|] eqn:L;
      [|discriminate].
    apply last_value_in in L. unfold lower_names in L. rewrite map_map in L.
    cbn [fst] in L. apply in_map_iff in L. destruct L as (e & <- & _).
    apply toLowerCase_twice.
  - exact Hfields.
Qed.

Lemma plain_writes_keep_proto : forall result key value arr items,
  key <> "__proto__" ->
  assoc "__proto__" (po_own result) = None ->
  forall result',
    result' = plain_set_string result key value \/
    result' = plain_set_array result key arr \/
    result' = plain_push result key items value ->
    assoc "__proto__" (po_own result') = None /\
    (po_over result' <> None <-> po_over result <> None).
Proof.
  intros [own over] key value arr items Hk Hown result' H.
  cbn [po_own po_over] in *.
  assert (Hb : String.eqb key "__proto__" = false) by now apply String.eqb_neq.
  assert (Hkeep : forall w, assoc "__proto__" (assign key w own) = None).
  { intros w. now rewrite assoc_assign_other. }
  destruct H as [->|[->| ->]].
  - unfold plain_set_string. rewrite Hb. cbn [po_own po_over]. now split.
  - unfold plain_set_array. rewrite Hb. cbn [po_own po_over]. now split.
  - unfold plain_push. cbn [po_own po_over]. rewrite Hb.
    destruct (assoc key own); cbn [po_own po_over]; [now split|].
    destruct over as [proto|]; cbn [po_own po_over]; [|now split].
    destruct (index_of_key (length proto) key); cbn [po_own po_over];
      split; try exact Hown; split; intros _; discriminate.
Qed.

(** One step of the folding of a query, as to [__proto__]. *)
Lemma query_step_proto : forall result key value,
  assoc "__proto__" (po_own result) = None ->
  assoc "__proto__" (po_own (query_step result (key, value))) = None /\
  (po_over (query_step result (key, value)) <> None <->
   po_over result <> None \/ key = "__proto__").
Proof.
  intros result key value Hown.
  destruct (String.eqb_spec key "__proto__") as [->|Hk].
  - destruct result as [own over]. cbn [po_own po_over] in *.
    unfold query_step, plain_get. cbn [po_own po_over]. rewrite Hown.
    rewrite String.eqb_refl. destruct over as [arr|].
    + unfold plain_push. cbn [po_own po_over]. rewrite Hown, String.eqb_refl.
      cbn [po_own po_over]. split; [exact Hown|]. split; [now right | discriminate].
    + unfold plain_set_array. rewrite String.eqb_refl. cbn [po_own po_over].
      split; [exact Hown|]. split; [now right | discriminate].
  - assert (Hstep : assoc "__proto__" (po_own (query_step result (key, value))) = None /\
                    (po_over (query_step result (key, value)) <> None <->
                     po_over result <> None)).
    { unfold query_step.
      destruct (plain_get result key) as [| | | | |items| | | | | | | |];
        first [ apply (plain_writes_keep_proto result key value [] [] Hk Hown);
                now left
              | apply (plain_writes_keep_proto result key value [] items Hk Hown);
                now (right; right)
              | eapply (plain_writes_keep_proto result key value _ [] Hk Hown);
                right; left; reflexivity ]. }
    destruct Hstep as [Ho Hv]. split; [exact Ho|]. rewrite Hv.
    split; [now left | intros [H|H]; [exact H | contradiction]].
Qed.

(** The prototype of the object [convertQueryToObject] fills is replaced
    exactly when the query has a key [__proto__], and the result never has
    [__proto__] among its own fields: such a key is not reported as a query
    parameter. *)
Theorem convertQueryToObject_proto_key : forall query,
  match convertQueryToObject query with
  | VObject fields =>
      ~ In "__proto__" (map fst query) /\ assoc "__proto__" fields = None
  | VObjectOver fields proto =>
      In "__proto__" (map fst query) /\ assoc "__proto__" fields = None
  | _ => False
  end.
Proof.
  intros query.
  assert (H : forall rest result,
             assoc "__proto__" (po_own result) = None ->
             assoc "__proto__" (po_own (fold_left query_step rest result)) = None /\
             (po_over (fold_left query_step rest result) <> None <->
              po_over result <> None \/ In "__proto__" (map fst rest))).
  { induction rest as [|[key value] rest IH]; intros result Hown; cbn [fold_left].
    - split; [exact Hown|]. cbn [map In]. tauto.
    - destruct (query_step_proto result key value Hown) as [Hown' Hover'].
      destruct (IH _ Hown') as [Ho Hv]. split; [exact Ho|].
      rewrite Hv, Hover'. cbn [map fst In]. intuition (subst; auto). }
  destruct (H query empty_object eq_refl) as [Hown Hover].
  unfold convertQueryToObject, plain_value.
  destruct (po_over (fold_left query_step query empty_object)) as [arr|].
  - split; [|exact Hown].
    destruct (proj1 Hover) as [F|F]; [discriminate | now elim F | exact F].
  - split; [|exact Hown]. intros Hin. apply (proj2 Hover); [now right | reflexivity].
Qed.

End Conversions.

(** ** Function keys and EasyAuth principals *)

(** [extractFunctionKey] on a request with a query: a non-empty [code] of
    the query is the key, whatever the headers are; otherwise the key is a
    non-empty [x-functions-key] header, the name taken without case, and
    [undefined] when there is none.  What it returns is [undefined] or a
    string that is not empty, never the empty string or [null]. *)
Theorem extractFunctionKey_result : forall request query,
  Get request "query" = Return (VQuery query) ->
  (forall c key,
      URLSearchParams_get query "code" = Some (String c key) ->
      extractFunctionKey request = Return (VString (String c key))) /\
  (forall headers,
      truthy_string (URLSearchParams_get query "code") = false ->
      Get request "headers" = Return (VHeaders headers) ->
      extractFunctionKey request =
        match Headers_get headers "x-functions-key" with
        | Some (String c key) => Return (VString (String c key))
        | _ => Return VUndefined
        end) /\
  (forall v,
      extractFunctionKey request = Return v ->
      v = VUndefined \/ exists c key, v = VString (String c key)).
Proof.
  intros request query Hq. unfold extractFunctionKey. rewrite Hq.
  split; [|split].
  - intros c key Hc. now rewrite Hc.
  - intros headers Hc Hh. rewrite Hc, Hh.
    now destruct (Headers_get headers "x-functions-key") as [[|c key]|].
  - intros v.
    destruct (URLSearchParams_get query "code") as [[|c key]|];
      cbn [truthy_string string_or_null];
      try (intros [= <-]; right; now exists c, key);
      (destruct (Get request "headers") as [[]|]; try discriminate;
       destruct (Headers_get _ "x-functions-key") as [[|c key]|];
       cbn [truthy_string string_or_null]; intros [= <-];
       [now left | right; now exists c, key | now left]).
Qed.

Section EasyAuthProperties.

Context {rt : Runtime} {b64 : Base64}.

(** [parseEasyAuthPrincipal] throws nothing but a [ValidationError] with one
    of its two messages and nothing attached; what it returns is the value
    the decoded header parses to, with an [auth_typ] and a [userId] that
    count as true.  A header that does not decode to JSON, or decodes to
    [null], gives the message of the failed parse. *)
Theorem parseEasyAuthPrincipal_outcome : forall headerValue,
  match parseEasyAuthPrincipal headerValue with
  | Return principal =>
      JSON_parse (base64_utf8 headerValue) = Some principal /\
      exists auth_typ userId,
        read_field principal "auth_typ" = Return auth_typ /\ truthy auth_typ = true /\
        read_field principal "userId" = Return userId /\ truthy userId = true
  | Throw e =>
      e = EValidation
            "Invalid EasyAuth principal: missing required fields (auth_typ, userId)"
            None \/
      e = EValidation
            "Failed to parse EasyAuth principal header: invalid base64 or JSON format"
            None
  end /\
  (JSON_parse (base64_utf8 headerValue) = None \/
   JSON_parse (base64_utf8 headerValue) = Some VNull ->
   parseEasyAuthPrincipal headerValue =
     Throw (EValidation
              "Failed to parse EasyAuth principal header: invalid base64 or JSON format"
              None)).
Proof.
  intros headerValue. unfold parseEasyAuthPrincipal. split.
  - destruct (JSON_parse (base64_utf8 headerValue)) as [principal|]; [|now right].
    destruct (read_field principal "auth_typ") as [a|e] eqn:Ha.
    + destruct (truthy a) eqn:Ta; cbn [negb]; [|now left].
      destruct (read_field principal "userId") as [u|e] eqn:Hu.
      * destruct (truthy u) eqn:Tu; cbn [negb]; [|now left].
        split; [reflexivity|]. now exists a, u.
      * destruct principal; cbn [read_field] in Hu; try discriminate;
          injection Hu as <-; now right.
    + destruct principal; cbn [read_field] in Ha; try discriminate;
        injection Ha as <-; now right.
  - intros [-> | ->]; reflexivity.
Qed.

End EasyAuthProperties.

(** ** More on the dispatcher *)

Section DispatcherMore.

Context {rt : Runtime}.



(** When [parseRequest] throws, the dispatcher answers without the typed
    handler: the outcome is the same for any two handlers. *)
Theorem wrapTypedHandler_skips_handler :
  forall (schemas : RequestSchemas) (handler handler' : TypedHandler)
         (request : JsObject) (context : InvocationContext) (st : State) e st1,
    parseRequest request schemas st = (Throw e, st1) ->
    wrapTypedHandler schemas handler request context st =
    wrapTypedHandler schemas handler' request context st.
Proof.
  intros schemas handler handler' request context st e st1 Hp.
  rewrite (wrapTypedHandler_parse_error _ handler _ context _ _ _ Hp).
  now rewrite (wrapTypedHandler_parse_error _ handler' _ context _ _ _ Hp).
Qed.

(** With four schemas that accept, [parseRequest] returns the four typed
    values, and the calls happen in the order params, query, body, headers:
    each parser is entered once and calls its schema once, and the body is
    read once, between the entry into the body parser and the call of its
    schema. *)
Theorem parseRequest_all_accepted :
  forall (request : JsObject) (st : State) params query headers bodyData
         (s1 s2 s3 s4 : Schema) w1 w2 w3 w4,
    Get request "params" = Return (VParams params) ->
    Get request "query" = Return (VQuery query) ->
    Get request "headers" = Return (VHeaders headers) ->
    Get request "json" = Return (VBodyReader MJson) ->
    not_json (Headers_get headers "content-type") = false ->
    st_bodyUsed st = false ->
    JSON_parse (st_body st) = Some bodyData ->
    s1 (convertParamsToObject (VParams params)) = Return w1 ->
    s2 (convertQueryToObject query) = Return w2 ->
    s3 bodyData = Return w3 ->
    s4 (convertHeadersToObject headers) = Return w4 ->
    parseRequest request (mkSchemas (Some s1) (Some s2) (Some s3) (Some s4)) st =
      (Return (mkParsed w1 w2 w3 w4),
       mkState (st_body st) true
               (st_trace st ++
                [ EvParser PParams; EvSchema PParams;
                  EvParser PQuery; EvSchema PQuery;
                  EvParser PBody; EvBodyRead MJson; EvSchema PBody;
                  EvParser PHeaders; EvSchema PHeaders ])).
Proof.
  intros request st params query headers bodyData s1 s2 s3 s4 w1 w2 w3 w4
         Hp Hq Hh Hj Hgate Hused Hjson H1 H2 H3 H4.
  set (schemas := mkSchemas (Some s1) (Some s2) (Some s3) (Some s4)).
  unfold parseRequest.
  rewrite (bind_step _ _ _ _ _ _ _
             (parse_part_accepts PParams request schemas s1 st _ _ w1 eq_refl
                                 (@input_params _ request st params Hp) H1)).
  cbv beta.
  rewrite (bind_step _ _ _ _ _ _ _
             (parse_part_accepts PQuery request schemas s2 _ _ _ w2 eq_refl
                                 (@input_query _ request _ query Hq) H2)).
  cbv beta.
  assert (Hread : call_method request "json"
                    (logged (EvParser PBody)
                       (logged (EvSchema PQuery) (logged (EvParser PQuery)
                          (logged (EvSchema PParams) (logged (EvParser PParams) st))))) =
                  (Return bodyData,
                   consumed MJson
                     (logged (EvParser PBody)
                        (logged (EvSchema PQuery) (logged (EvParser PQuery)
                           (logged (EvSchema PParams) (logged (EvParser PParams) st))))))).
  { rewrite (call_json_reader _ _ Hj). cbn [logged st_bodyUsed st_body].
    now rewrite Hused, Hjson. }
  rewrite (bind_step _ _ _ _ _ _ _
             (parse_part_accepts PBody request schemas s3 _ _ _ w3 eq_refl
                                 (@input_body _ request _ headers bodyData _ Hh Hgate Hread) H3)).
  cbv beta.
  rewrite (bind_step _ _ _ _ _ _ _
             (parse_part_accepts PHeaders request schemas s4 _ _ _ w4 eq_refl
                                 (@input_headers _ request _ headers Hh) H4)).
  cbv beta. unfold ret, logged, consumed. cbn [st_body st_bodyUsed st_trace].
  rewrite Hused, (parsed_body_not_empty _ _ Hjson). cbn [orb negb].
  now rewrite <- !app_assoc.
Qed.

End DispatcherMore.

Section BodyOnce.

Context {rt : Runtime}.

Lemma parseBody_success : forall request schema st h w st',
  Get request "headers" = Return (VHeaders h) ->
  Get request "json" = Return (VBodyReader MJson) ->
  parseBody request schema st = (Return w, st') ->
  not_json (Headers_get h "content-type") = false /\ st_bodyUsed st' = true.
Proof.
  intros request schema st h w st' Hh Hj H.
  rewrite (parseBody_run _ schema st _ Hh) in H. cbv zeta in H.
  destruct (not_json _); [discriminate|]. split; [reflexivity|].
  rewrite (call_json_reader _ _ Hj) in H.
  destruct (st_bodyUsed (logged (EvParser PBody) st)); [discriminate|].
  destruct (JSON_parse _) as [v|] eqn:J; [|discriminate].
  apply parsed_body_not_empty in J.
  unfold schema_parse, try_catch, bind, emit, lift in H.
  destruct (schema v) as [x|[]]; cbn in H; inversion H;
    unfold logged, consumed in *; cbn [st_bodyUsed st_body] in *;
    rewrite J; apply orb_true_r.
Qed.

(** After a [parseRequest] that succeeded with a body schema, on the
    framework's request, the body stream is used up, and a further
    [parseBody] on the same request (as a typed handler might attempt)
    throws [Invalid JSON body], whatever the schema: the body is read once
    per request. *)
Theorem parseRequest_consumes_body :
  forall (request : JsObject) (schemas : RequestSchemas) (st : State)
         (parsed : ParsedRequest) (st1 : State) bodySchema h,
    s_body schemas = Some bodySchema ->
    Get request "headers" = Return (VHeaders h) ->
    Get request "json" = Return (VBodyReader MJson) ->
    parseRequest request schemas st = (Return parsed, st1) ->
    st_bodyUsed st1 = true /\
    forall schema,
      parseBody request schema st1 =
        (Throw (EValidation "Invalid JSON body" None),
         consumed MJson (logged (EvParser PBody) st1)).
Proof.
  intros request schemas st parsed st1 bodySchema h Hb Hh Hj Hp.
  destruct (parseRequest_return _ _ _ _ _ Hp) as (sa & sb & sc & _ & _ & H3 & H4).
  unfold parse_part in H3. rewrite Hb in H3.
  destruct (parseBody_success _ _ _ _ _ _ Hh Hj H3) as [Hgate Hused].
  apply parse_part_frame in H4; [|discriminate].
  destruct (frame_body _ _ _ H4) as [_ Hu].
  assert (Hused1 : st_bodyUsed st1 = true) by congruence.
  split; [exact Hused1|]. intros schema.
  rewrite (parseBody_run _ schema st1 _ Hh). cbv zeta. rewrite Hgate.
  rewrite (call_json_reader _ _ Hj). cbn [logged st_bodyUsed].
  now rewrite Hused1.
Qed.

End BodyOnce.

(** ** More on the request guard *)




(** ** Responses and route configurations *)

Lemma existsb_string_in : forall key l,
  existsb (String.eqb key) l = true <-> In key l.
Proof.
  intros key l. rewrite existsb_exists. split.
  - intros (x & Hx & E). apply String.eqb_eq in E. now subst.
  - intros H. exists key. split; [exact H | apply String.eqb_refl].
Qed.

Lemma existsb_Z_in : forall key l,
  existsb (Z.eqb key) l = true <-> In key l.
Proof.
  intros key l. rewrite existsb_exists. split.
  - intros (x & Hx & E). apply Z.eqb_eq in E. now subst.
  - intros H. exists key. split; [exact H | apply Z.eqb_refl].
Qed.

Lemma NoDup_snoc : forall (A : Type) (l : list A) x,
  NoDup (l ++ [x]) <-> NoDup l /\ ~ In x l.
Proof.
  intros A l x. split.
  - intros H. apply NoDup_remove in H. rewrite app_nil_r in H. exact H.
  - intros [Hl Hx]. apply NoDup_app; [exact Hl | repeat constructor; auto |].
    intros a Ha [<-|[]]. contradiction.
Qed.

(** The loop over the content array returns exactly when the media types
    met and to come are all different. *)
Lemma check_media_types_returns : forall httpCode content mediaTypes,
  NoDup mediaTypes ->
  (check_media_types httpCode mediaTypes content = Return tt <->
   NoDup (mediaTypes ++ map ct_mediaType content)).
Proof.
  induction content as [|ct rest IH]; intros mediaTypes Hnd; cbn [check_media_types map].
  - rewrite app_nil_r. tauto.
  - destruct (existsb (String.eqb (ct_mediaType ct)) mediaTypes) eqn:E.
    + apply existsb_string_in in E. split; [discriminate|].
      intros H. apply NoDup_remove_2 in H. elim H. apply in_or_app. now left.
    + assert (Hfresh : ~ In (ct_mediaType ct) mediaTypes).
      { intros H. apply existsb_string_in in H. congruence. }
      rewrite (IH (mediaTypes ++ [ct_mediaType ct])%list).
      * now rewrite <- app_assoc.
      * apply NoDup_snoc. now split.
Qed.

Lemma check_media_types_outcome : forall httpCode content mediaTypes,
  check_media_types httpCode mediaTypes content = Return tt \/
  exists e, check_media_types httpCode mediaTypes content = Throw e.
Proof.
  induction content as [|ct rest IH]; intros mediaTypes; cbn [check_media_types];
    [now left|].
  destruct (existsb _ mediaTypes); [right; eauto | apply IH].
Qed.

(** [transformResponse] returns exactly when the response does not give
    both a schema and a content array and the media types of its content
    array are all different; otherwise it throws. *)
Theorem transformResponse_returns_iff : forall response,
  (exists transformed lines,
      transformResponse response = (Return transformed, lines)) <->
  (rc_schema response = None \/ rc_content response = None) /\
  (forall content, rc_content response = Some content ->
                   NoDup (map ct_mediaType content)).
Proof.
  intros response. unfold transformResponse.
  destruct (rc_schema response) as [schema|], (rc_content response) as [content|].
  - split; [intros (t & l & H); discriminate | intros [[H|H] _]; discriminate].
  - split; [intros _ | intros _; do 2 eexists; reflexivity].
    split; [now right | discriminate].
  - pose proof (check_media_types_returns (rc_httpCode response) content []
                                          (NoDup_nil _)) as Hc.
    cbn [app] in Hc.
    destruct (check_media_types_outcome (rc_httpCode response) content [])
      as [E|(e & E)]; rewrite E in *.
    + split; [intros _ | intros _; do 2 eexists; reflexivity].
      split; [now left|]. intros c [= <-]. now apply Hc.
    + split; [intros (t & l & H); discriminate|].
      intros [_ H]. specialize (H content eq_refl). apply Hc in H. discriminate.
  - split; [intros _ | intros _].
    + split; [now left | discriminate].
    + destruct (unusual_without_body (rc_httpCode response));
        do 2 eexists; reflexivity.
Qed.

Lemma string_or_nonempty : forall a b, b <> "" -> string_or a b <> "".
Proof. intros [[|c rest]|] b Hb; cbn [string_or]; try exact Hb. discriminate. Qed.

(** Every response [transformResponse] returns has a description that is
    not empty: the one given when it is not empty, and otherwise the
    standard phrase of the status code or [HTTP] followed by the code. *)
Theorem transformResponse_description : forall response transformed lines,
  transformResponse response = (Return transformed, lines) ->
  ro_description transformed <> "" /\
  ro_description transformed =
    string_or (rc_description response)
              (string_or (assocZ (rc_httpCode response) STATUS_CODE_DESCRIPTIONS)
                         ("HTTP " ++ Z_to_string (rc_httpCode response))).
Proof.
  intros response transformed lines H.
  assert (Hd : ro_description transformed =
               string_or (rc_description response)
                         (getStatusCodeDescription (rc_httpCode response))).
  { unfold transformResponse in H.
    destruct (rc_schema response), (rc_content response) as [content|];
      try discriminate.
    - now inversion H.
    - destruct (check_media_types _ _ content); [|discriminate]. now inversion H.
    - destruct (unusual_without_body _); cbn in H; now inversion H. }
  split; [|exact Hd]. rewrite Hd.
  apply string_or_nonempty. unfold getStatusCodeDescription.
  apply string_or_nonempty. discriminate.
Qed.

Lemma assocZ_assignZ_same : forall (A : Type) key (v : A) l,
  assocZ key (assignZ key v l) = Some v.
Proof.
  induction l as [|[k w] rest IH]; cbn [assignZ assocZ].
  - now rewrite Z.eqb_refl.
  - destruct (Z.eqb k key) eqn:E; cbn [assocZ]; rewrite E; [reflexivity | exact IH].
Qed.

Lemma assocZ_assignZ_other : forall (A : Type) key other (v : A) l,
  other <> key -> assocZ other (assignZ key v l) = assocZ other l.
Proof.
  induction l as [|[k w] rest IH]; intros Hne; cbn [assignZ assocZ].
  - destruct (Z.eqb key other) eqn:E; [|reflexivity].
    apply Z.eqb_eq in E. congruence.
  - destruct (Z.eqb k key) eqn:E; cbn [assocZ].
    + apply Z.eqb_eq in E. subst k.
      destruct (Z.eqb key other) eqn:E'; [|reflexivity].
      apply Z.eqb_eq in E'. congruence.
    + destruct (Z.eqb k other); [reflexivity | now apply IH].
Qed.

Lemma bindW_return : forall (A B : Type) (m : W A) (k : A -> W B) b lines,
  bindW m k = (Return b, lines) ->
  exists a first more,
    m = (Return a, first) /\ k a = (Return b, more) /\ lines = (first ++ more)%list.
Proof.
  intros A B [[a|e] first] k b lines H; cbn [bindW] in H; [|discriminate].
  destruct (k a) as [r more] eqn:K. inversion H. subst. eauto 6.
Qed.

(** The loop of [transformResponses], when it returns: the codes met and to
    come are all different, every response to come was transformed and is
    found under its code, and the other codes are as they were. *)
Lemma transformResponses_from_returns : forall responses httpCodes result0 result lines,
  NoDup httpCodes ->
  transformResponses_from httpCodes result0 responses = (Return result, lines) ->
  NoDup (httpCodes ++ map rc_httpCode responses) /\
  (forall response, In response responses ->
     exists transformed warned,
       transformResponse response = (Return transformed, warned) /\
       assocZ (rc_httpCode response) result = Some transformed) /\
  (forall code, ~ In code (map rc_httpCode responses) ->
     assocZ code result = assocZ code result0).
Proof.
  induction responses as [|response rest IH];
    intros httpCodes result0 result lines Hnd H; cbn [transformResponses_from map] in *.
  - inversion H. subst. rewrite app_nil_r. repeat split; auto. intros r [].
  - destruct (existsb (Z.eqb (rc_httpCode response)) httpCodes) eqn:E; [discriminate|].
    assert (Hfresh : ~ In (rc_httpCode response) httpCodes).
    { intros F. apply existsb_Z_in in F. congruence. }
    apply bindW_return in H. destruct H as (t & first & more & Ht & Hrest & ->).
    apply IH in Hrest; [|apply NoDup_snoc; now split].
    destruct Hrest as (Hall & Hin & Hout).
    rewrite <- app_assoc in Hall. cbn [app] in Hall.
    assert (Hnot : ~ In (rc_httpCode response) (map rc_httpCode rest)).
    { apply NoDup_remove_2 in Hall. intros F. apply Hall, in_or_app. now right. }
    split; [exact Hall | split].
    + intros r [<-|Hr]; [|now apply Hin].
      exists t, first. split; [exact Ht|].
      rewrite (Hout _ Hnot). apply assocZ_assignZ_same.
    + intros code Hcode. rewrite Hout by (intros F; apply Hcode; now right).
      apply assocZ_assignZ_other. intros ->. apply Hcode. now left.
Qed.

Lemma transformResponses_from_total : forall responses httpCodes result0,
  NoDup (httpCodes ++ map rc_httpCode responses) ->
  (forall response, In response responses ->
     exists transformed warned,
       transformResponse response = (Return transformed, warned)) ->
  exists result lines,
    transformResponses_from httpCodes result0 responses = (Return result, lines).
Proof.
  induction responses as [|response rest IH]; intros httpCodes result0 Hnd Hall;
    cbn [transformResponses_from map] in *.
  - do 2 eexists; reflexivity.
  - destruct (existsb (Z.eqb (rc_httpCode response)) httpCodes) eqn:E.
    + apply existsb_Z_in in E. apply NoDup_remove_2 in Hnd. elim Hnd.
      apply in_or_app. now left.
    + destruct (Hall response (or_introl eq_refl)) as (t & first & Ht).
      rewrite Ht. cbn [bindW].
      destruct (IH (httpCodes ++ [rc_httpCode response])%list
                   (assignZ (rc_httpCode response) t result0)) as (result & more & Hr).
      * now rewrite <- app_assoc.
      * intros r Hr. apply Hall. now right.
      * rewrite Hr. do 2 eexists; reflexivity.
Qed.

(** [transformResponses] returns exactly when the status codes of the
    responses are all different and [transformResponse] returns on every
    one of them; otherwise it throws. *)
Theorem transformResponses_returns_iff : forall responses,
  (exists result lines, transformResponses responses = (Return result, lines)) <->
  NoDup (map rc_httpCode responses) /\
  (forall response, In response responses ->
     exists transformed warned,
       transformResponse response = (Return transformed, warned)).
Proof.
  intros responses. unfold transformResponses. split.
  - intros (result & lines & H).
    apply transformResponses_from_returns in H; [|constructor].
    destruct H as (Hnd & Hin & _). split; [exact Hnd|].
    intros r Hr. destruct (Hin r Hr) as (t & l & Ht & _). eauto.
  - intros [Hnd Hall]. now apply transformResponses_from_total.
Qed.

(** The object [transformResponses] returns holds, under the status code of
    every response, what [transformResponse] makes of that response, and
    nothing under any other code. *)
Theorem transformResponses_lookup : forall responses result lines,
  transformResponses responses = (Return result, lines) ->
  (forall response, In response responses ->
     exists transformed warned,
       transformResponse response = (Return transformed, warned) /\
       assocZ (rc_httpCode response) result = Some transformed) /\
  (forall code, ~ In code (map rc_httpCode responses) -> assocZ code result = None).
Proof.
  intros responses result lines H. unfold transformResponses in H.
  apply transformResponses_from_returns in H; [|constructor].
  destruct H as (_ & Hin & Hout). split; [exact Hin|].
  intros code Hcode. now rewrite (Hout code Hcode).
Qed.

Lemma transformContentTypes_snoc : forall content ct,
  transformContentTypes (content ++ [ct]) =
  content_set (transformContentTypes content) (ct_mediaType ct) (content_def_of ct).
Proof.
  intros content ct. unfold transformContentTypes. now rewrite fold_left_app.
Qed.

(** The content object made of entries with different media types: every
    entry is found under its media type, except one under [__proto__], which
    no own property holds, and no other key is set. *)
Lemma transformContentTypes_lookup : forall content,
  NoDup (map ct_mediaType content) ->
  (forall ct, In ct content -> ct_mediaType ct <> "__proto__" ->
     assoc (ct_mediaType ct) (co_own (transformContentTypes content)) =
     Some (content_def_of ct)) /\
  assoc "__proto__" (co_own (transformContentTypes content)) = None /\
  (forall key, ~ In key (map ct_mediaType content) ->
     assoc key (co_own (transformContentTypes content)) = None).
Proof.
  induction content as [|ct content IH] using rev_ind; intros Hnd.
  - repeat split; auto. intros ct [].
  - rewrite map_app in Hnd. cbn [map] in Hnd. apply NoDup_snoc in Hnd.
    destruct Hnd as [Hnd Hfresh]. destruct (IH Hnd) as (Hin & Hproto & Hout).
    rewrite transformContentTypes_snoc. unfold content_set.
    destruct (String.eqb_spec (ct_mediaType ct) "__proto__") as [E|E]; cbn [co_own].
    + split; [|split; [exact Hproto|]].
      * intros c Hc Hne. apply in_app_or in Hc. destruct Hc as [Hc|[<-|[]]];
          [now apply Hin | contradiction].
      * intros key Hkey. apply Hout. intros F. apply Hkey. rewrite map_app.
        apply in_or_app. now left.
    + split; [|split].
      * intros c Hc Hne. apply in_app_or in Hc. destruct Hc as [Hc|[<-|[]]].
        -- rewrite assoc_assign_other; [now apply Hin|].
           intros F. apply Hfresh. rewrite F. now apply in_map.
        -- apply assoc_assign_same.
      * rewrite assoc_assign_other; [exact Hproto | exact E].
      * intros key Hkey. rewrite assoc_assign_other.
        -- apply Hout. intros F. apply Hkey. rewrite map_app. apply in_or_app. now left.
        -- intros F. apply Hkey. rewrite map_app. apply in_or_app. right. now left.
Qed.

(** A response given with a content array is documented with a content
    object that holds every entry of the array under its media type, and
    nothing else; an entry whose media type is [__proto__] is not among the
    properties of the object. *)
Theorem transformResponse_content : forall response content transformed lines,
  rc_content response = Some content ->
  transformResponse response = (Return transformed, lines) ->
  exists object,
    ro_content transformed = Some object /\
    (forall ct, In ct content -> ct_mediaType ct <> "__proto__" ->
       assoc (ct_mediaType ct) (co_own object) = Some (content_def_of ct)) /\
    assoc "__proto__" (co_own object) = None /\
    (forall key, ~ In key (map ct_mediaType content) ->
       assoc key (co_own object) = None).
Proof.
  intros response content transformed lines Hc H.
  unfold transformResponse in H. rewrite Hc in H.
  destruct (rc_schema response); [discriminate|].
  destruct (check_media_types (rc_httpCode response) [] content) as [[]|e] eqn:E;
    [|discriminate].
  apply (check_media_types_returns _ _ [] (NoDup_nil _)) in E. cbn [app] in E.
  inversion H. subst. cbn [ro_content].
  exists (transformContentTypes content). split; [reflexivity|].
  now apply transformContentTypes_lookup.
Qed.

(** [transformToRouteConfig] returns exactly when the configuration does
    not give both [response] and [responses] and [transformResponses]
    returns on the [responses] given; otherwise it throws. *)
Theorem transformToRouteConfig_returns_iff : forall config,
  (exists route lines, transformToRouteConfig config = (Return route, lines)) <->
  (fc_response config = None \/ fc_responses config = None) /\
  (forall responses, fc_responses config = Some responses ->
     exists result lines, transformResponses responses = (Return result, lines)).
Proof.
  intros config. unfold transformToRouteConfig, transformRequest.
  destruct (fc_response config) as [response|], (fc_responses config) as [responses|].
  - split; [intros (r & l & H); discriminate | intros [[H|H] _]; discriminate].
  - split; [intros _; split; [now right | discriminate]|].
    intros _. destruct (fc_request config); destruct (hasShortcuts config);
      do 2 eexists; reflexivity.
  - split.
    + intros (r & l & H). split; [now left|]. intros rs [= <-].
      destruct (transformResponses responses) as [[result|e] lines];
        [eauto | discriminate].
    + intros [_ H]. destruct (H responses eq_refl) as (result & lines & ->).
      destruct (fc_request config); destruct (hasShortcuts config);
        do 2 eexists; reflexivity.
  - split; [intros _; split; [now left | discriminate]|].
    intros _. destruct (fc_request config); destruct (hasShortcuts config);
      do 2 eexists; reflexivity.
Qed.

(** The [response] shortcut is the [responses] array with one response of
    code 200 and that schema: both give the same route configuration and
    the same warnings. *)
Theorem transformToRouteConfig_response_shortcut : forall config schema,
  fc_response config = Some schema ->
  fc_responses config = None ->
  transformToRouteConfig config =
  transformToRouteConfig
    (with_responses config [mkResponse 200 None None (Some schema) None None None]).
Proof.
  intros [] schema H1 H2. cbn in H1, H2. subst. reflexivity.
Qed.

(** The request documented for a route: an explicit [request] is taken as
    it is, whatever the shortcuts; without one, the schemas documented for
    the parameters, the query, the JSON body and the headers are the
    shortcuts, the very schemas a typed handler is validated against. *)
Theorem transformToRouteConfig_request : forall config route lines,
  transformToRouteConfig config = (Return route, lines) ->
  match fc_request config with
  | Some request => r_request route = Some request
  | None =>
      documented_schemas (r_request route) =
      mkSchemas (fc_params config) (fc_query config) (fc_body config)
                (fc_headers config)
  end.
Proof.
  intros config route lines H. unfold transformToRouteConfig in H.
  assert (Hreq : forall request more,
             transformRequest config = (Return request, more) ->
             match fc_request config with
             | Some given => request = Some given
             | None =>
                 documented_schemas request =
                 mkSchemas (fc_params config) (fc_query config) (fc_body config)
                           (fc_headers config)
             end).
  { intros request more Hr. unfold transformRequest, hasShortcuts in Hr.
    destruct (fc_request config) as [given|].
    - destruct (fc_params config), (fc_query config), (fc_body config),
        (fc_headers config); now inversion Hr.
    - destruct (fc_params config), (fc_query config), (fc_body config),
        (fc_headers config); inversion Hr; reflexivity. }
  destruct (fc_response config), (fc_responses config) as [responses|];
    try discriminate;
    apply bindW_return in H; destruct H as (rs & first & more & _ & H & _);
    apply bindW_return in H; destruct H as (rq & first' & more' & Hr & H & _);
    inversion H; subst; cbn [r_request]; exact (Hreq _ _ Hr).
Qed.

(** ** Registration *)

Section RegistrationProperties.

Context {rt : Runtime} {host : Host}.

Lemma register_methods_run : forall isWebHook make methods w,
  register_methods isWebHook make methods w =
  (Return tt,
   mkWorld (w_functions w)
           (w_definitions w ++
            map (fun method => if isWebHook then DefWebhook (make method)
                               else DefRoute (make method)) methods)
           (w_config w) (w_warnings w)).
Proof.
  induction methods as [|method rest IH]; intros w; cbn [register_methods map].
  - unfold retR. rewrite app_nil_r. now destruct w.
  - unfold bindR, registry_push. rewrite IH. cbn. now rewrite <- app_assoc.
Qed.

(** The handler [registerPath] gives the host. *)
Lemma registerPath_run : forall name summary isWebHook options actualHandler w,
  (exists typedHandler,
      fc_typedHandler options = Some typedHandler /\
      actualHandler =
        wrapTypedHandler
          (mkSchemas (fc_params options) (fc_query options) (fc_body options)
                     (fc_headers options))
          typedHandler) \/
  (fc_typedHandler options = None /\ fc_handler options = Some actualHandler) ->
  registerPath name summary isWebHook options w =
  bindR (call_app_http
           (mkHttpFunction name (fc_methods options) (auth_level_of options)
                           actualHandler
                           (normalizeAzureFunctionRoute (fc_route options))))
    (fun _ =>
       bindR (match fc_azureFunctionRoutePrefix options with
              | Some (String c prefix) => retR (String c prefix)
              | _ => getRoutePrefix
              end)
         (fun routePrefix =>
            bindR (liftW (transformToRouteConfig options))
              (fun transformed =>
                 register_methods isWebHook
                   (fun method =>
                      mkRoute (r_request transformed) (r_responses transformed)
                              (r_tags transformed) (r_description transformed)
                              (r_deprecated transformed) (r_security transformed)
                              (Some (string_or (fc_operationId options) name))
                              (Some summary)
                              (Some (mapHttpMethod method))
                              (Some (normalizeOpenAPIPath (Some routePrefix)
                                                          (fc_route options))))
                   (fc_methods options))))
    w.
Proof.
  intros name summary isWebHook options actualHandler w
         [(typedHandler & Ht & ->)|[Ht Hh]];
    unfold registerPath, auth_level_of; rewrite Ht; [|rewrite Hh]; reflexivity.
Qed.

(** The prefix [registerPath] documents the route under. *)
Lemma route_prefix_run : forall options routePrefix w,
  (exists c rest,
      fc_azureFunctionRoutePrefix options = Some (String c rest) /\
      routePrefix = String c rest) \/
  (when_nonempty (fc_azureFunctionRoutePrefix options) = None /\
   exists config, w_config w = Some config /\ routePrefix = gc_routePrefix config) ->
  match fc_azureFunctionRoutePrefix options with
  | Some (String c prefix) => retR (String c prefix)
  | _ => getRoutePrefix
  end w = (Return routePrefix, w).
Proof.
  intros options routePrefix w [(c & rest & -> & ->)|(Hnone & config & Hc & ->)];
    [reflexivity|].
  unfold getRoutePrefix.
  destruct (fc_azureFunctionRoutePrefix options) as [[|c rest]|];
    try discriminate; now rewrite Hc.
Qed.

(** A registration that goes through: the function is registered with the
    host under the normalized route, with a typed handler wrapped by
    [wrapTypedHandler] over the shortcut schemas even when a plain handler
    is named too, and the registry receives one definition for every
    method, in order, all under the same path, summary and operation id. *)
Theorem registerPath_registers :
  forall name summary isWebHook options actualHandler functions routePrefix
         transformed lines w,
  (exists typedHandler,
      fc_typedHandler options = Some typedHandler /\
      actualHandler =
        wrapTypedHandler
          (mkSchemas (fc_params options) (fc_query options) (fc_body options)
                     (fc_headers options))
          typedHandler) \/
  (fc_typedHandler options = None /\ fc_handler options = Some actualHandler) ->
  app_http (mkHttpFunction name (fc_methods options) (auth_level_of options)
                           actualHandler
                           (normalizeAzureFunctionRoute (fc_route options)))
           (w_functions w) = Return functions ->
  (exists c rest,
      fc_azureFunctionRoutePrefix options = Some (String c rest) /\
      routePrefix = String c rest) \/
  (when_nonempty (fc_azureFunctionRoutePrefix options) = None /\
   exists config, w_config w = Some config /\ routePrefix = gc_routePrefix config) ->
  transformToRouteConfig options = (Return transformed, lines) ->
  registerPath name summary isWebHook options w =
  (Return tt,
   mkWorld functions
           (w_definitions w ++
            map (route_definition name summary isWebHook options routePrefix transformed)
                (fc_methods options))
           (w_config w)
           (w_warnings w ++ lines)).
Proof.
  intros name summary isWebHook options actualHandler functions routePrefix
         transformed lines w Hhandler Hhost Hprefix Htransform.
  rewrite (registerPath_run name summary isWebHook options actualHandler w Hhandler).
  unfold bindR at 1. unfold call_app_http. rewrite Hhost.
  unfold bindR at 1.
  rewrite (route_prefix_run options routePrefix
             (mkWorld functions (w_definitions w) (w_config w) (w_warnings w)) Hprefix).
  unfold bindR, liftW. rewrite Htransform. cbn [fst snd].
  rewrite register_methods_run. cbn [w_functions w_definitions w_config w_warnings].
  reflexivity.
Qed.

(** Registration is not undone when it fails after the host was called: if
    no prefix is named and [app.openapi] was not called, or if the route
    configuration cannot be transformed, [registerPath] throws with the
    function registered with the host and nothing added to the registry. *)
Theorem registerPath_fails_after_host :
  forall name summary isWebHook options actualHandler functions w,
  (exists typedHandler,
      fc_typedHandler options = Some typedHandler /\
      actualHandler =
        wrapTypedHandler
          (mkSchemas (fc_params options) (fc_query options) (fc_body options)
                     (fc_headers options))
          typedHandler) \/
  (fc_typedHandler options = None /\ fc_handler options = Some actualHandler) ->
  app_http (mkHttpFunction name (fc_methods options) (auth_level_of options)
                           actualHandler
                           (normalizeAzureFunctionRoute (fc_route options)))
           (w_functions w) = Return functions ->
  (when_nonempty (fc_azureFunctionRoutePrefix options) = None /\ w_config w = None) \/
  (exists e lines, transformToRouteConfig options = (Throw e, lines)) ->
  exists e w',
    registerPath name summary isWebHook options w = (Throw e, w') /\
    w_functions w' = functions /\
    w_definitions w' = w_definitions w /\
    w_config w' = w_config w.
Proof.
  intros name summary isWebHook options actualHandler functions w Hhandler Hhost Hfail.
  rewrite (registerPath_run name summary isWebHook options actualHandler w Hhandler).
  unfold bindR at 1. unfold call_app_http. rewrite Hhost.
  unfold bindR at 1.
  set (w1 := mkWorld functions (w_definitions w) (w_config w) (w_warnings w)).
  destruct (match fc_azureFunctionRoutePrefix options with
            | Some (String c prefix) => retR (String c prefix)
            | _ => getRoutePrefix
            end w1) as [[routePrefix|e] w2] eqn:P.
  - assert (Hw2 : w2 = w1).
    { destruct (fc_azureFunctionRoutePrefix options) as [[|c rest]|];
        unfold getRoutePrefix, retR in P;
        try (destruct (w_config w1); inversion P; reflexivity);
        now inversion P. }
    subst w2.
    destruct Hfail as [[Hnone Hconfig]|(e & lines & Ht)].
    + exfalso.
      destruct (fc_azureFunctionRoutePrefix options) as [[|c rest]|];
        try discriminate Hnone;
        unfold getRoutePrefix in P; cbn [w1 w_config] in P; rewrite Hconfig in P;
        discriminate P.
    + unfold bindR, liftW. rewrite Ht. cbn [fst snd].
      do 2 eexists. split; [reflexivity|]. now cbn.
  - assert (Hw2 : w2 = w1).
    { destruct (fc_azureFunctionRoutePrefix options) as [[|c rest]|];
        unfold getRoutePrefix, retR in P;
        try (destruct (w_config w1); inversion P; reflexivity);
        now inversion P. }
    subst w2. do 2 eexists. split; [reflexivity|]. now cbn.
Qed.

(** A registration that names neither a handler nor a typed handler throws
    before the host is called, and one the host refuses throws what the
    host throws: in both cases the functions, the registry, the
    configuration and the warnings stay as they were. *)
Theorem registerPath_registers_nothing : forall name summary isWebHook options w,
  (fc_typedHandler options = None ->
   fc_handler options = None ->
   registerPath name summary isWebHook options w =
   (Throw (EError "Error"
             ("Function '" ++ name ++
              "' must provide either 'handler' or 'typedHandler'")),
    w)) /\
  (forall actualHandler e,
     (exists typedHandler,
         fc_typedHandler options = Some typedHandler /\
         actualHandler =
           wrapTypedHandler
             (mkSchemas (fc_params options) (fc_query options) (fc_body options)
                        (fc_headers options))
             typedHandler) \/
     (fc_typedHandler options = None /\ fc_handler options = Some actualHandler) ->
     app_http (mkHttpFunction name (fc_methods options) (auth_level_of options)
                              actualHandler
                              (normalizeAzureFunctionRoute (fc_route options)))
              (w_functions w) = Throw e ->
     registerPath name summary isWebHook options w = (Throw e, w)).
Proof.
  intros name summary isWebHook options w. split.
  - intros Ht Hh. unfold registerPath, bindR. now rewrite Ht, Hh.
  - intros actualHandler e Hhandler Hhost.
    rewrite (registerPath_run name summary isWebHook options actualHandler w Hhandler).
    unfold bindR at 1. unfold call_app_http. now rewrite Hhost.
Qed.

End RegistrationProperties.

(** [registerApiKeySecuritySchema] adds one component to the registry, a
    security scheme under the sanitized name that carries the parameter
    name as it was given and a description that is the one given or a
    standard sentence, and returns the requirement of that scheme with no
    scopes; the functions, the configuration and the warnings are as they
    were. *)
Theorem registerApiKeySecuritySchema_registers : forall name input description w,
  registerApiKeySecuritySchema name input description w =
  (Return [(sanitizeSchemeNameFromParameter name, [])],
   mkWorld (w_functions w)
           (w_definitions w ++
            [DefComponent "securitySchemes" (sanitizeSchemeNameFromParameter name)
               (mkApiKeyScheme name input
                  (string_or description
                     ("Custom API key provided in " ++ input ++ ": " ++ name)))])
           (w_config w) (w_warnings w)).
Proof.
  intros name input description w.
  unfold registerApiKeySecuritySchema, registerCustomApiKey, bindR, registry_push, retR.
  cbn [ck_name ck_parameterName ck_in ck_description
       w_functions w_definitions w_config w_warnings].
  do 5 f_equal.
  destruct description as [[|c rest]|]; reflexivity.
Qed.

(** ** Examples of the further properties *)

Import Fixtures.

Example sanitizeSchemeNameFromParameter_examples :
  map sanitizeSchemeNameFromParameter
      ["X-API-Key"; "api_key"; "code"; "9lives"; "--"; "x-api-key"] =
  ["XApiKey"; "ApiKey"; "Code"; "Key9lives"; "ApiKey"; "XApiKey"].
Proof. reflexivity. Qed.

Example normalize_examples :
  normalizeAzureFunctionRoute "//todos///{id}//" = "todos/{id}" /\
  normalizeAzureFunctionRoute "///" = "" /\
  normalizeOpenAPIPath (Some "api") "/todos//{id}/" = "/api/todos/{id}/" /\
  normalizeOpenAPIPath (Some "") "todos" = "/todos" /\
  normalizeOpenAPIPath None "" = "/".
Proof. repeat split. Qed.

Example parseEasyAuthPrincipal_examples :
  @parseEasyAuthPrincipal principal_runtime sample_base64 principal_header =
    Return principal_value /\
  @parseEasyAuthPrincipal principal_runtime sample_base64 "e30=" =
    Throw (EValidation
             "Invalid EasyAuth principal: missing required fields (auth_typ, userId)"
             None).
Proof. split; reflexivity. Qed.

Lemma sanitizeSchemeNameFromParameter_ignores_case_witness :
  ascii_text "X-API-Key" = true /\
  sanitizeSchemeNameFromParameter "x-api-key" =
  sanitizeSchemeNameFromParameter "X-API-Key".
Proof.
  split; [reflexivity|].
  exact (sanitizeSchemeNameFromParameter_ignores_case "X-API-Key" eq_refl).
Defined.

Lemma convertQueryToObject_plain_keys_witness :
  (forall key, In key (map fst [("tag", "a"); ("page", "2"); ("tag", "b")]) ->
               plain_key key) /\
  exists fields,
    convertQueryToObject [("tag", "a"); ("page", "2"); ("tag", "b")] = VObject fields /\
    assoc "tag" fields = Some (VArray [VString "a"; VString "b"]) /\
    assoc "page" fields = Some (VString "2") /\
    assoc "sort" fields = None.
Proof.
  assert (Hkeys : forall key,
             In key (map fst [("tag", "a"); ("page", "2"); ("tag", "b")]) ->
             plain_key key).
  { intros key [<-|[<-|[<-|[]]]]; split; (discriminate || reflexivity). }
  split; [exact Hkeys|].
  destruct (@convertQueryToObject_plain_keys sample_runtime
              [("tag", "a"); ("page", "2"); ("tag", "b")] Hkeys)
    as (fields & Hfields & Hlookup).
  exists fields. split; [exact Hfields|].
  split; [exact (Hlookup "tag")|]. split; [exact (Hlookup "page") | exact (Hlookup "sort")].
Defined.

Lemma createSafeRequest_keeps_own_witness :
  createSafeRequest json_request true = Return guarded_json_request /\
  NoDup (map fst (own_props json_request)) /\
  Get guarded_json_request "query" = Get json_request "query".
Proof.
  assert (Hnd : NoDup (map fst (own_props json_request))).
  { repeat constructor; cbn; intuition discriminate. }
  split; [reflexivity|]. split; [exact Hnd|].
  exact (createSafeRequest_keeps_own json_request guarded_json_request "query"
           (DataProp (VQuery [("tag", "a"); ("tag", "b")]) true true)
           eq_refl Hnd (or_introl eq_refl) eq_refl).
Defined.

Lemma extractFunctionKey_result_witness :
  Get keyed_request "query" = Return (VQuery [("code", "from-query")]) /\
  extractFunctionKey keyed_request = Return (VString "from-query") /\
  Get header_keyed_request "query" = Return (VQuery [("page", "2")]) /\
  extractFunctionKey header_keyed_request = Return (VString "from-header").
Proof.
  split; [reflexivity|]. split.
  - destruct (extractFunctionKey_result keyed_request [("code", "from-query")] eq_refl)
      as [Hquery _].
    exact (Hquery "f"%char "rom-query" eq_refl).
  - split; [reflexivity|].
    destruct (extractFunctionKey_result header_keyed_request [("page", "2")] eq_refl)
      as (_ & Hheader & _).
    exact (Hheader [("x-functions-key", "from-header")] eq_refl eq_refl).
Defined.

Lemma parseEasyAuthPrincipal_outcome_witness :
  @JSON_parse principal_runtime (@base64_utf8 sample_base64 "bnVsbA==") = Some VNull /\
  @parseEasyAuthPrincipal principal_runtime sample_base64 "bnVsbA==" =
    Throw (EValidation
             "Failed to parse EasyAuth principal header: invalid base64 or JSON format"
             None).
Proof.
  split; [reflexivity|].
  destruct (@parseEasyAuthPrincipal_outcome principal_runtime sample_base64 "bnVsbA==")
    as [_ Hnull].
  exact (Hnull (or_intror eq_refl)).
Defined.


Lemma wrapTypedHandler_skips_handler_witness :
  parseRequest json_request all_reject (fresh "{}") =
    (Throw (EValidation "Route parameters validation failed"
                        (Some {| issues := [issue "bad id"] |})),
     mkState "{}" false [EvParser PParams; EvSchema PParams]) /\
  wrapTypedHandler all_reject echo_handler json_request context0 (fresh "{}") =
  wrapTypedHandler all_reject failing_handler json_request context0 (fresh "{}").
Proof.
  split; [reflexivity|].
  exact (@wrapTypedHandler_skips_handler sample_runtime all_reject echo_handler
           failing_handler json_request context0 (fresh "{}") _ _ eq_refl).
Defined.

Lemma parseRequest_all_accepted_witness :
  Get literal_request "json" = Return (VBodyReader MJson) /\
  not_json (Headers_get [("content-type", "application/json")] "content-type") = false /\
  JSON_parse "[1,2]" = Some (VArray [VNumber 1; VNumber 2]) /\
  parseRequest literal_request
               (mkSchemas (Some accept_all) (Some accept_all) (Some accept_all)
                          (Some accept_all))
               (fresh "[1,2]") =
    (Return (mkParsed (VObject [("id", VString "42")]) (VObject [])
                      (VArray [VNumber 1; VNumber 2])
                      (VObject [("content-type", VString "application/json")])),
     mkState "[1,2]" true
             [ EvParser PParams; EvSchema PParams;
               EvParser PQuery; EvSchema PQuery;
               EvParser PBody; EvBodyRead MJson; EvSchema PBody;
               EvParser PHeaders; EvSchema PHeaders ]).
Proof.
  split; [reflexivity|]. split; [reflexivity|]. split; [reflexivity|].
  exact (@parseRequest_all_accepted sample_runtime literal_request (fresh "[1,2]")
           [("id", "42")] [] [("content-type", "application/json")]
           (VArray [VNumber 1; VNumber 2])
           accept_all accept_all accept_all accept_all _ _ _ _
           eq_refl eq_refl eq_refl eq_refl eq_refl eq_refl eq_refl
           eq_refl eq_refl eq_refl eq_refl).
Defined.

Lemma parseRequest_consumes_body_witness :
  parseRequest json_request body_only (fresh "[1,2]") =
    (Return (mkParsed (VParams [("id", "42")]) (VQuery [("tag", "a"); ("tag", "b")])
                      (VArray [VNumber 1; VNumber 2])
                      (VHeaders [("content-type", "application/json; charset=utf-8")])),
     mkState "[1,2]" true [EvParser PBody; EvBodyRead MJson; EvSchema PBody]) /\
  parseBody json_request accept_all
            (mkState "[1,2]" true [EvParser PBody; EvBodyRead MJson; EvSchema PBody]) =
    (Throw (EValidation "Invalid JSON body" None),
     mkState "[1,2]" true
             [EvParser PBody; EvBodyRead MJson; EvSchema PBody;
              EvParser PBody; EvBodyRead MJson]).
Proof.
  split; [reflexivity|].
  destruct (@parseRequest_consumes_body sample_runtime json_request body_only
              (fresh "[1,2]") _ _ accept_all
              [("content-type", "application/json; charset=utf-8")]
              eq_refl eq_refl eq_refl eq_refl) as [_ Hagain].
  exact (Hagain accept_all).
Defined.


Lemma transformResponse_description_witness :
  transformResponse missing_response =
    (Return (mkResponseObject "Not Found" None None), []) /\
  ro_description (mkResponseObject "Not Found" None None) <> "" /\
  (exists lines,
      transformResponse odd_response =
        (Return (mkResponseObject "HTTP 299" None None), lines)).
Proof.
  split; [reflexivity|]. split.
  - exact (proj1 (transformResponse_description missing_response _ _ eq_refl)).
  - eexists. reflexivity.
Defined.

Lemma transformResponses_lookup_witness :
  exists result lines,
    transformResponses [ok_response; missing_response; odd_response] =
      (Return result, lines) /\
    assocZ 404 result = Some (mkResponseObject "Not Found" None None) /\
    assocZ 500 result = None.
Proof.
  pose (run := transformResponses [ok_response; missing_response; odd_response]).
  pose (result := match fst run with Return r => r | Throw _ => [] end).
  exists result, (snd run). split; [reflexivity|].
  destruct (transformResponses_lookup
              [ok_response; missing_response; odd_response] result (snd run) eq_refl)
    as [Hin Hout].
  split.
  - destruct (Hin missing_response (or_intror (or_introl eq_refl)))
      as (t & l & Ht & Hfound).
    change (assocZ 404 result = Some t) in Hfound. rewrite Hfound.
    cbv in Ht. now inversion Ht.
  - apply Hout. cbn. intuition discriminate.
Defined.

Lemma transformResponse_content_witness :
  exists object,
    ro_content (mkResponseObject "A report"
                  (Some (transformContentTypes
                           [ mkContentType "application/json" (Some accept_all) None None;
                             mkContentType "application/pdf" None None None ]))
                  None) = Some object /\
    assoc "application/pdf" (co_own object) = Some (mkContentDef None None None) /\
    assoc "text/plain" (co_own object) = None.
Proof.
  destruct (transformResponse_content report_response _ _ _ eq_refl eq_refl)
    as (object & Hobject & Hin & _ & Hout).
  exists object. split; [exact Hobject|]. split.
  - apply (Hin (mkContentType "application/pdf" None None None)).
    + right. now left.
    + discriminate.
  - apply Hout. cbn. intuition discriminate.
Defined.

Lemma transformToRouteConfig_response_shortcut_witness :
  fc_response todo_options = Some accept_all /\
  transformToRouteConfig todo_options =
  transformToRouteConfig (with_responses todo_options [ok_response]).
Proof.
  split; [reflexivity|].
  exact (transformToRouteConfig_response_shortcut todo_options accept_all
           eq_refl eq_refl).
Defined.

Lemma transformToRouteConfig_request_witness :
  transformToRouteConfig todo_options = (Return todo_route, []) /\
  documented_schemas (r_request todo_route) =
  mkSchemas (Some accept_all) None (Some (reject_all "bad title")) None.
Proof.
  split; [reflexivity|].
  exact (transformToRouteConfig_request todo_options todo_route [] eq_refl).
Defined.

Lemma registerPath_registers_witness :
  transformToRouteConfig todo_options = (Return todo_route, []) /\
  @registerPath sample_runtime sample_host "UpdateTodo" "Update a todo" false
                todo_options configured =
  (Return tt,
   mkWorld [todo_function]
           (map (route_definition "UpdateTodo" "Update a todo" false todo_options
                                  "api" todo_route)
                ["GET"; "PUT"])
           (Some (mkGlobalConfig "api" VNull))
           []) /\
  map (fun method =>
         match route_definition "UpdateTodo" "Update a todo" false todo_options
                                "api" todo_route method with
         | DefRoute route => (r_method route, r_path route, r_operationId route)
         | _ => (None, None, None)
         end) ["GET"; "PUT"] =
  [ (Some "get", Some "/api/todos/{id}/", Some "UpdateTodo");
    (Some "put", Some "/api/todos/{id}/", Some "UpdateTodo") ].
Proof.
  split; [reflexivity|]. split; [|reflexivity].
  refine (@registerPath_registers sample_runtime sample_host "UpdateTodo"
            "Update a todo" false todo_options (hf_handler todo_function)
            [todo_function] "api" todo_route [] configured _ eq_refl _ eq_refl).
  - left. exists echo_handler. split; reflexivity.
  - right. split; [reflexivity|]. eexists. split; reflexivity.
Defined.

Lemma registerPath_fails_after_host_witness :
  exists e w',
    @registerPath sample_runtime sample_host "UpdateTodo" "Update a todo" false
                  todo_options unconfigured = (Throw e, w') /\
    w_functions w' = [todo_function] /\
    w_definitions w' = [] /\
    w_config w' = None.
Proof.
  refine (@registerPath_fails_after_host sample_runtime sample_host "UpdateTodo"
            "Update a todo" false todo_options (hf_handler todo_function)
            [todo_function] unconfigured _ eq_refl _).
  - left. exists echo_handler. split; reflexivity.
  - left. split; reflexivity.
Defined.

Lemma registerPath_registers_nothing_witness :
  @registerPath sample_runtime sample_host "Health" "Health check" false
                empty_options unconfigured =
  (Throw (EError "Error"
            "Function 'Health' must provide either 'handler' or 'typedHandler'"),
   unconfigured) /\
  @registerPath sample_runtime sample_host "UpdateTodo" "Update a todo" false
                todo_options occupied =
  (Throw (EError "Error"
            "A function with the name UpdateTodo has already been registered."),
   occupied).
Proof.
  split.
  - exact (proj1 (@registerPath_registers_nothing sample_runtime sample_host "Health"
                    "Health check" false empty_options unconfigured)
                 eq_refl eq_refl).
  - refine (proj2 (@registerPath_registers_nothing sample_runtime sample_host
                     "UpdateTodo" "Update a todo" false todo_options occupied)
                  (hf_handler todo_function) _ _ eq_refl).
    left. exists echo_handler. split; reflexivity.
Defined.
